(** * Dhamma Pages: the document content model and its derived views

    A shallow embedding of the content-tree code of the note-taking client:

    - [PdfExport]  : [convertNodeToHtml] and [tiptapToHtml], the tree to HTML
                     converter used for printing;
    - [Firebase]   : [extractImagePaths], [deleteImage] and the content
                     encoding done by [updatePage] and [getPage]
                     (client/src/lib/firebase.ts);
    - [PageCard]   : [getPreviewText] and [calculateReadTime]
                     (client/src/components/PageCard.tsx);
    - [UseEditor]  : [extractStoragePathFromUrl] and [trackImagesAndCleanup]
                     (client/src/hooks/useEditor.tsx);
    - [UsePages], [Dashboard], [EditorDraft], [Debounce] : the cleanup of
                     the page editor hook, the search filter, the cleanup of
                     an earlier editor hook and the debounce;
    - [Any]        : the renderer, its entry point and the content encoding
                     read on values of type [any], where a property read, a
                     call and a conversion to a string can throw.

    JavaScript strings are modelled by [string], a JavaScript [number] that
    the code only uses as an integer (heading level, word count) by [Z], an
    optional property by [option], and a [Set<string>] by the list of its
    elements in insertion order.  Nodes have the shape that the interface
    [TiptapNode] declares; in [Any] a value is any JSON value or
    [undefined], and the typed renderer is proved to agree with the one of
    [Any] on the trees of the interface.  The functions of the browser and of the storage
    service (URL parsing, [decodeURIComponent], [JSON.parse],
    [JSON.stringify], [deleteObject]) are section variables of the code that
    calls them; [Browser] gives executable reference models of them, used
    where a property is stated for a concrete browser. *)

From Stdlib Require Import String Ascii List ZArith Lia Bool.
From Stdlib Require Import DecimalString DecimalPos DecimalZ.
From ExtLib Require Import Structures.Monad Structures.MonadState Data.Monads.StateMonad.
Import ListNotations.
Import MonadNotation.
Local Open Scope string_scope.
Local Open Scope monad_scope.

(** ** JavaScript strings, arrays and sets *)

Module Js.

(** The double quote and the line feed, which string literals cannot hold. *)
Definition dq : string := String "034"%char EmptyString.
Definition nl : string := String "010"%char EmptyString.

(** [s.startsWith(p)] *)
Definition startsWith (s p : string) : bool := String.prefix p s.

(** [s.includes(sub)] *)
Fixpoint includes (s sub : string) : bool :=
  if String.prefix sub s then true
  else match s with
       | EmptyString => false
       | String _ s' => includes s' sub
       end.

(** [s.slice(0, n)] *)
Definition slice0 (n : nat) (s : string) : string := String.substring 0 n s.

(** [s.split(c)] for a one-character separator: the pieces between the
    separators, so that the empty string splits into one empty piece. *)
Fixpoint split (sep : ascii) (s : string) : list string :=
  match s with
  | EmptyString => [EmptyString]
  | String c s' =>
      if Ascii.eqb c sep then EmptyString :: split sep s'
      else match split sep s' with
           | [] => [String c EmptyString]
           | w :: ws => String c w :: ws
           end
  end.

(** [arr.join(sep)] on an array of strings. *)
Definition join (sep : string) (l : list string) : string := String.concat sep l.

(** [arr.includes(x)] on an array of strings. *)
Definition arrayIncludes (l : list string) (x : string) : bool :=
  existsb (String.eqb x) l.

(** [String(n)] for an integer below 10^21 in absolute value, where
    JavaScript writes all the digits. *)
Definition numberToString (n : Z) : string := NilZero.string_of_int (Z.to_int n).

(** [Math.ceil(a / b)] for integers [a] and [b > 0]. *)
Definition ceilDiv (a b : Z) : Z := (- ((- a) / b))%Z.

(** A [Set<string>] is the list of its elements in insertion order. *)
Definition setHas (s : list string) (x : string) : bool := existsb (String.eqb x) s.

Definition setAdd (s : list string) (x : string) : list string :=
  if setHas s x then s else s ++ [x].

(** [new Set(arr)] *)
Definition setFromArray (l : list string) : list string := fold_left setAdd l [].

(** The truthiness of an optional string: absent and empty are falsy. *)
Definition truthyStr (o : option string) : bool :=
  match o with
  | Some s => negb (String.eqb s EmptyString)
  | None => false
  end.

(** [o || d] for an optional string. *)
Definition orElse (o : option string) (d : string) : string :=
  match o with
  | Some s => if String.eqb s EmptyString then d else s
  | None => d
  end.

(** [c.toLowerCase()] for a character below 256: the letters A to Z and
    the capital letters of Latin-1 (192 to 222, but for the multiplication
    sign 215) move up by 32. *)
Definition lowerChar (c : ascii) : ascii :=
  let n := nat_of_ascii c in
  if (Nat.leb 65 n && Nat.leb n 90)
     || (Nat.leb 192 n && Nat.leb n 214)
     || (Nat.leb 216 n && Nat.leb n 222)
  then ascii_of_nat (n + 32)
  else c.

(** [s.toLowerCase()] on the strings of this model, whose code units are
    below 256: there the conversion works character by character.  On other
    strings it does not (the lower-case form of a capital sigma depends on
    what surrounds it), so the properties below use of it only that it is a
    function and that converting twice is converting once. *)
Fixpoint toLowerCase (s : string) : string :=
  match s with
  | EmptyString => EmptyString
  | String c s' => String (lowerChar c) (toLowerCase s')
  end.

End Js.

(** ** The content tree (interface [TiptapNode]) *)

Module Tiptap.

Record Mark := mkMark { mark_type : string }.

(** [attrs]: the three declared fields, and of the open-ended ones the two
    that the code reads: [src] and ['data-temp'], the flag of a placeholder
    whose upload is still pending. *)
Record Attrs := mkAttrs {
  level : option Z;
  textAlign : option string;
  checked : option bool;
  src : option string;
  data_temp : option string
}.

Scheme All for list.
Scheme All for option.
Scheme All for prod.

Inductive TiptapNode := mkNode {
  type : string;
  content : option (list TiptapNode);
  text : option string;
  marks : option (list Mark);
  attrs : option Attrs
}.

Definition noAttrs : Attrs := mkAttrs None None None None None.

(** [node.attrs?.f] *)
Definition attr {A} (f : Attrs -> option A) (node : TiptapNode) : option A :=
  match attrs node with
  | Some a => f a
  | None => None
  end.

(** The child nodes, none when [content] is absent. *)
Definition children (node : TiptapNode) : list TiptapNode :=
  match content node with
  | Some l => l
  | None => []
  end.

(** A value of type [any] holding page content: absent, a primitive, an
    array of nodes or one node. *)
Inductive AnyValue :=
| AUndefined
| ANull
| ABool (b : bool)
| ANumber (n : Z)
| AString (s : string)
| AArray (items : list TiptapNode)
| ANode (node : TiptapNode).

(** [!!v] *)
Definition truthy (v : AnyValue) : bool :=
  match v with
  | AUndefined | ANull => false
  | ABool b => b
  | ANumber n => negb (Z.eqb n 0)
  | AString s => negb (String.eqb s EmptyString)
  | AArray _ | ANode _ => true
  end.

(** [typeof v === 'object'] *)
Definition isObject (v : AnyValue) : bool :=
  match v with
  | ANull | AArray _ | ANode _ => true
  | _ => false
  end.

End Tiptap.

Import Tiptap.

(** ** The state the effectful functions act on *)

(** The editor hook's [previousImages] ref, the delete requests received by
    the storage service, and the messages written to the console. *)
Record World := mkWorld {
  previousImages : list string;
  deleteRequests : list string;
  console : list string
}.

Definition consoleWrite (msg : string) : state World unit :=
  w <- get ;;
  put (mkWorld (previousImages w) (deleteRequests w) (console w ++ [msg])).

Definition setPreviousImages (s : list string) : state World unit :=
  w <- get ;;
  put (mkWorld s (deleteRequests w) (console w)).

Definition recordDeleteRequest (path : string) : state World unit :=
  w <- get ;;
  put (mkWorld (previousImages w) (deleteRequests w ++ [path]) (console w)).

(** ** The HTML renderer *)

Module PdfExport.

Import Js.

(** One step of [node.marks.forEach]: wrap the text built so far. *)
Definition applyMark (text : string) (mark : Mark) : string :=
  if mark_type mark =? "bold" then "<strong>" ++ text ++ "</strong>"
  else if mark_type mark =? "italic" then "<em>" ++ text ++ "</em>"
  else if mark_type mark =? "underline" then "<u>" ++ text ++ "</u>"
  else if mark_type mark =? "strike" then "<s>" ++ text ++ "</s>"
  else text.

(** The outcome of the [switch] on [node.type]. *)
Inductive SwitchResult :=
| ReturnLiteral (html : string)
| ReturnChildren
| Continue (tag : string) (attrs : list string).

(** [node.attrs?.checked ? 'checked' : ''] *)
Definition checkedWord (node : TiptapNode) : string :=
  match attr checked node with
  | Some true => "checked"
  | _ => EmptyString
  end.

(** [node.attrs?.level || 1] *)
Definition levelOrOne (node : TiptapNode) : Z :=
  match attr level node with
  | Some n => if Z.eqb n 0 then 1%Z else n
  | None => 1%Z
  end.

Definition switchOnType (node : TiptapNode) : SwitchResult :=
  let t := type node in
  if t =? "paragraph" then Continue "p" []
  else if t =? "heading" then Continue ("h" ++ numberToString (levelOrOne node)) []
  else if t =? "bulletList" then Continue "ul" []
  else if t =? "orderedList" then Continue "ol" []
  else if t =? "listItem" then Continue "li" []
  else if t =? "taskList" then Continue "ul" ["class=" ++ dq ++ "task-list" ++ dq]
  else if t =? "taskItem" then
    Continue "li" ["class=" ++ dq ++ "task-item " ++ checkedWord node ++ dq]
  else if t =? "horizontalRule" then ReturnLiteral "<hr />"
  else if t =? "hardBreak" then ReturnLiteral "<br />"
  else if t =? "doc" then ReturnChildren
  else Continue "div" [].

(** The tags after which a line break is added. *)
Definition blockTags : list string :=
  ["p"; "h1"; "h2"; "h3"; "h4"; "h5"; "h6"; "ul"; "ol"; "li"; "hr"; "div"].

(** The text-alignment attribute, pushed when [node.attrs?.textAlign] is
    truthy. *)
Definition alignAttr (node : TiptapNode) : list string :=
  if truthyStr (attr textAlign node)
  then ["style=" ++ dq ++ "text-align: " ++ orElse (attr textAlign node) EmptyString ++ dq]
  else [].

(** The checkbox that precedes the open tag of a task item. *)
Definition taskCheckbox (node : TiptapNode) : string :=
  if type node =? "taskItem"
  then "<input type=" ++ dq ++ "checkbox" ++ dq ++ " " ++ checkedWord node ++ " disabled /> "
  else EmptyString.

(** [`<${tag}${attrs.length ? ' ' + attrs.join(' ') : ''}>`] *)
Definition openTag (tag : string) (attrs : list string) : string :=
  "<" ++ tag ++ match attrs with
                | [] => EmptyString
                | _ => " " ++ join " " attrs
                end ++ ">".

(** Everything after the [switch], given the rendered children. *)
Definition wrapElement (node : TiptapNode) (tag : string) (attrs0 : list string)
    (inner : string) : string :=
  let attrs := (attrs0 ++ alignAttr node)%list in
  let html := taskCheckbox node in
  let html := html ++ openTag tag attrs in
  let html := html ++ inner in
  let html := html ++ "</" ++ tag ++ ">" in
  if arrayIncludes blockTags tag then html ++ nl else html.

(** The text branch: the text wrapped by each mark in turn. *)
Definition renderText (node : TiptapNode) : string :=
  let text := orElse (text node) EmptyString in
  match marks node with
  | Some ms => fold_left applyMark ms text
  | None => text
  end.

(** The guard [if (!node) return ''] is with [convertAnyToHtml] below: a
    node is an object, and every object is truthy. *)
Fixpoint convertNodeToHtml (node : TiptapNode) : string :=
  if type node =? "text" then renderText node
  else
    let inner :=
      match node with
      | mkNode _ (Some l) _ _ _ => join EmptyString (map convertNodeToHtml l)
      | mkNode _ None _ _ _ => EmptyString
      end in
    match switchOnType node with
    | ReturnLiteral html => html
    | ReturnChildren => inner
    | Continue tag attrs => wrapElement node tag attrs inner
    end.

(** A value that is not a node read as one: every property read on a
    primitive or on an array ([type], [content], [attrs], ...) is
    [undefined], and an [undefined] type, like the empty one, differs from
    every kind the renderer compares it with. *)
Definition asNode (v : AnyValue) : TiptapNode :=
  match v with
  | ANode n => n
  | _ => mkNode EmptyString None None None None
  end.

(** [convertNodeToHtml] on a value of any type, with its guard
    [if (!node) return ''], which no node triggers. *)
Definition convertAnyToHtml (v : AnyValue) : string :=
  if negb (truthy v) then EmptyString else convertNodeToHtml (asNode v).

(** [parsedContent.type === 'doc' || parsedContent.content] *)
Definition isDocOrHasContent (v : AnyValue) : bool :=
  match v with
  | ANode n => (type n =? "doc") || match content n with Some _ => true | None => false end
  | _ => false
  end.

Section TiptapToHtml.

(** [JSON.parse]: [None] when it throws a [SyntaxError]. *)
Variable JSON_parse : string -> option AnyValue.

(** [tiptapToHtml] on the values of the interface.  The outer [try] guards
    code in which, on these values, only [JSON.parse] can throw, and that
    exception is caught by the inner handler; the outer handler is never
    entered here and is left out.  [Any.tiptapToHtml] below reads the same
    code on every value, where the conversion can throw, and has the outer
    handler. *)
Definition tiptapToHtml (content : AnyValue) : state World string :=
  let parsed :=
    match content with
    | AString s => JSON_parse s
    | _ => Some content
    end in
  match parsed with
  | None =>
      consoleWrite "Failed to parse content:" ;;
      ret "<p>Error: Invalid content format</p>"
  | Some parsedContent =>
      if negb (truthy parsedContent) then ret "<p>No content to export</p>"
      else if isDocOrHasContent parsedContent then ret (convertAnyToHtml parsedContent)
      else match parsedContent with
           | AArray items => ret (join EmptyString (map convertNodeToHtml items))
           | _ => ret (convertAnyToHtml parsedContent)
           end
  end.

End TiptapToHtml.

End PdfExport.

(** ** The shared types (interface [Page]) *)

Module Shared.

(** Dates are milliseconds since the epoch. *)
Record Page := mkPage {
  id : string;
  title : string;
  content : AnyValue;
  createdAt : Z;
  updatedAt : Z;
  userId : string
}.

End Shared.

(** ** The persistence layer (firebase.ts) *)

Module Firebase.

Import Js.

(** The longest prefix of [s] whose characters satisfy [p], and the rest. *)
Fixpoint span (p : ascii -> bool) (s : string) : string * string :=
  match s with
  | EmptyString => (EmptyString, EmptyString)
  | String c s' =>
      if p c then let (a, b) := span p s' in (String c a, b)
      else (EmptyString, s)
  end.

(** [s] without its first [n] characters. *)
Fixpoint drop (n : nat) (s : string) : string :=
  match n, s with
  | S n', String _ s' => drop n' s'
  | _, _ => s
  end.

Definition nonEmpty (s : string) : bool := negb (s =? EmptyString).

(** The regular expression [/\/v0\/b\/[^/]+\/o\/([^?]+)/] tried at the start
    of [s]: its first group.  Both classes are greedy and what follows them
    cannot start inside their run, so each takes its longest run. *)
Definition matchBucketObjectHere (s : string) : option string :=
  if String.prefix "/v0/b/" s then
    let (bucket, rest) := span (fun c => negb (Ascii.eqb c "/"%char)) (drop 6 s) in
    if nonEmpty bucket && String.prefix "/o/" rest then
      let (object, _) := span (fun c => negb (Ascii.eqb c "?"%char)) (drop 3 rest) in
      if nonEmpty object then Some object else None
    else None
  else None.

(** [pathname.match(...)]: the match at the leftmost position that has one. *)
Fixpoint matchBucketObject (s : string) : option string :=
  match matchBucketObjectHere s with
  | Some g => Some g
  | None =>
      match s with
      | EmptyString => None
      | String _ s' => matchBucketObject s'
      end
  end.

Section ExtractImagePaths.

(** [new URL(src).pathname]: [None] when the constructor throws. *)
Variable URL_pathname : string -> option string.

(** [decodeURIComponent]: [None] when it throws a [URIError]. *)
Variable decodeURIComponent : string -> option string.

(** The body of the [try] for a Firebase Storage URL: the path pushed, if
    any; a thrown exception is caught and only logged. *)
Definition firebaseObjectPath (src : string) : option string :=
  match URL_pathname src with
  | None => None
  | Some pathname =>
      match matchBucketObject pathname with
      | Some g => decodeURIComponent g
      | None => None
      end
  end.

(** What [traverse] pushes for an image whose [src] is the string [src]. *)
Definition imagePathOf (src : string) : option string :=
  if includes src "firebasestorage.googleapis.com" then firebaseObjectPath src
  else if startsWith src "users/" && includes src "/images/" then Some src
  else if startsWith src "http" then Some src
  else None.

(** What [traverse] pushes for the node itself. *)
Definition ownPath (node : TiptapNode) : list string :=
  if type node =? "image" then
    match attr src node with
    | Some s =>
        match imagePathOf s with
        | Some p => [p]
        | None => []
        end
    | None => []
    end
  else [].

(** [traverse(node)]: the paths pushed, in order. *)
Fixpoint traverse (node : TiptapNode) : list string :=
  (ownPath node ++
   match node with
   | mkNode _ (Some l) _ _ _ => flat_map traverse l
   | mkNode _ None _ _ _ => []
   end)%list.

(** [content.content] is an array for every value of the interface, so the
    branch for a single object is not entered. *)
Definition extractImagePaths (content : option TiptapNode) : list string :=
  match content with
  | None => []
  | Some c =>
      match Tiptap.content c with
      | None => []
      | Some l => setFromArray (flat_map traverse l)
      end
  end.

End ExtractImagePaths.

Section DeleteImage.

(** The storage service: whether [deleteObject] of a path resolves. *)
Variable deleteObject : string -> bool.

Definition deleteImage (imagePath : string) : state World unit :=
  if imagePath =? EmptyString then ret tt
  else
    recordDeleteRequest imagePath ;;
    if deleteObject imagePath then ret tt
    else consoleWrite "Error deleting image:".

End DeleteImage.

Section PageContent.

Variable JSON_stringify : AnyValue -> string.
Variable JSON_parse : string -> option AnyValue.

(** [updatePage]: the [content] field written to the document store. *)
Definition updatePageContent (content : AnyValue) : AnyValue :=
  if truthy content && isObject content then AString (JSON_stringify content)
  else content.

Definition emptyDoc : TiptapNode := mkNode "doc" (Some []) None None None.

(** [getPage]: the [content] of the page returned for the stored field. *)
Definition getPageContent (stored : AnyValue) : AnyValue :=
  let content :=
    match stored with
    | AString s =>
        match JSON_parse s with
        | Some v => v
        | None => stored
        end
    | _ => stored
    end in
  if truthy content then content else ANode emptyDoc.

End PageContent.

(** [createPage]: the [content] field of the new document,
    [pageData.content || { type: 'doc', content: [] }]. *)
Definition createPageContent (content : AnyValue) : AnyValue :=
  if truthy content then content else ANode emptyDoc.

(** [searchPages]: the filter applied to the pages that the query
    returned. *)
Definition searchPages (pages : list Shared.Page) (searchTerm : string) : list Shared.Page :=
  filter (fun page => includes (toLowerCase (Shared.title page)) (toLowerCase searchTerm))
         pages.

(** A character that the class [[^a-zA-Z0-9.-]] does not match. *)
Definition isSafeChar (c : ascii) : bool :=
  let n := nat_of_ascii c in
  (Nat.leb 97 n && Nat.leb n 122) || (Nat.leb 65 n && Nat.leb n 90)
  || (Nat.leb 48 n && Nat.leb n 57) || Ascii.eqb c "."%char || Ascii.eqb c "-"%char.

(** [name.replace(/[^a-zA-Z0-9.-]/g, '_')] *)
Fixpoint sanitizeFileName (name : string) : string :=
  match name with
  | EmptyString => EmptyString
  | String c r => String (if isSafeChar c then c else "_"%char) (sanitizeFileName r)
  end.

(** [uploadImage]: the storage path of the file, for the value [timestamp]
    of [Date.now()]. *)
Definition imagePathFor (timestamp : Z) (userId fileName : string) : string :=
  let filename := numberToString timestamp ++ "-" ++ sanitizeFileName fileName in
  "users/" ++ userId ++ "/images/" ++ filename.

Section UploadImage.

(** The storage service: whether [uploadBytes] to a path resolves, and the
    address that [getDownloadURL] gives for it, if it resolves. *)
Variable uploadBytes : string -> bool.
Variable getDownloadURL : string -> option string.

(** [None] is the thrown [Error('Failed to upload image')]; on success the
    pair is [{url, path}]. *)
Definition uploadImage (timestamp : Z) (userId fileName : string)
    : state World (option (string * string)) :=
  let imagePath := imagePathFor timestamp userId fileName in
  if uploadBytes imagePath then
    match getDownloadURL imagePath with
    | Some downloadURL => ret (Some (downloadURL, imagePath))
    | None => consoleWrite "Error uploading image:" ;; ret None
    end
  else consoleWrite "Error uploading image:" ;; ret None.

End UploadImage.

End Firebase.

(** ** The dashboard card (PageCard.tsx) *)

Module PageCard.

Import Js.

(** [extractText] on one node: the callback given to [nodes.map]. *)
Fixpoint extractTextOfNode (node : TiptapNode) : string :=
  if type node =? "text" then orElse (text node) EmptyString
  else
    match node with
    | mkNode _ (Some l) _ _ _ => join " " (map extractTextOfNode l)
    | mkNode _ None _ _ _ => EmptyString
    end.

Definition extractText (nodes : list TiptapNode) : string :=
  join " " (map extractTextOfNode nodes).

Definition getPreviewText (content : option TiptapNode) : string :=
  match content with
  | None => EmptyString
  | Some c =>
      match Tiptap.content c with
      | None => EmptyString
      | Some l =>
          let text := extractText l in
          slice0 150 text ++ (if Nat.ltb 150 (String.length text) then "..." else EmptyString)
      end
  end.

(** [text.split(' ').length] *)
Definition words (content : option TiptapNode) : Z :=
  Z.of_nat (List.length (split " "%char (getPreviewText content))).

(** [Math.ceil(words / 200)] *)
Definition minutes (content : option TiptapNode) : Z := ceilDiv (words content) 200.

Definition calculateReadTime (content : option TiptapNode) : string :=
  numberToString (minutes content) ++ " min read".

End PageCard.

(** ** The editor hook (useEditor.tsx) *)

Module UseEditor.

Import Js.

(** A character that [.] does not match. *)
Definition isLineTerminator (c : ascii) : bool :=
  Ascii.eqb c "010"%char || Ascii.eqb c "013"%char.

(** The lazy [.*?] followed by [(\?|$)]: the shortest run that ends before a
    question mark or at the end of the input. *)
Fixpoint lazyUntilQuestionOrEnd (s : string) : option string :=
  match s with
  | EmptyString => Some EmptyString
  | String c s' =>
      if Ascii.eqb c "?"%char then Some EmptyString
      else if isLineTerminator c then None
      else option_map (String c) (lazyUntilQuestionOrEnd s')
  end.

(** The regular expression [/\/o\/(.+?)(\?|$)/] tried at the start of [s]:
    its first group. *)
Definition matchObjectHere (s : string) : option string :=
  if String.prefix "/o/" s then
    match Firebase.drop 3 s with
    | EmptyString => None
    | String c s' =>
        if isLineTerminator c then None
        else option_map (String c) (lazyUntilQuestionOrEnd s')
    end
  else None.

(** [pathname.match(...)]: the match at the leftmost position that has one. *)
Fixpoint matchObject (s : string) : option string :=
  match matchObjectHere s with
  | Some g => Some g
  | None =>
      match s with
      | EmptyString => None
      | String _ s' => matchObject s'
      end
  end.

(** The test that selects the URLs of the storage service. *)
Definition isFirebaseUrl (url : string) : bool :=
  includes url "firebasestorage.googleapis.com"
  || (includes url "firebase" && includes url "token=").

Section Hook.

Variable URL_pathname : string -> option string.
Variable decodeURIComponent : string -> option string.
Variable deleteObject : string -> bool.

(** [null] is [None]; an exception thrown by [new URL] or by
    [decodeURIComponent] is caught, logged and turned into [null]. *)
Definition extractStoragePathFromUrl (url : string) : state World (option string) :=
  if isFirebaseUrl url then
    match URL_pathname url with
    | None =>
        consoleWrite "Error extracting storage path from URL:" ;; ret None
    | Some pathname =>
        match matchObject pathname with
        | Some g =>
            match decodeURIComponent g with
            | Some p => ret (Some p)
            | None =>
                consoleWrite "Error extracting storage path from URL:" ;; ret None
            end
        | None => ret None
        end
    end
  else ret None.

(** [extractImages(node)], threading the set [currentImages]. *)
Fixpoint extractImages (node : TiptapNode) (currentImages : list string) : list string :=
  let currentImages :=
    if (type node =? "image") && truthyStr (attr src node) then
      let src := orElse (attr src node) EmptyString in
      if isFirebaseUrl src then setAdd currentImages src else currentImages
    else currentImages in
  match node with
  | mkNode _ (Some l) _ _ _ =>
      fold_left (fun acc child => extractImages child acc) l currentImages
  | mkNode _ None _ _ _ => currentImages
  end.

(** The body of the [for] loop over [deletedImages]. *)
Definition cleanupOne (imageUrl : string) : state World unit :=
  if negb (includes imageUrl "blob:") then
    storagePath <- extractStoragePathFromUrl imageUrl ;;
    if truthyStr storagePath then
      consoleWrite "Deleting image from storage:" ;;
      Firebase.deleteImage deleteObject (orElse storagePath EmptyString)
    else ret tt
  else ret tt.

Fixpoint cleanupAll (deletedImages : list string) : state World unit :=
  match deletedImages with
  | [] => ret tt
  | imageUrl :: rest => cleanupOne imageUrl ;; cleanupAll rest
  end.

(** [uid] is [user?.uid]. *)
Definition trackImagesAndCleanup (uid : option string) (currentContent : TiptapNode)
    : state World unit :=
  if negb (truthyStr uid) then ret tt
  else
    let currentImages := extractImages currentContent [] in
    w <- get ;;
    let deletedImages :=
      filter (fun url => negb (setHas currentImages url)) (previousImages w) in
    cleanupAll deletedImages ;;
    let nonTempImages :=
      filter (fun url => negb (includes url "blob:")) currentImages in
    setPreviousImages nonTempImages.

End Hook.

(** [loadPage]: its [extractImages(node)], which skips the nodes with a
    truthy ['data-temp'], threading the set [initialImages]. *)
Fixpoint loadedImages (node : TiptapNode) (initialImages : list string) : list string :=
  let initialImages :=
    if (type node =? "image") && truthyStr (attr src node)
       && negb (truthyStr (attr data_temp node)) then
      let src := orElse (attr src node) EmptyString in
      if isFirebaseUrl src then setAdd initialImages src else initialImages
    else initialImages in
  match node with
  | mkNode _ (Some l) _ _ _ =>
      fold_left (fun acc child => loadedImages child acc) l initialImages
  | mkNode _ None _ _ _ => initialImages
  end.

End UseEditor.

(** ** The page editor hook (usePages.tsx) *)

Module UsePages.

Import Js.

Section Hook.

Variable URL_pathname : string -> option string.
Variable decodeURIComponent : string -> option string.
Variable deleteObject : string -> bool.

(** [Promise.all(imagesToDelete.map(path => deleteImage(path)))]: the
    requests start in the order of the array, and [deleteImage] never
    rejects. *)
Fixpoint deleteAll (imagesToDelete : list string) : state World unit :=
  match imagesToDelete with
  | [] => ret tt
  | path :: rest => Firebase.deleteImage deleteObject path ;; deleteAll rest
  end.

(** [deletePageImages(content)] for the value [usedImagePaths] of the state
    variable: the value that the state variable has afterwards.  The
    warnings that [extractImagePaths] logs are left out of the console. *)
Definition deletePageImages (uid pageId : option string) (usedImagePaths : list string)
    (content : option TiptapNode) : state World (list string) :=
  if negb (truthyStr uid) || negb (truthyStr pageId) then ret usedImagePaths
  else
    let currentImagePaths :=
      Firebase.extractImagePaths URL_pathname decodeURIComponent content in
    let currentPathsSet := setFromArray currentImagePaths in
    let imagesToDelete :=
      filter (fun path => negb (setHas currentPathsSet path)) usedImagePaths in
    deleteAll imagesToDelete ;;
    ret (setFromArray currentImagePaths).

End Hook.

End UsePages.

(** ** The dashboard and the sidebar *)

Module Dashboard.

Import Js.

(** [searchTerm ? pages.filter(...) : pages] *)
Definition filteredPages (pages : list Shared.Page) (searchTerm : string) : list Shared.Page :=
  if negb (searchTerm =? EmptyString) then
    filter (fun page => includes (toLowerCase (Shared.title page)) (toLowerCase searchTerm))
           pages
  else pages.

(** [pages.slice(0, 10)] *)
Definition recentPages (pages : list Shared.Page) : list Shared.Page := firstn 10 pages.

End Dashboard.

(** ** An earlier editor hook (src/unnamed/part_005) *)

Module EditorDraft.

Import Js.

Definition notSlash (c : ascii) : bool := negb (Ascii.eqb c "/"%char).

(** A literal of a regular expression with the flag [i], tried at the start
    of [s]. *)
Fixpoint prefixIgnoreCase (p s : string) : bool :=
  match p, s with
  | EmptyString, _ => true
  | String a p', String b s' =>
      Ascii.eqb (lowerChar a) (lowerChar b) && prefixIgnoreCase p' s'
  | String _ _, EmptyString => false
  end.

(** [.replace(/^https:\/\/[^/]+\/v0\/b\/[^/]+/i, '')]: each class is followed
    by a slash or by nothing, so it takes its longest run. *)
Definition stripBucket (s : string) : string :=
  if prefixIgnoreCase "https://" s then
    let (host, rest) := Firebase.span notSlash (Firebase.drop 8 s) in
    if Firebase.nonEmpty host && prefixIgnoreCase "/v0/b/" rest then
      let (bucket, rest') := Firebase.span notSlash (Firebase.drop 6 rest) in
      if Firebase.nonEmpty bucket then rest' else s
    else s
  else s.

(** [.replace(/^\/o\//, '')] *)
Definition stripObjectMark (s : string) : string :=
  if String.prefix "/o/" s then Firebase.drop 3 s else s.

(** No character of [s] is a line terminator, so [.*] matches all of it. *)
Fixpoint oneLine (s : string) : bool :=
  match s with
  | EmptyString => true
  | String c r => negb (UseEditor.isLineTerminator c) && oneLine r
  end.

(** [.replace(/\?.*$/, '')]: the cut at the first question mark that no line
    terminator follows. *)
Fixpoint stripQuery (s : string) : string :=
  match s with
  | EmptyString => EmptyString
  | String c r =>
      if Ascii.eqb c "?"%char && oneLine r then EmptyString
      else String c (stripQuery r)
  end.

(** The value of [normalizedOldPath] and of [normalizedNewPath]. *)
Definition normalizedPath (path : string) : string :=
  stripQuery (stripObjectMark (stripBucket path)).

(** [oldImagePaths.filter(oldPath => !newImagePaths.some(...))] *)
Definition imagesToDelete (oldImagePaths newImagePaths : list string) : list string :=
  filter (fun oldPath =>
            negb (existsb (fun newPath => normalizedPath newPath =? normalizedPath oldPath)
                          newImagePaths))
         oldImagePaths.

Section Hook.

Variable URL_pathname : string -> option string.
Variable decodeURIComponent : string -> option string.
Variable deleteObject : string -> bool.

(** The body of the [for] loop: an exception thrown by [new URL] or by
    [decodeURIComponent] is caught and logged.  The group of
    [/\/o\/(.+?)(?:\?|$)/] is that of the expression of
    [extractStoragePathFromUrl], and it is never empty. *)
Definition deleteOne (path : string) : state World unit :=
  if startsWith path "http" then
    match URL_pathname path with
    | None => consoleWrite "Error deleting image:"
    | Some pathname =>
        match UseEditor.matchObject pathname with
        | Some g =>
            match decodeURIComponent g with
            | Some pathToDelete =>
                consoleWrite "Deleting image from path:" ;;
                Firebase.deleteImage deleteObject pathToDelete
            | None => consoleWrite "Error deleting image:"
            end
        | None =>
            consoleWrite "Deleting image from path:" ;;
            Firebase.deleteImage deleteObject path
        end
    end
  else
    consoleWrite "Deleting image from path:" ;;
    Firebase.deleteImage deleteObject path.

Fixpoint deleteEach (paths : list string) : state World unit :=
  match paths with
  | [] => ret tt
  | path :: rest => deleteOne path ;; deleteEach rest
  end.

(** [deleteUnusedImages(oldContent, newContent)]; the warnings that
    [extractImagePaths] logs are left out of the console. *)
Definition deleteUnusedImages (oldContent newContent : option TiptapNode)
    : state World unit :=
  match oldContent with
  | None => ret tt
  | Some _ =>
      let oldImagePaths :=
        Firebase.extractImagePaths URL_pathname decodeURIComponent oldContent in
      let newImagePaths :=
        Firebase.extractImagePaths URL_pathname decodeURIComponent newContent in
      consoleWrite "Old image paths:" ;;
      consoleWrite "New image paths:" ;;
      consoleWrite "Images to delete:" ;;
      deleteEach (imagesToDelete oldImagePaths newImagePaths)
  end.

End Hook.

End EditorDraft.

(** ** The debounce of the editor hooks

    [debounce(fn, delay)] with the timers of the platform.  The platform
    gives each timer a fresh positive identifier and runs the callback of a
    pending timer at some moment that is not before the timer is due; which
    moment, the events say. *)

Module Debounce.

Section Debounce.

(** The arguments of [fn]. *)
Variable A : Type.

Record Timer := mkTimer {
  timer_id : nat;
  due : nat;
  timer_args : A
}.

(** The clock and the pending timers of the platform, the variable
    [timeoutId] of the closure, and the calls of [fn] so far, each with its
    time. *)
Record Loop := mkLoop {
  now : nat;
  nextId : nat;
  pending : list Timer;
  timeoutId : option nat;
  calls : list (nat * A)
}.

Definition start : Loop := mkLoop 0 1 [] None [].

(** [setTimeout(() => fn(...args), delay)]: the identifier and the state. *)
Definition setTimeout (args : A) (delay : nat) (s : Loop) : nat * Loop :=
  (nextId s,
   mkLoop (now s) (S (nextId s))
     (pending s ++ [mkTimer (nextId s) (now s + delay) args])
     (timeoutId s) (calls s)).

(** [clearTimeout(id)] *)
Definition clearTimeout (id : nat) (s : Loop) : Loop :=
  mkLoop (now s) (nextId s)
    (filter (fun t => negb (Nat.eqb (timer_id t) id)) (pending s))
    (timeoutId s) (calls s).

(** The function that [debounce(fn, delay)] returns, called with [args]. *)
Definition debounced (delay : nat) (args : A) (s : Loop) : Loop :=
  let s :=
    match timeoutId s with
    | Some id => if Nat.eqb id 0 then s else clearTimeout id s
    | None => s
    end in
  let (id, s) := setTimeout args delay s in
  mkLoop (now s) (nextId s) (pending s) (Some id) (calls s).

(** The platform runs the callback of the timer [id], if that timer is
    pending and due. *)
Definition fire (id : nat) (s : Loop) : Loop :=
  match find (fun t => Nat.eqb (timer_id t) id) (pending s) with
  | Some t =>
      if Nat.leb (due t) (now s) then
        mkLoop (now s) (nextId s)
          (filter (fun t' => negb (Nat.eqb (timer_id t') id)) (pending s))
          (timeoutId s) (calls s ++ [(now s, timer_args t)])
      else s
  | None => s
  end.

(** What happens: the debounced function is called, time passes, or the
    platform tries to run a timer. *)
Inductive Event :=
| Invoke (args : A)
| Elapse (ms : nat)
| Fire (id : nat).

Definition step (delay : nat) (s : Loop) (e : Event) : Loop :=
  match e with
  | Invoke args => debounced delay args s
  | Elapse ms => mkLoop (now s + ms) (nextId s) (pending s) (timeoutId s) (calls s)
  | Fire id => fire id s
  end.

Definition run (delay : nat) (events : list Event) (s : Loop) : Loop :=
  fold_left (step delay) events s.

End Debounce.

Arguments mkTimer {A}.
Arguments timer_id {A}.
Arguments due {A}.
Arguments timer_args {A}.
Arguments mkLoop {A}.
Arguments now {A}.
Arguments nextId {A}.
Arguments pending {A}.
Arguments timeoutId {A}.
Arguments calls {A}.
Arguments start {A}.
Arguments setTimeout {A}.
Arguments clearTimeout {A}.
Arguments debounced {A}.
Arguments fire {A}.
Arguments Invoke {A}.
Arguments Elapse {A}.
Arguments Fire {A}.
Arguments step {A}.
Arguments run {A}.

End Debounce.

(** ** Reference models of the browser functions

    Executable instances of the browser functions that the code calls, for
    the inputs of the examples: absolute http and https URLs whose path
    needs no normalisation, and percent-encoded ASCII. *)

Module Browser.

Definition isOneOf (cs : string) (c : ascii) : bool :=
  Js.includes cs (String c EmptyString).

(** [new URL(url).pathname]; every other string is answered [None]. *)
Definition URL_pathname (url : string) : option string :=
  let afterScheme :=
    if String.prefix "https://" url then Some (Firebase.drop 8 url)
    else if String.prefix "http://" url then Some (Firebase.drop 7 url)
    else None in
  match afterScheme with
  | None => None
  | Some rest =>
      let (host, afterHost) := Firebase.span (fun c => negb (isOneOf "/?#" c)) rest in
      if host =? EmptyString then None
      else
        let (path, _) := Firebase.span (fun c => negb (isOneOf "?#" c)) afterHost in
        Some (if path =? EmptyString then "/" else path)
  end.

Definition hexDigit (c : ascii) : option nat :=
  let n := nat_of_ascii c in
  if Nat.leb 48 n && Nat.leb n 57 then Some (n - 48)
  else if Nat.leb 65 n && Nat.leb n 70 then Some (n - 55)
  else if Nat.leb 97 n && Nat.leb n 102 then Some (n - 87)
  else None.

(** [decodeURIComponent] on escapes of ASCII characters; a malformed escape
    throws, and an escape of a byte above 127 is outside this model. *)
Fixpoint decodeURIComponent (s : string) : option string :=
  match s with
  | EmptyString => Some EmptyString
  | String c rest =>
      if Ascii.eqb c "%"%char then
        match rest with
        | String h (String l rest') =>
            match hexDigit h, hexDigit l with
            | Some a, Some b =>
                if Nat.ltb (a * 16 + b) 128
                then option_map (String (ascii_of_nat (a * 16 + b))) (decodeURIComponent rest')
                else None
            | _, _ => None
            end
        | _ => None
        end
      else option_map (String c) (decodeURIComponent rest)
  end.

(** *** JSON

    A reference [JSON.parse] and [JSON.stringify] for page content: integer
    number literals in their shortest form, strings of characters below 256,
    and objects read through the [TiptapNode] interface (a property of
    another type than the declared one is read as absent).  These typed
    functions stand for [JSON.parse] and [JSON.stringify] on the texts of
    trees of the interface only; a text that holds more (a number with a
    fraction, a child that is [null], further attributes) is outside them.
    [parseJson] and [printK] themselves keep every value, and [Any] uses
    them as they are. *)

Inductive Json :=
| JNull
| JBool (b : bool)
| JNumber (n : Z)
| JString (s : string)
| JArray (items : list Json)
| JObject (members : list (string * Json)).

Definition quoteChar : ascii := "034"%char.
Definition backslash : ascii := "092"%char.

Definition isWhitespace (c : ascii) : bool :=
  Ascii.eqb c " "%char || Ascii.eqb c "009"%char
  || Ascii.eqb c "010"%char || Ascii.eqb c "013"%char.

Fixpoint skipWs (s : string) : string :=
  match s with
  | String c r => if isWhitespace c then skipWs r else s
  | EmptyString => s
  end.

Definition isDigit (c : ascii) : bool :=
  let n := nat_of_ascii c in Nat.leb 48 n && Nat.leb n 57.

(** A fraction or an exponent follows: a number outside this model. *)
Definition startsFraction (s : string) : bool :=
  match s with
  | String c _ => isOneOf ".eE" c
  | EmptyString => false
  end.

(** An integer literal: an optional minus sign and digits, accepted when it
    is the shortest literal of its value (no leading zero, no negative
    zero). *)
Definition parseNumber (s : string) : option (Z * string) :=
  let (sign, s1) :=
    match s with
    | String c r => if Ascii.eqb c "-"%char then ("-", r) else (EmptyString, s)
    | EmptyString => (EmptyString, s)
    end in
  let (digits, rest) := Firebase.span isDigit s1 in
  if startsFraction rest then None
  else
    match NilZero.int_of_string (sign ++ digits) with
    | Some d =>
        let n := Z.of_int d in
        if Js.numberToString n =? sign ++ digits then Some (n, rest) else None
    | None => None
    end.

(** The character written by a simple escape. *)
Definition simpleEscape (e : ascii) : option ascii :=
  if Ascii.eqb e quoteChar then Some quoteChar
  else if Ascii.eqb e backslash then Some backslash
  else if Ascii.eqb e "/"%char then Some "/"%char
  else if Ascii.eqb e "b"%char then Some "008"%char
  else if Ascii.eqb e "f"%char then Some "012"%char
  else if Ascii.eqb e "n"%char then Some "010"%char
  else if Ascii.eqb e "r"%char then Some "013"%char
  else if Ascii.eqb e "t"%char then Some "009"%char
  else None.

Definition hex4 (a b c d : ascii) : option ascii :=
  match hexDigit a, hexDigit b, hexDigit c, hexDigit d with
  | Some 0, Some 0, Some x, Some y => Some (ascii_of_nat (x * 16 + y))
  | _, _, _, _ => None
  end.

Definition consTo (c : ascii) (r : option (string * string)) : option (string * string) :=
  option_map (fun p => (String c (fst p), snd p)) r.

(** The characters of a string literal after its opening quote, and what
    follows its closing quote. *)
Fixpoint parseString (s : string) : option (string * string) :=
  match s with
  | EmptyString => None
  | String c r =>
      if Ascii.eqb c quoteChar then Some (EmptyString, r)
      else if Ascii.eqb c backslash then
        match r with
        | String e r1 =>
            if Ascii.eqb e "u"%char then
              match r1 with
              | String h1 (String h2 (String h3 (String h4 r2))) =>
                  match hex4 h1 h2 h3 h4 with
                  | Some x => consTo x (parseString r2)
                  | None => None
                  end
              | _ => None
              end
            else
              match simpleEscape e with
              | Some x => consTo x (parseString r1)
              | None => None
              end
        | EmptyString => None
        end
      else if Nat.ltb (nat_of_ascii c) 32 then None
      else consTo c (parseString r)
  end.

Fixpoint parseValue (fuel : nat) (s : string) : option (Json * string) :=
  match fuel with
  | O => None
  | S f =>
      match skipWs s with
      | EmptyString => None
      | String c r =>
          if Ascii.eqb c "{"%char then
            match skipWs r with
            | String c' r' =>
                if Ascii.eqb c' "}"%char then Some (JObject [], r')
                else option_map (fun p => (JObject (fst p), snd p)) (parseMembers f (String c' r'))
            | EmptyString => None
            end
          else if Ascii.eqb c "["%char then
            match skipWs r with
            | String c' r' =>
                if Ascii.eqb c' "]"%char then Some (JArray [], r')
                else option_map (fun p => (JArray (fst p), snd p)) (parseElements f (String c' r'))
            | EmptyString => None
            end
          else if Ascii.eqb c quoteChar then
            option_map (fun p => (JString (fst p), snd p)) (parseString r)
          else if String.prefix "true" (String c r) then Some (JBool true, Firebase.drop 4 (String c r))
          else if String.prefix "false" (String c r) then Some (JBool false, Firebase.drop 5 (String c r))
          else if String.prefix "null" (String c r) then Some (JNull, Firebase.drop 4 (String c r))
          else option_map (fun p => (JNumber (fst p), snd p)) (parseNumber (String c r))
      end
  end
with parseElements (fuel : nat) (s : string) : option (list Json * string) :=
  match fuel with
  | O => None
  | S f =>
      match parseValue f s with
      | Some (v, r) =>
          match skipWs r with
          | String c r' =>
              if Ascii.eqb c ","%char then
                option_map (fun p => (v :: fst p, snd p)) (parseElements f r')
              else if Ascii.eqb c "]"%char then Some ([v], r')
              else None
          | EmptyString => None
          end
      | None => None
      end
  end
with parseMembers (fuel : nat) (s : string) : option (list (string * Json) * string) :=
  match fuel with
  | O => None
  | S f =>
      match skipWs s with
      | String q r =>
          if Ascii.eqb q quoteChar then
            match parseString r with
            | Some (k, r1) =>
                match skipWs r1 with
                | String colon r2 =>
                    if Ascii.eqb colon ":"%char then
                      match parseValue f r2 with
                      | Some (v, r3) =>
                          match skipWs r3 with
                          | String c r4 =>
                              if Ascii.eqb c ","%char then
                                option_map (fun p => ((k, v) :: fst p, snd p)) (parseMembers f r4)
                              else if Ascii.eqb c "}"%char then Some ([(k, v)], r4)
                              else None
                          | EmptyString => None
                          end
                      | None => None
                      end
                    else None
                | EmptyString => None
                end
            | None => None
            end
          else None
      | EmptyString => None
      end
  end.

(** The whole input must be one value. *)
Definition parseJson (s : string) : option Json :=
  match parseValue (String.length s) s with
  | Some (j, r) => if skipWs r =? EmptyString then Some j else None
  | None => None
  end.

Definition toMark (j : Json) : Mark :=
  match j with
  | JObject members =>
      fold_left (fun (m : Mark) (kv : string * Json) =>
                   match kv with
                   | (k, JString t) => if k =? "type" then mkMark t else m
                   | _ => m
                   end) members (mkMark EmptyString)
  | _ => mkMark EmptyString
  end.

Definition toAttrs (j : Json) : Attrs :=
  match j with
  | JObject members =>
      fold_left (fun (a : Attrs) (kv : string * Json) =>
                   let (k, v) := kv in
                   if k =? "level" then
                     mkAttrs (match v with JNumber n => Some n | _ => None end)
                             (textAlign a) (checked a) (src a) (data_temp a)
                   else if k =? "textAlign" then
                     mkAttrs (level a) (match v with JString x => Some x | _ => None end)
                             (checked a) (src a) (data_temp a)
                   else if k =? "checked" then
                     mkAttrs (level a) (textAlign a)
                             (match v with JBool b => Some b | _ => None end)
                             (src a) (data_temp a)
                   else if k =? "src" then
                     mkAttrs (level a) (textAlign a) (checked a)
                             (match v with JString x => Some x | _ => None end) (data_temp a)
                   else if k =? "data-temp" then
                     mkAttrs (level a) (textAlign a) (checked a) (src a)
                             (match v with JString x => Some x | _ => None end)
                   else a) members noAttrs
  | _ => noAttrs
  end.

Fixpoint toNode (j : Json) : TiptapNode :=
  match j with
  | JObject members =>
      fold_left (fun (node : TiptapNode) (kv : string * Json) =>
                   let (k, v) := kv in
                   if k =? "type" then
                     mkNode (match v with JString t => t | _ => EmptyString end)
                            (content node) (text node) (marks node) (attrs node)
                   else if k =? "content" then
                     mkNode (type node)
                            (match v with JArray l => Some (map toNode l) | _ => None end)
                            (text node) (marks node) (attrs node)
                   else if k =? "text" then
                     mkNode (type node) (content node)
                            (match v with JString t => Some t | _ => None end)
                            (marks node) (attrs node)
                   else if k =? "marks" then
                     mkNode (type node) (content node) (text node)
                            (match v with JArray l => Some (map toMark l) | _ => None end)
                            (attrs node)
                   else if k =? "attrs" then
                     mkNode (type node) (content node) (text node) (marks node)
                            (match v with JObject _ => Some (toAttrs v) | _ => None end)
                   else node) members (mkNode EmptyString None None None None)
  | _ => mkNode EmptyString None None None None
  end.

Definition ofJson (j : Json) : AnyValue :=
  match j with
  | JNull => ANull
  | JBool b => ABool b
  | JNumber n => ANumber n
  | JString s => AString s
  | JArray l => AArray (map toNode l)
  | JObject _ => ANode (toNode j)
  end.

Definition JSON_parse (s : string) : option AnyValue := option_map ofJson (parseJson s).

Definition hexChar (n : nat) : ascii :=
  if Nat.ltb n 10 then ascii_of_nat (48 + n) else ascii_of_nat (87 + n).

Definition escapeChar (c : ascii) : string :=
  let n := nat_of_ascii c in
  if Ascii.eqb c quoteChar then String backslash (String quoteChar EmptyString)
  else if Ascii.eqb c backslash then String backslash (String backslash EmptyString)
  else if Ascii.eqb c "008"%char then String backslash "b"
  else if Ascii.eqb c "012"%char then String backslash "f"
  else if Ascii.eqb c "010"%char then String backslash "n"
  else if Ascii.eqb c "013"%char then String backslash "r"
  else if Ascii.eqb c "009"%char then String backslash "t"
  else if Nat.ltb n 32 then
    String backslash ("u00" ++ String (hexChar (n / 16)) (String (hexChar (n mod 16)) EmptyString))
  else String c EmptyString.

(** The printers take the text [k] that follows what they print. *)
Fixpoint escapeK (s k : string) : string :=
  match s with
  | EmptyString => k
  | String c r => escapeChar c ++ escapeK r k
  end.

Definition quotedK (s k : string) : string :=
  String quoteChar (escapeK s (String quoteChar k)).

Section Sequences.

Context {A : Type}.
Variable print : A -> string -> string.
Variables open close : string.

(** The items after the first, each after a comma, and the closing
    bracket. *)
Fixpoint tailK (l : list A) (k : string) : string :=
  match l with
  | [] => close ++ k
  | x :: l' => "," ++ print x (tailK l' k)
  end.

Definition seqK (l : list A) (k : string) : string :=
  open ++ match l with
          | [] => close ++ k
          | x :: l' => print x (tailK l' k)
          end.

End Sequences.

Definition memberK (printValue : Json -> string -> string) (kv : string * Json)
    (k : string) : string :=
  let (key, v) := kv in quotedK key (":" ++ printValue v k).

Fixpoint printK (j : Json) (k : string) : string :=
  match j with
  | JNull => "null" ++ k
  | JBool b => (if b then "true" else "false") ++ k
  | JNumber n => Js.numberToString n ++ k
  | JString s => quotedK s k
  | JArray items => seqK printK "[" "]" items k
  | JObject members => seqK (memberK printK) "{" "}" members k
  end.

Definition optMember {A} (k : string) (json : A -> Json) (o : option A)
    : list (string * Json) :=
  match o with
  | Some x => [(k, json x)]
  | None => []
  end.

Definition jsonOfAttrs (a : Attrs) : Json :=
  JObject (optMember "level" JNumber (level a)
           ++ optMember "textAlign" JString (textAlign a)
           ++ optMember "checked" JBool (checked a)
           ++ optMember "src" JString (src a)
           ++ optMember "data-temp" JString (data_temp a))%list.

Definition jsonOfMark (m : Mark) : Json := JObject [("type", JString (mark_type m))].

Fixpoint jsonOfNode (n : TiptapNode) : Json :=
  match n with
  | mkNode ty c tx ms a =>
      JObject ([("type", JString ty)]
               ++ optMember "attrs" jsonOfAttrs a
               ++ match c with
                  | Some l => [("content", JArray (map jsonOfNode l))]
                  | None => []
                  end
               ++ optMember "marks" (fun l => JArray (map jsonOfMark l)) ms
               ++ optMember "text" JString tx)%list
  end.

(** [JSON.stringify(undefined)] is not a string; the code never asks for it. *)
Definition JSON_stringify (v : AnyValue) : string :=
  match v with
  | AUndefined => EmptyString
  | ANull => printK JNull EmptyString
  | ABool b => printK (JBool b) EmptyString
  | ANumber n => printK (JNumber n) EmptyString
  | AString s => printK (JString s) EmptyString
  | AArray l => printK (JArray (map jsonOfNode l)) EmptyString
  | ANode n => printK (jsonOfNode n) EmptyString
  end.

End Browser.

(** ** The functions on values of type [any]

    The content that reaches [tiptapToHtml], [updatePage] and [getPage] has
    the type [any].  Here it is any value that [JSON.parse] can return, or
    [undefined], and the code is read as JavaScript runs it on such a
    value: a property read, a call and a conversion to a string can throw. *)

Module Any.

Import Js Browser.

(** A JavaScript value: [None] is [undefined]. *)
Definition Value : Type := option Json.

(** How an evaluation ends: with a value, or with a thrown exception of
    the given name. *)
Inductive Result (A : Type) :=
| Returned (a : A)
| Thrown (error : string).

Arguments Returned {A}.
Arguments Thrown {A}.

#[export] Instance Monad_Result : Monad Result := {
  ret := fun A (a : A) => Returned a;
  bind := fun A B (r : Result A) (k : A -> Result B) =>
            match r with
            | Returned a => k a
            | Thrown e => Thrown e
            end
}.

(** The results in order, up to the first exception. *)
Fixpoint sequence {A} (l : list (Result A)) : Result (list A) :=
  match l with
  | [] => Returned []
  | r :: rest =>
      match r with
      | Returned a =>
          match sequence rest with
          | Returned l' => Returned (a :: l')
          | Thrown e => Thrown e
          end
      | Thrown e => Thrown e
      end
  end.

Definition str (s : string) : Value := Some (JString s).

(** [!!v] *)
Definition truthy (v : Value) : bool :=
  match v with
  | None | Some JNull => false
  | Some (JBool b) => b
  | Some (JNumber n) => negb (Z.eqb n 0)
  | Some (JString s) => negb (s =? EmptyString)
  | Some (JArray _) | Some (JObject _) => true
  end.

(** [a || b] *)
Definition orValue (a b : Value) : Value := if truthy a then a else b.

(** [v === s] for a string [s] *)
Definition isStr (v : Value) (s : string) : bool :=
  match v with
  | Some (JString t) => t =? s
  | _ => false
  end.

(** The value of the property [k] of an object with these members; when a
    text gives a key twice, [JSON.parse] keeps the last value. *)
Fixpoint lookup (k : string) (members : list (string * Json)) : Value :=
  match members with
  | [] => None
  | (k', v) :: rest =>
      match lookup k rest with
      | Some x => Some x
      | None => if k' =? k then Some v else None
      end
  end.

(** The own properties of a value that came from JSON; an array and a
    primitive have none of the names that the code reads ([type], [text],
    [marks], [attrs], [content], [level], [textAlign], [checked]), nor have
    their prototypes. *)
Definition membersOf (j : Json) : list (string * Json) :=
  match j with
  | JObject members => members
  | _ => []
  end.

(** [v.k], for these names: reading a property of [null] or [undefined]
    throws. *)
Definition prop (v : Value) (k : string) : Result Value :=
  match v with
  | None | Some JNull => Thrown "TypeError"
  | Some j => Returned (lookup k (membersOf j))
  end.

(** [v?.k], for these names. *)
Definition optProp (v : Value) (k : string) : Value :=
  match v with
  | None | Some JNull => None
  | Some j => lookup k (membersOf j)
  end.

(** The conversion of a value to a string, in a template and on the right
    of [+] after a string.  An array is joined with commas, [null] giving
    the empty piece.  An object gives [[object Object]], unless it has a
    property [toString] of its own: that is no function, and the inherited
    [valueOf] returns the object, so the conversion throws. *)
Fixpoint toStr (j : Json) : Result string :=
  match j with
  | JNull => Returned "null"
  | JBool b => Returned (if b then "true" else "false")
  | JNumber n => Returned (numberToString n)
  | JString s => Returned s
  | JArray items =>
      match sequence (map (fun x => match x with
                                    | JNull => Returned EmptyString
                                    | _ => toStr x
                                    end) items) with
      | Returned parts => Returned (join "," parts)
      | Thrown e => Thrown e
      end
  | JObject members =>
      match lookup "toString" members with
      | Some _ => Thrown "TypeError"
      | None => Returned "[object Object]"
      end
  end.

Definition valueToStr (v : Value) : Result string :=
  match v with
  | None => Returned "undefined"
  | Some j => toStr j
  end.

(** [results.join('')] on the values that [map] collected: [null] and
    [undefined] give the empty piece. *)
Definition joinValues (values : list Value) : Result Value :=
  parts <- sequence (map (fun v => match v with
                                   | None | Some JNull => Returned EmptyString
                                   | Some j => toStr j
                                   end) values) ;;
  ret (str (join EmptyString parts)).

(** One step of [node.marks.forEach]: reading [mark.type] throws when the
    mark is [null]. *)
Definition applyMark (text : Value) (mark : Json) : Result Value :=
  ty <- prop (Some mark) "type" ;;
  if isStr ty "bold" then
    s <- valueToStr text ;; ret (str ("<strong>" ++ s ++ "</strong>"))
  else if isStr ty "italic" then
    s <- valueToStr text ;; ret (str ("<em>" ++ s ++ "</em>"))
  else if isStr ty "underline" then
    s <- valueToStr text ;; ret (str ("<u>" ++ s ++ "</u>"))
  else if isStr ty "strike" then
    s <- valueToStr text ;; ret (str ("<s>" ++ s ++ "</s>"))
  else ret text.

(** The text branch.  A truthy [marks] that is no array has no function
    [forEach], so the call throws.  Without a mark that is applied, the
    value returned is [node.text] itself, of whatever type it is. *)
Definition renderText (members : list (string * Json)) : Result Value :=
  let text := orValue (lookup "text" members) (str EmptyString) in
  let marks := lookup "marks" members in
  if truthy marks then
    match marks with
    | Some (JArray l) =>
        fold_left (fun acc mark => t <- acc ;; applyMark t mark) l (Returned text)
    | _ => Thrown "TypeError"
    end
  else ret text.

(** [node.attrs?.checked ? 'checked' : ''] *)
Definition checkedWord (members : list (string * Json)) : string :=
  if truthy (optProp (lookup "attrs" members) "checked") then "checked" else EmptyString.

Definition switchOnType (members : list (string * Json)) : Result PdfExport.SwitchResult :=
  let t := lookup "type" members in
  if isStr t "paragraph" then ret (PdfExport.Continue "p" [])
  else if isStr t "heading" then
    level <- valueToStr (orValue (optProp (lookup "attrs" members) "level")
                                 (Some (JNumber 1))) ;;
    ret (PdfExport.Continue ("h" ++ level) [])
  else if isStr t "bulletList" then ret (PdfExport.Continue "ul" [])
  else if isStr t "orderedList" then ret (PdfExport.Continue "ol" [])
  else if isStr t "listItem" then ret (PdfExport.Continue "li" [])
  else if isStr t "taskList" then
    ret (PdfExport.Continue "ul" ["class=" ++ dq ++ "task-list" ++ dq])
  else if isStr t "taskItem" then
    ret (PdfExport.Continue "li"
           ["class=" ++ dq ++ "task-item " ++ checkedWord members ++ dq])
  else if isStr t "horizontalRule" then ret (PdfExport.ReturnLiteral "<hr />")
  else if isStr t "hardBreak" then ret (PdfExport.ReturnLiteral "<br />")
  else if isStr t "doc" then ret PdfExport.ReturnChildren
  else ret (PdfExport.Continue "div" []).

(** Everything after the [switch]; [rendered] holds what
    [convertNodeToHtml] gives for each child when [node.content] is an
    array.  [html += ...] converts what a child gave to a string. *)
Definition wrapElement (members : list (string * Json)) (tag : string)
    (attrs0 : list string) (rendered : option (list (Result Value))) : Result Value :=
  let align := optProp (lookup "attrs" members) "textAlign" in
  attrs <- (if truthy align then
              a <- valueToStr align ;;
              ret (attrs0 ++ [("style=" ++ dq ++ "text-align: " ++ a ++ dq)%string])%list
            else ret attrs0) ;;
  let html :=
    if isStr (lookup "type" members) "taskItem"
    then "<input type=" ++ dq ++ "checkbox" ++ dq ++ " " ++ checkedWord members
         ++ " disabled /> "
    else EmptyString in
  let html := html ++ PdfExport.openTag tag attrs in
  html <- match rendered with
          | Some results =>
              fold_left (fun acc r =>
                           h <- acc ;; v <- r ;; s <- valueToStr v ;; ret (h ++ s))
                        results (Returned html)
          | None => ret html
          end ;;
  let html := html ++ "</" ++ tag ++ ">" in
  ret (str (if arrayIncludes PdfExport.blockTags tag then html ++ nl else html)).

(** The body of [convertNodeToHtml], given the rendered children. *)
Definition convertWith (node : Json) (rendered : option (list (Result Value)))
    : Result Value :=
  if negb (truthy (Some node)) then ret (str EmptyString)
  else
    let members := membersOf node in
    if isStr (lookup "type" members) "text" then renderText members
    else
      sw <- switchOnType members ;;
      match sw with
      | PdfExport.ReturnLiteral html => ret (str html)
      | PdfExport.ReturnChildren =>
          match rendered with
          | Some results => values <- sequence results ;; joinValues values
          | None => ret (str EmptyString)
          end
      | PdfExport.Continue tag attrs => wrapElement members tag attrs rendered
      end.

(** [convertNodeToHtml(node)].  The children are those of the last
    [content] property, when it is an array. *)
Fixpoint convertNodeToHtml (node : Json) : Result Value :=
  convertWith node
    (match node with
     | JObject members =>
         fold_left (fun acc (kv : string * Json) =>
                      let (k, v) := kv in
                      if k =? "content" then
                        match v with
                        | JArray l => Some (map convertNodeToHtml l)
                        | _ => None
                        end
                      else acc) members None
     | _ => None
     end).

Section TiptapToHtml.

(** [JSON.parse]: [None] when it throws a [SyntaxError]. *)
Variable JSON_parse : string -> option Json.

(** The body of the outer [try], after the content is parsed. *)
Definition convertParsed (parsedContent : Json) : Result Value :=
  if negb (truthy (Some parsedContent)) then ret (str "<p>No content to export</p>")
  else
    type <- prop (Some parsedContent) "type" ;;
    content <- prop (Some parsedContent) "content" ;;
    if isStr type "doc" || truthy content then convertNodeToHtml parsedContent
    else match parsedContent with
         | JArray items =>
             values <- sequence (map convertNodeToHtml items) ;; joinValues values
         | _ => convertNodeToHtml parsedContent
         end.

(** [tiptapToHtml(content)]: the inner handler answers a string that
    [JSON.parse] rejects, the outer one whatever else is thrown. *)
Definition tiptapToHtml (content : Value) : state World (Result Value) :=
  let attempt : state World (Result Value) :=
    match content with
    | Some (JString s) =>
        match JSON_parse s with
        | Some parsedContent => ret (convertParsed parsedContent)
        | None =>
            consoleWrite "Failed to parse content:" ;;
            ret (Returned (str "<p>Error: Invalid content format</p>"))
        end
    | Some parsedContent => ret (convertParsed parsedContent)
    | None => ret (Returned (str "<p>No content to export</p>"))
    end in
  r <- attempt ;;
  match r with
  | Returned v => ret (Returned v)
  | Thrown _ =>
      consoleWrite "Error converting Tiptap content to HTML:" ;;
      ret (Returned (str "<p>Error converting content to PDF. Please try again.</p>"))
  end.

End TiptapToHtml.

Section PageContent.

Variable JSON_stringify : Json -> string.
Variable JSON_parse : string -> option Json.

(** [typeof v === 'object'] *)
Definition isObject (v : Value) : bool :=
  match v with
  | Some JNull | Some (JArray _) | Some (JObject _) => true
  | _ => false
  end.

(** [updatePage]: the [content] field written to the document store, for
    the [content] of the updates. *)
Definition updatePageContent (content : Value) : Value :=
  match content with
  | Some j => if truthy content && isObject content then str (JSON_stringify j) else content
  | None => None
  end.

Definition emptyDoc : Json := JObject [("type", JString "doc"); ("content", JArray [])].

(** [getPage]: the [content] of the page returned, for the [content] field
    of the stored document. *)
Definition getPageContent (stored : Value) : Json :=
  let content :=
    match stored with
    | Some (JString s) =>
        match JSON_parse s with
        | Some v => Some v
        | None => stored
        end
    | _ => stored
    end in
  match content with
  | Some j => if truthy content then j else emptyDoc
  | None => emptyDoc
  end.

End PageContent.

(** The reference [JSON.stringify] and [JSON.parse] on these values. *)
Definition JSON_stringify (j : Json) : string := printK j EmptyString.

Definition JSON_parse (s : string) : option Json := parseJson s.

End Any.

(** ** Example documents *)

Module Examples.

Import Js.

Definition textNode (t : string) (ms : list string) : TiptapNode :=
  mkNode "text" None (Some t) (Some (map mkMark ms)) None.

Definition paragraph (l : list TiptapNode) : TiptapNode :=
  mkNode "paragraph" (Some l) None None None.

Definition doc (l : list TiptapNode) : TiptapNode :=
  mkNode "doc" (Some l) None None None.

(** An image node with its [src] and its ['data-temp'] flag. *)
Definition image (s : string) (temp : option string) : TiptapNode :=
  mkNode "image" None None None (Some (mkAttrs None None None (Some s) temp)).

(** A paragraph holding the text hello in bold and italic. *)
Definition helloParagraph : TiptapNode :=
  paragraph [textNode "hello" ["bold"; "italic"]].

(** A checked task item holding one paragraph. *)
Definition doneTask : TiptapNode :=
  mkNode "taskItem" (Some [paragraph [textNode "x" []]]) None None
    (Some (mkAttrs None None (Some true) None None)).

(** The download address of an image kept in the storage bucket. *)
Definition storageUrl (name : string) : string :=
  "https://firebasestorage.googleapis.com/v0/b/bk/o/users%2Fu%2Fimages%2F"
  ++ name ++ "?alt=media&token=1".

(** The address of an image kept elsewhere, which the editor hook takes for
    an address of the storage bucket. *)
Definition foreignUrl : string := "https://cdn.example.com/firebase/img.png?token=abc".

(** [n] times the word a, separated by single spaces. *)
Fixpoint wordsText (n : nat) : string :=
  match n with
  | O => EmptyString
  | S O => "a"
  | S m => "a " ++ wordsText m
  end.

(** A document of one paragraph of 201 words. *)
Definition longDoc : TiptapNode := doc [paragraph [textNode (wordsText 201) []]].

(** A page with a title. *)
Definition pageTitled (t : string) : Shared.Page :=
  Shared.mkPage t t (ANode (doc [])) 0 0 "u".

(** A node of a kind the renderer does not know. *)
Definition callout : TiptapNode :=
  mkNode "callout" (Some [paragraph [textNode "x" []]]) None None None.

End Examples.

(** * The vocabulary of the properties *)

Import Js.

Section Vocabulary.

Import PdfExport.

(** The kinds that [convertNodeToHtml] treats specially: the text kind and
    the cases of its [switch]. *)
Definition recognizedKinds : list string :=
  ["text"; "paragraph"; "heading"; "bulletList"; "orderedList"; "listItem";
   "taskList"; "taskItem"; "horizontalRule"; "hardBreak"; "doc"].

(** The rendered children of a node, concatenated. *)
Definition renderChildren (c : option (list TiptapNode)) : string :=
  match c with
  | Some l => join EmptyString (map convertNodeToHtml l)
  | None => EmptyString
  end.

(** The style attribute that a truthy [textAlign] adds to the open tag. *)
Definition styleOf (align : option string) : string :=
  if truthyStr align
  then " style=" ++ dq ++ "text-align: " ++ orElse align EmptyString ++ dq
  else EmptyString.

(** The string that [tiptapToHtml] returns for a parsed value. *)
Definition htmlOfParsed (v : AnyValue) : string :=
  if negb (truthy v) then "<p>No content to export</p>"
  else match v with
       | ANode n => convertNodeToHtml n
       | AArray items => join EmptyString (map convertNodeToHtml items)
       | _ => "<div></div>" ++ nl
       end.

(** The nodes of a tree, depth first. *)
Fixpoint nodesOf (node : TiptapNode) : list TiptapNode :=
  node :: match node with
          | mkNode _ (Some l) _ _ _ => flat_map nodesOf l
          | mkNode _ None _ _ _ => []
          end.


(** The pending flag of a node: a truthy ['data-temp'] attribute. *)
Definition isPending (node : TiptapNode) : bool := truthyStr (attr data_temp node).


(** A step that keeps the baseline, appends [reqs] to the delete requests
    and only adds messages to the console. *)
Definition steps {A} (c : state World A) (w : World) (a : A) (reqs : list string) : Prop :=
  exists msgs : list string,
    runState c w
    = (a, mkWorld (previousImages w) (deleteRequests w ++ reqs) (console w ++ msgs)).

End Vocabulary.

(** The address that [extractImages] adds to the set for a node, if any. *)
Definition trackedSrc (node : TiptapNode) : option string :=
  if (type node =? "image") && truthyStr (attr src node) then
    let src := orElse (attr src node) EmptyString in
    if UseEditor.isFirebaseUrl src then Some src else None
  else None.

Section Sweep.

Import UseEditor Examples.

Variable URL_pathname : string -> option string.
Variable decodeURIComponent : string -> option string.

(** The value that [extractStoragePathFromUrl] returns. *)
Definition storagePathOf (url : string) : option string :=
  if isFirebaseUrl url then
    match URL_pathname url with
    | Some pathname =>
        match matchObject pathname with
        | Some g => decodeURIComponent g
        | None => None
        end
    | None => None
    end
  else None.

(** The delete request that the sweep submits for one address that left the
    document. *)
Definition submittedPath (url : string) : list string :=
  if includes url "blob:" then []
  else match storagePathOf url with
       | Some p => if p =? EmptyString then [] else [p]
       | None => []
       end.

End Sweep.

Section JsonVocabulary.

Import Browser.

(** What may follow a value inside an array or an object, or end the text. *)
Definition delimited (k : string) : bool :=
  match k with
  | EmptyString => true
  | String c _ => isOneOf ",]}" c
  end.

(** The fuel that parsing the text of a value takes. *)
Fixpoint weight (j : Json) : nat :=
  match j with
  | JArray items => S (fold_right (fun x acc => S (weight x + acc)) 0 items)
  | JObject members => S (fold_right (fun kv acc => S (weight (snd kv) + acc)) 0 members)
  | _ => 1
  end.

(** Parsing the text of [j] gives [j] back, with the text that followed. *)
Definition parses (j : Json) : Prop :=
  forall (f : nat) (k : string),
    weight j <= f -> delimited k = true -> parseValue f (printK j k) = Some (j, k).

(** The text of [j] is at least as long as the fuel that parsing it takes. *)
Definition longEnough (j : Json) : Prop :=
  forall k : string, weight j + String.length k <= String.length (printK j k).

End JsonVocabulary.

(** The address that [loadPage] adds to the baseline for a node, if any:
    that of [trackedSrc], unless the node is pending. *)
Definition loadedSrc (node : TiptapNode) : option string :=
  if isPending node then None else trackedSrc node.

Section MoreVocabulary.

(** Every character of [s] satisfies [p]. *)
Fixpoint allChars (p : ascii -> bool) (s : string) : bool :=
  match s with
  | EmptyString => true
  | String c r => p c && allChars p r
  end.

(** A bucket name as it stands in the path of a download address: not
    empty, without a slash, and not the single letter o. *)
Definition validBucket (bucket : string) : bool :=
  negb (bucket =? EmptyString) && negb (bucket =? "o")
  && allChars (fun c => negb (Ascii.eqb c "/"%char)) bucket.

(** An object name as it stands there: not empty, without a question mark
    or a line break. *)
Definition validObject (object : string) : bool :=
  negb (object =? EmptyString)
  && allChars (fun c => negb (Ascii.eqb c "?"%char) && negb (UseEditor.isLineTerminator c))
       object.

(** The texts that the renderer reaches: those of the text nodes that are
    not below a text node, a horizontal rule or a hard break, for which the
    renderer returns before it looks at the children. *)
Fixpoint shownTexts (node : TiptapNode) : list string :=
  if type node =? "text" then [orElse (text node) EmptyString]
  else if (type node =? "horizontalRule") || (type node =? "hardBreak") then []
  else match node with
       | mkNode _ (Some l) _ _ _ => flat_map shownTexts l
       | mkNode _ None _ _ _ => []
       end.

End MoreVocabulary.

Section DraftVocabulary.

Variable URL_pathname : string -> option string.
Variable decodeURIComponent : string -> option string.

(** The delete request that the loop of [deleteUnusedImages] submits for
    one path. *)
Definition draftRequest (path : string) : list string :=
  let request (p : string) := if p =? EmptyString then [] else [p] in
  if startsWith path "http" then
    match URL_pathname path with
    | None => []
    | Some pathname =>
        match UseEditor.matchObject pathname with
        | Some g =>
            match decodeURIComponent g with
            | Some p => request p
            | None => []
            end
        | None => request path
        end
    end
  else request path.

End DraftVocabulary.

Section DebounceVocabulary.

Import Debounce.

Variable A : Type.

(** The time that the events take, and the latest call of the debounced
    function among them, with its time. *)
Definition clockAfter (events : list (Event A)) : nat * option (nat * A) :=
  fold_left (fun st e =>
               match e with
               | Invoke args => (fst st, Some (fst st, args))
               | Elapse ms => (fst st + ms, snd st)
               | Fire _ => st
               end)
            events (0, None).

Definition latestCall (events : list (Event A)) : option (nat * A) :=
  snd (clockAfter events).

(** No event is a call of the debounced function. *)
Definition quiet (events : list (Event A)) : bool :=
  forallb (fun e => match e with Invoke _ => false | _ => true end) events.

End DebounceVocabulary.

Arguments clockAfter {A}.
Arguments latestCall {A}.
Arguments quiet {A}.

(** * Properties *)

(** ** The HTML renderer *)

Section RendererFacts.

Import PdfExport Examples.

Lemma convertNodeToHtml_unfold (node : TiptapNode) :
  convertNodeToHtml node =
  if type node =? "text" then renderText node
  else match switchOnType node with
       | ReturnLiteral html => html
       | ReturnChildren => renderChildren (content node)
       | Continue tag attrs => wrapElement node tag attrs (renderChildren (content node))
       end.
Proof.
  destruct node as [ty [l|] tx ms at']; reflexivity.
Qed.

Lemma append_assoc (a b c : string) : (a ++ b) ++ c = a ++ b ++ c.
Proof.
  induction a as [|x a IH]; simpl; [reflexivity | now rewrite IH].
Qed.

(** Flatten the appends of an element once its tag and attributes are
    known, for either value of the alignment test [b]. *)
Ltac flatten_element b :=
  destruct b; cbn -[append renderChildren orElse attr];
  rewrite ?append_assoc; cbn -[renderChildren orElse attr];
  rewrite ?append_assoc; reflexivity.

(** C3, as the code has it: the paragraph with the text hello in bold and
    italic renders with the italic tag outside the bold one, and a line feed
    after the paragraph.  In general each mark wraps what the marks listed
    before it have built, so the first mark listed is the innermost tag and
    the last one the outermost. *)
Theorem marks_wrap_inner_to_outer :
  convertNodeToHtml helloParagraph = "<p><em><strong>hello</strong></em></p>" ++ nl
  /\ forall (t : option string) (ms : list Mark) (m : Mark) (a : option Attrs)
            (c : option (list TiptapNode)),
       convertNodeToHtml (mkNode "text" c t (Some (ms ++ [m])%list) a)
       = applyMark (convertNodeToHtml (mkNode "text" c t (Some ms) a)) m.
Proof.
  split; [reflexivity|].
  intros t ms m a c. rewrite !convertNodeToHtml_unfold. simpl.
  unfold renderText. simpl. apply fold_left_app.
Qed.

(** C3, as the specification states it, fails: the rendering is not the
    string with the bold tag outside. *)
Lemma hello_not_strong_outside :
  convertNodeToHtml helloParagraph <> "<p><strong><em>hello</em></strong></p>".
Proof.
  intro H. vm_compute in H. discriminate H.
Qed.

(** C4, what the code does: for a checked task item the checkbox is written
    before the open tag of the list item, not inside the item. *)
Theorem taskItem_checkbox_precedes_li :
  forall (c : option (list TiptapNode)) (t : option string) (ms : option (list Mark))
         (lv : option Z) (al s dt : option string),
    convertNodeToHtml (mkNode "taskItem" c t ms (Some (mkAttrs lv al (Some true) s dt)))
    = "<input type=" ++ dq ++ "checkbox" ++ dq ++ " checked disabled /> "
      ++ "<li class=" ++ dq ++ "task-item checked" ++ dq ++ styleOf al ++ ">"
      ++ renderChildren c ++ "</li>" ++ nl.
Proof.
  intros. rewrite convertNodeToHtml_unfold. cbn -[append renderChildren].
  unfold wrapElement, taskCheckbox, alignAttr, styleOf, openTag, checkedWord, attr.
  cbn -[append renderChildren truthyStr orElse].
  flatten_element (truthyStr al).
Qed.

(** C4 at a concrete task item. *)
Example doneTask_html :
  convertNodeToHtml doneTask
  = "<input type=" ++ dq ++ "checkbox" ++ dq ++ " checked disabled /> "
    ++ "<li class=" ++ dq ++ "task-item checked" ++ dq ++ "><p>x</p>" ++ nl ++ "</li>" ++ nl.
Proof. reflexivity. Qed.

(** The element written for a node that the [switch] leaves with the
    default tag. *)
Lemma wrapElement_div (node : TiptapNode) (inner : string) :
  (type node =? "taskItem") = false ->
  wrapElement node "div" [] inner
  = "<div" ++ styleOf (attr textAlign node) ++ ">" ++ inner ++ "</div>" ++ nl.
Proof.
  intros H. unfold wrapElement, taskCheckbox, alignAttr, styleOf, openTag.
  rewrite H. cbn -[append truthyStr orElse attr].
  flatten_element (truthyStr (attr textAlign node)).
Qed.

(** C5, what the code does: the [switch] has no case for images, so an image
    node is rendered as a [div] element around its children, whatever its
    [src], and no [img] tag is written. *)
Theorem image_rendered_as_div :
  forall (c : option (list TiptapNode)) (t : option string) (ms : option (list Mark))
         (a : option Attrs),
    convertNodeToHtml (mkNode "image" c t ms a)
    = "<div" ++ styleOf (attr textAlign (mkNode "image" c t ms a)) ++ ">"
      ++ renderChildren c ++ "</div>" ++ nl.
Proof.
  intros. rewrite convertNodeToHtml_unfold. cbn [type String.eqb Ascii.eqb Bool.eqb].
  unfold switchOnType. cbn [type String.eqb Ascii.eqb Bool.eqb content].
  now apply wrapElement_div.
Qed.

(** C5 at a concrete image: the output holds neither an [img] tag nor the
    address of the image. *)
Example image_html :
  let html := convertNodeToHtml (image "https://example.com/cat.png" None) in
  html = "<div></div>" ++ nl
  /\ includes html "<img" = false
  /\ includes html "https://example.com/cat.png" = false.
Proof. repeat split. Qed.

Lemma unrecognized_kind (k : string) :
  arrayIncludes recognizedKinds k = false ->
  (k =? "text") = false /\ (k =? "paragraph") = false /\ (k =? "heading") = false
  /\ (k =? "bulletList") = false /\ (k =? "orderedList") = false
  /\ (k =? "listItem") = false /\ (k =? "taskList") = false
  /\ (k =? "taskItem") = false /\ (k =? "horizontalRule") = false
  /\ (k =? "hardBreak") = false /\ (k =? "doc") = false.
Proof.
  unfold arrayIncludes, recognizedKinds. cbn [existsb].
  rewrite !orb_false_iff. tauto.
Qed.

(** C6, as the code has it: a node of a kind that the renderer does not
    recognise is rendered as a [div] element (with the alignment style when
    [textAlign] is set) around its rendered children, followed by a line
    feed.  The embedding is a total function: no input makes it throw. *)
Theorem unknown_kind_wrapped_in_div :
  forall node : TiptapNode,
    arrayIncludes recognizedKinds (type node) = false ->
    convertNodeToHtml node
    = "<div" ++ styleOf (attr textAlign node) ++ ">"
      ++ renderChildren (content node) ++ "</div>" ++ nl.
Proof.
  intros node H. apply unrecognized_kind in H.
  destruct H as (H1 & H2 & H3 & H4 & H5 & H6 & H7 & H8 & H9 & H10 & H11).
  rewrite convertNodeToHtml_unfold, H1.
  unfold switchOnType. rewrite H2, H3, H4, H5, H6, H7, H8, H9, H10, H11.
  now apply wrapElement_div.
Qed.

(** The theorem at the callout node. *)
Lemma unknown_kind_wrapped_in_div_witness :
  arrayIncludes recognizedKinds (type callout) = false
  /\ convertNodeToHtml callout = "<div><p>x</p>" ++ nl ++ "</div>" ++ nl.
Proof.
  split; [reflexivity|].
  exact (unknown_kind_wrapped_in_div callout eq_refl).
Defined.

(** C6, as the specification states it, fails: the rendering of a node of
    an unknown kind is not the bare concatenation of its rendered children. *)
Lemma unknown_kind_not_bare_children :
  arrayIncludes recognizedKinds (type callout) = false
  /\ convertNodeToHtml callout <> renderChildren (content callout).
Proof.
  split; [reflexivity|].
  intro H. vm_compute in H. discriminate H.
Qed.

End RendererFacts.

(** ** The conversion entry point *)

Section EntryPoint.

Import PdfExport Examples.

Variable JSON_parse : string -> option AnyValue.

Lemma tiptapToHtml_value (content : AnyValue) (w : World) :
  evalState (tiptapToHtml JSON_parse content) w =
  match content with
  | AString s =>
      match JSON_parse s with
      | Some v => htmlOfParsed v
      | None => "<p>Error: Invalid content format</p>"
      end
  | _ => htmlOfParsed content
  end.
Proof.
  unfold tiptapToHtml, htmlOfParsed, evalState.
  assert (parsed : forall v,
    fst (runState
           (if negb (truthy v) then ret "<p>No content to export</p>"
            else if isDocOrHasContent v then ret (convertAnyToHtml v)
            else match v with
                 | AArray items => ret (join EmptyString (map convertNodeToHtml items))
                 | _ => ret (convertAnyToHtml v)
                 end) w)
    = (if negb (truthy v) then "<p>No content to export</p>"
       else match v with
            | ANode n => convertNodeToHtml n
            | AArray items => join EmptyString (map convertNodeToHtml items)
            | _ => "<div></div>" ++ nl
            end)).
  { intros v. unfold convertAnyToHtml.
    destruct v as [| |b|n|s|l|n]; cbn [truthy negb isDocOrHasContent asNode];
      try reflexivity.
    - destruct b; reflexivity.
    - destruct (Z.eqb n 0); reflexivity.
    - destruct (String.eqb s EmptyString); reflexivity.
    - destruct (_ || _); reflexivity. }
  destruct content as [| |b|n|s|l|n]; try apply parsed.
  destruct (JSON_parse s) as [v|]; [apply parsed | reflexivity].
Qed.

End EntryPoint.

Section AnyEntryPoint.

Import Browser.

Variable JSON_parse : string -> option Json.

Local Abbreviation entry := (Any.tiptapToHtml JSON_parse).

Lemma tiptapToHtml_of_attempt (r : Any.Result Any.Value) (w : World) :
  evalState
    (r' <- ret r ;;
     match r' with
     | Any.Returned v => ret (Any.Returned v)
     | Any.Thrown _ =>
         consoleWrite "Error converting Tiptap content to HTML:" ;;
         ret (Any.Returned
                (Any.str "<p>Error converting content to PDF. Please try again.</p>"))
     end) w
  = match r with
    | Any.Returned v => Any.Returned v
    | Any.Thrown _ =>
        Any.Returned (Any.str "<p>Error converting content to PDF. Please try again.</p>")
    end.
Proof.
  destruct r; reflexivity.
Qed.

(** What the entry point returns for a value that is parsed. *)
Lemma tiptapToHtml_parsed (content : Any.Value) (parsed : Json) (w : World) :
  match content with
  | Some (JString s) => JSON_parse s = Some parsed
  | Some j => parsed = j
  | None => False
  end ->
  evalState (entry content) w
  = match Any.convertParsed parsed with
    | Any.Returned v => Any.Returned v
    | Any.Thrown _ =>
        Any.Returned (Any.str "<p>Error converting content to PDF. Please try again.</p>")
    end.
Proof.
  intros H. unfold Any.tiptapToHtml.
  destruct content as [j|]; [|destruct H].
  destruct j; try (subst parsed; apply tiptapToHtml_of_attempt).
  rewrite H. apply tiptapToHtml_of_attempt.
Qed.

Lemma tiptapToHtml_unparsed (s : string) (w : World) :
  JSON_parse s = None ->
  evalState (entry (Some (JString s))) w
  = Any.Returned (Any.str "<p>Error: Invalid content format</p>").
Proof.
  intros H. unfold Any.tiptapToHtml. rewrite H. reflexivity.
Qed.

(** C10: the entry point never throws: on every value, and whatever
    [JSON.parse] does, it returns.  A string that [JSON.parse] rejects gives
    the invalid-format message, [null] and [undefined] give the no-content
    message, and when the conversion of the parsed value throws, the outer
    handler gives the message of a failed conversion. *)
Theorem tiptapToHtml_fallbacks :
  (forall (content : Any.Value) (w : World),
      exists v : Any.Value, evalState (entry content) w = Any.Returned v)
  /\ (forall (s : string) (w : World),
         JSON_parse s = None ->
         evalState (entry (Some (JString s))) w
         = Any.Returned (Any.str "<p>Error: Invalid content format</p>"))
  /\ (forall w : World,
         evalState (entry (Some JNull)) w
         = Any.Returned (Any.str "<p>No content to export</p>"))
  /\ (forall w : World,
         evalState (entry None) w = Any.Returned (Any.str "<p>No content to export</p>"))
  /\ (forall (content : Any.Value) (parsed : Json) (error : string) (w : World),
         match content with
         | Some (JString s) => JSON_parse s = Some parsed
         | Some j => parsed = j
         | None => False
         end ->
         Any.convertParsed parsed = Any.Thrown error ->
         evalState (entry content) w
         = Any.Returned
             (Any.str "<p>Error converting content to PDF. Please try again.</p>")).
Proof.
  split; [|split; [|split; [|split]]].
  - intros content w.
    assert (Hp : forall parsed,
               match content with
               | Some (JString s) => JSON_parse s = Some parsed
               | Some j => parsed = j
               | None => False
               end -> exists v, evalState (entry content) w = Any.Returned v).
    { intros parsed H. rewrite (tiptapToHtml_parsed content parsed w H).
      destruct (Any.convertParsed parsed); eauto. }
    destruct content as [j|]; [|now eexists].
    destruct j; try (eapply Hp; reflexivity).
    destruct (JSON_parse s) as [parsed|] eqn:E.
    + exact (Hp parsed eq_refl).
    + rewrite (tiptapToHtml_unparsed s w E). eauto.
  - exact tiptapToHtml_unparsed.
  - reflexivity.
  - reflexivity.
  - intros content parsed error w H E.
    rewrite (tiptapToHtml_parsed content parsed w H). now rewrite E.
Qed.

End AnyEntryPoint.

(** The theorem at a string that the reference parser rejects. *)
Lemma tiptapToHtml_fallbacks_witness :
  Any.JSON_parse "{oops" = None
  /\ evalState (Any.tiptapToHtml Any.JSON_parse (Some (Browser.JString "{oops")))
       (mkWorld [] [] [])
     = Any.Returned (Any.str "<p>Error: Invalid content format</p>").
Proof.
  split; [reflexivity|].
  exact (proj1 (proj2 (tiptapToHtml_fallbacks Any.JSON_parse)) "{oops" (mkWorld [] [] [])
           eq_refl).
Defined.

(** A text node whose marks are the number 5: the call of [forEach]
    throws, and the outer handler answers, whether the node is given as an
    object or as its JSON text. *)
Example marks_not_an_array :
  let node := Browser.JObject [("type", Browser.JString "text");
                               ("marks", Browser.JNumber 5)] in
  Any.convertNodeToHtml node = Any.Thrown "TypeError"
  /\ runState (Any.tiptapToHtml Any.JSON_parse (Some node)) (mkWorld [] [] [])
     = (Any.Returned
          (Any.str "<p>Error converting content to PDF. Please try again.</p>"),
        mkWorld [] [] ["Error converting Tiptap content to HTML:"])
  /\ evalState
       (Any.tiptapToHtml Any.JSON_parse (Some (Browser.JString (Any.JSON_stringify node))))
       (mkWorld [] [] [])
     = Any.Returned (Any.str "<p>Error converting content to PDF. Please try again.</p>").
Proof.
  split; [reflexivity|]. split; [reflexivity|]. vm_compute. reflexivity.
Qed.

(** A text node whose text is the number 5 and that has no marks: the
    value returned is the number, not a string. *)
Example text_that_is_a_number :
  evalState
    (Any.tiptapToHtml Any.JSON_parse
       (Some (Browser.JObject [("type", Browser.JString "text");
                               ("text", Browser.JNumber 5)])))
    (mkWorld [] [] [])
  = Any.Returned (Some (Browser.JNumber 5)).
Proof. reflexivity. Qed.

(** ** The reference JSON codec *)

Section JsonFacts.

Import Browser.

Lemma all_Forall {A} (P : A -> Prop) (l : list A) : list_all A P l -> Forall P l.
Proof.
  induction 1; constructor; assumption.
Qed.

Lemma length_append (a b : string) :
  String.length (a ++ b) = String.length a + String.length b.
Proof.
  induction a as [|c a IH]; simpl; [reflexivity | now rewrite IH].
Qed.

Lemma delimiter_char (c : ascii) :
  isOneOf ",]}" c = true -> isDigit c = false /\ isOneOf ".eE" c = false.
Proof.
  destruct c as [[] [] [] [] [] [] [] []]; intros H; try discriminate H; split; reflexivity.
Qed.

Lemma parseString_escapeChar (c : ascii) (rest : string) :
  parseString (escapeChar c ++ rest) = consTo c (parseString rest).
Proof.
  destruct c as [[] [] [] [] [] [] [] []]; reflexivity.
Qed.

Lemma parseString_escapeK (s k : string) :
  parseString (escapeK s (String quoteChar k)) = Some (s, k).
Proof.
  induction s as [|c s IH]; [reflexivity|].
  cbn [escapeK]. now rewrite parseString_escapeChar, IH.
Qed.

Lemma span_digits (d : Decimal.uint) (k : string) :
  match k with String c _ => isDigit c = false | EmptyString => True end ->
  Firebase.span isDigit (NilEmpty.string_of_uint d ++ k) = (NilEmpty.string_of_uint d, k).
Proof.
  intros Hk. induction d; cbn [NilEmpty.string_of_uint append Firebase.span];
    try (change (isDigit _) with true; cbn iota; now rewrite IHd).
  destruct k as [|c k]; [reflexivity|]. cbn [Firebase.span]. now rewrite Hk.
Qed.

Lemma to_int_valid (n : Z) :
  Z.to_int n <> Decimal.Pos Decimal.Nil /\ Z.to_int n <> Decimal.Neg Decimal.Nil.
Proof.
  destruct n as [|p|p]; cbn; split; try discriminate;
    intros H; injection H as H; exact (DecimalPos.Unsigned.to_uint_nonnil p H).
Qed.

(** A printed integer is an optional sign and a non-empty run of digits. *)
Lemma numberToString_shape (n : Z) :
  exists (sign : string) (d : Decimal.uint),
    (sign = EmptyString \/ sign = "-") /\ d <> Decimal.Nil
    /\ Js.numberToString n = sign ++ NilEmpty.string_of_uint d.
Proof.
  unfold Js.numberToString.
  destruct n as [|p|p]; cbn [Z.to_int NilZero.string_of_int].
  - exists EmptyString, (Decimal.D0 Decimal.Nil). repeat split; [now left | discriminate].
  - exists EmptyString, (Pos.to_uint p).
    pose proof (DecimalPos.Unsigned.to_uint_nonnil p) as H.
    repeat split; [now left | exact H |].
    unfold NilZero.string_of_uint. destruct (Pos.to_uint p); [contradiction | reflexivity..].
  - exists "-", (Pos.to_uint p).
    pose proof (DecimalPos.Unsigned.to_uint_nonnil p) as H.
    repeat split; [now right | exact H |].
    unfold NilZero.string_of_uint. destruct (Pos.to_uint p); [contradiction | reflexivity..].
Qed.

Lemma digits_head (d : Decimal.uint) :
  d <> Decimal.Nil ->
  exists c r, NilEmpty.string_of_uint d = String c r /\ isDigit c = true.
Proof.
  destruct d; [contradiction | intros _; eexists; eexists; split; reflexivity..].
Qed.

Lemma parseNumber_print (n : Z) (k : string) :
  delimited k = true ->
  parseNumber (Js.numberToString n ++ k) = Some (n, k).
Proof.
  intros Hk.
  assert (Hd : match k with String c _ => isDigit c = false | EmptyString => True end).
  { destruct k as [|c k]; [exact I | apply delimiter_char, Hk]. }
  assert (Hf : startsFraction k = false).
  { destruct k as [|c k]; [reflexivity | apply delimiter_char, Hk]. }
  assert (Hparse : NilZero.int_of_string (Js.numberToString n) = Some (Z.to_int n)).
  { unfold Js.numberToString. destruct (to_int_valid n). now apply NilZero.isi. }
  destruct (numberToString_shape n) as (sign & d & Hs & Hnil & E).
  destruct (digits_head d Hnil) as (c & r & Ec & Hc).
  unfold parseNumber. rewrite E.
  destruct Hs as [-> | ->].
  - cbn [append]. rewrite Ec. cbn [append].
    assert (Hm : Ascii.eqb c "-"%char = false).
    { destruct c as [[] [] [] [] [] [] [] []]; try reflexivity; discriminate Hc. }
    rewrite Hm. change (String c (r ++ k)) with (String c r ++ k). rewrite <- Ec.
    rewrite span_digits by exact Hd. rewrite Hf.
    cbn [append] in E. cbn [append]. rewrite <- E, Hparse, DecimalZ.of_to.
    now rewrite String.eqb_refl.
  - cbn [append Ascii.eqb Bool.eqb]. rewrite span_digits by exact Hd. rewrite Hf.
    cbn [append] in E. rewrite <- E, Hparse, DecimalZ.of_to.
    now rewrite String.eqb_refl.
Qed.

Lemma numeric_head (c : ascii) :
  (Ascii.eqb c "-"%char || isDigit c) = true ->
  isWhitespace c = false /\ Ascii.eqb c "]"%char = false
  /\ forall f r, parseValue (S f) (String c r)
                 = option_map (fun p => (JNumber (fst p), snd p)) (parseNumber (String c r)).
Proof.
  destruct c as [[] [] [] [] [] [] [] []]; intros H; try discriminate H;
    repeat split; reflexivity.
Qed.

Lemma numberToString_head (n : Z) :
  exists c r, Js.numberToString n = String c r
              /\ (Ascii.eqb c "-"%char || isDigit c) = true.
Proof.
  destruct (numberToString_shape n) as (sign & d & Hs & Hnil & E).
  destruct (digits_head d Hnil) as (c & r & Ec & Hc).
  rewrite E, Ec. destruct Hs as [-> | ->].
  - exists c, r. split; [reflexivity|]. rewrite Hc. apply orb_true_r.
  - exists "-"%char, (String c r). split; reflexivity.
Qed.

Lemma parseValue_number (n : Z) (f : nat) (k : string) :
  delimited k = true ->
  parseValue (S f) (Js.numberToString n ++ k) = Some (JNumber n, k).
Proof.
  intros Hk. pose proof (parseNumber_print n k Hk) as Hp.
  destruct (numberToString_head n) as (c & r & E & Hc).
  rewrite E in *. cbn [append] in *.
  destruct (numeric_head c Hc) as (_ & _ & H). now rewrite H, Hp.
Qed.

(** The text of a value starts with a character that is neither white space
    nor a closing bracket. *)
Lemma printK_head (j : Json) (k : string) :
  exists c r, printK j k = String c r
              /\ isWhitespace c = false /\ Ascii.eqb c "]"%char = false.
Proof.
  destruct j as [|b|n|s|items|members]; cbn [printK].
  - repeat eexists; reflexivity.
  - destruct b; repeat eexists; reflexivity.
  - destruct (numberToString_head n) as (c & r & E & Hc). rewrite E.
    destruct (numeric_head c Hc) as (Hw & Hb & _).
    exists c, (r ++ k). repeat split; assumption.
  - repeat eexists; reflexivity.
  - repeat eexists; reflexivity.
  - repeat eexists; reflexivity.
Qed.

Lemma tailK_delimited {A} (print : A -> string -> string) (close : string)
    (l : list A) (k : string) :
  close = "]" \/ close = "}" -> delimited (tailK print close l k) = true.
Proof.
  intros [-> | ->]; destruct l; reflexivity.
Qed.

Lemma parseElements_print (l : list Json) :
  Forall parses l ->
  forall (x : Json) (f : nat) (k : string),
    parses x ->
    S (weight x + fold_right (fun y acc => S (weight y + acc)) 0 l) <= f ->
    parseElements f (printK x (tailK printK "]" l k)) = Some (x :: l, k).
Proof.
  induction 1 as [|y l Hy Hl IH]; intros x f k Hx Hf;
    (destruct f as [|f]; [lia|]); cbn [parseElements fold_right tailK] in *.
  - rewrite Hx; [|lia | reflexivity]. reflexivity.
  - rewrite Hx; [|lia | reflexivity]. cbn [append skipWs isWhitespace Ascii.eqb Bool.eqb orb].
    cbn. rewrite IH; [reflexivity | exact Hy | lia].
Qed.

Lemma parseMembers_print (l : list (string * Json)) :
  Forall (fun kv => parses (snd kv)) l ->
  forall (key : string) (v : Json) (f : nat) (k : string),
    parses v ->
    S (weight v + fold_right (fun kv acc => S (weight (snd kv) + acc)) 0 l) <= f ->
    parseMembers f (memberK printK (key, v) (tailK (memberK printK) "}" l k))
    = Some ((key, v) :: l, k).
Proof.
  induction 1 as [|[key' v'] l Hy Hl IH]; intros key v f k Hv Hf;
    (destruct f as [|f]; [lia|]); cbn [fold_right tailK snd] in *;
    unfold memberK at 1; unfold quotedK; cbn [parseMembers skipWs].
  - change (isWhitespace quoteChar) with false. cbn iota.
    change (Ascii.eqb quoteChar quoteChar) with true. cbn iota.
    rewrite parseString_escapeK. cbn [append skipWs].
    change (isWhitespace ":"%char) with false. cbn iota.
    change (Ascii.eqb ":"%char ":"%char) with true. cbn iota.
    rewrite Hv; [|lia | reflexivity]. reflexivity.
  - change (isWhitespace quoteChar) with false. cbn iota.
    change (Ascii.eqb quoteChar quoteChar) with true. cbn iota.
    rewrite parseString_escapeK. cbn [append skipWs].
    change (isWhitespace ":"%char) with false. cbn iota.
    change (Ascii.eqb ":"%char ":"%char) with true. cbn iota.
    rewrite Hv; [|lia | reflexivity].
    cbn [append skipWs]. change (isWhitespace ","%char) with false. cbn iota.
    change (Ascii.eqb ","%char ","%char) with true. cbn iota.
    rewrite IH; [reflexivity | exact Hy | lia].
Qed.

Lemma printK_parses (j : Json) : parses j.
Proof.
  induction j as [|b|n|s|items IH|members IH]; intros f k Hf Hk;
    (destruct f as [|f]; [cbn in Hf; lia|]).
  - destruct k; reflexivity.
  - destruct b, k; reflexivity.
  - cbn [printK]. now apply parseValue_number.
  - cbn [printK]. unfold quotedK. cbn [parseValue skipWs].
    change (isWhitespace quoteChar) with false. cbn iota.
    change (Ascii.eqb quoteChar "{"%char) with false.
    change (Ascii.eqb quoteChar "["%char) with false.
    change (Ascii.eqb quoteChar quoteChar) with true. cbn iota.
    now rewrite parseString_escapeK.
  - apply all_Forall in IH. cbn [printK weight] in *. unfold seqK.
    cbn [append parseValue skipWs]. change (isWhitespace "["%char) with false.
    cbn iota. change (Ascii.eqb "["%char "{"%char) with false.
    change (Ascii.eqb "["%char "["%char) with true. cbn iota.
    destruct items as [|x l]; [reflexivity|].
    inversion IH as [|x' l' Hx Hl]; subst.
    destruct (printK_head x (tailK printK "]" l k)) as (c & r & E & Hw & Hb).
    rewrite E. cbn [skipWs]. rewrite Hw, Hb. rewrite <- E.
    rewrite (parseElements_print l Hl x f k Hx); [reflexivity|].
    cbn [fold_right] in Hf. lia.
  - assert (IH' : Forall (fun kv => parses (snd kv)) members).
    { clear Hf. induction IH as [|kv Hkv l _ IHl]; [constructor|].
      constructor; [|exact IHl]. destruct Hkv as [key _ v Hv]. exact Hv. }
    cbn [printK weight] in *. unfold seqK.
    cbn [append parseValue skipWs]. change (isWhitespace "{"%char) with false.
    cbn iota. change (Ascii.eqb "{"%char "{"%char) with true. cbn iota.
    destruct members as [|[key v] l]; [reflexivity|].
    inversion IH' as [|x' l' Hx Hl]; subst. cbn [snd] in Hx.
    pose proof (parseMembers_print l Hl key v f k Hx) as Hm.
    unfold memberK at 1 in Hm. unfold memberK at 1. unfold quotedK in *.
    cbn [skipWs]. change (isWhitespace quoteChar) with false. cbn iota.
    change (Ascii.eqb quoteChar "}"%char) with false. cbn iota.
    rewrite Hm; [reflexivity|]. cbn [fold_right snd] in Hf. lia.
Qed.

Lemma escapeK_length (s k : string) : String.length k <= String.length (escapeK s k).
Proof.
  induction s as [|c s IH]; cbn [escapeK]; [lia|].
  rewrite length_append. lia.
Qed.

Lemma quotedK_length (s k : string) : 2 + String.length k <= String.length (quotedK s k).
Proof.
  unfold quotedK. cbn [String.length].
  pose proof (escapeK_length s (String quoteChar k)) as H. cbn [String.length] in H. lia.
Qed.

Lemma tailK_length {A} (print : A -> string -> string) (w : A -> nat)
    (close : string) (l : list A) (k : string) :
  close = "]" \/ close = "}" ->
  Forall (fun x => forall k', w x + String.length k' <= String.length (print x k')) l ->
  fold_right (fun x acc => S (w x + acc)) 0 l + 1 + String.length k
  <= String.length (tailK print close l k).
Proof.
  intros Hc. induction 1 as [|x l Hx _ IH]; cbn [fold_right tailK].
  - destruct Hc as [-> | ->]; cbn [append String.length]; lia.
  - cbn [append String.length]. specialize (Hx (tailK print close l k)). lia.
Qed.

Lemma seqK_length {A} (print : A -> string -> string) (w : A -> nat)
    (open close : string) (l : list A) (k : string) :
  open = "[" /\ close = "]" \/ open = "{" /\ close = "}" ->
  Forall (fun x => forall k', w x + String.length k' <= String.length (print x k')) l ->
  S (fold_right (fun x acc => S (w x + acc)) 0 l) + String.length k
  <= String.length (seqK print open close l k).
Proof.
  intros Hoc Hl. unfold seqK.
  assert (Ho : String.length open = 1) by (destruct Hoc as [[-> _] | [-> _]]; reflexivity).
  assert (Hc : close = "]" \/ close = "}") by (destruct Hoc as [[_ ->] | [_ ->]]; auto).
  rewrite length_append, Ho.
  destruct Hl as [|x l Hx Hl]; cbn [fold_right].
  - destruct Hc as [-> | ->]; cbn [append String.length]; lia.
  - specialize (Hx (tailK print close l k)).
    pose proof (tailK_length print w close l k Hc Hl). lia.
Qed.

Lemma printK_length (j : Json) : longEnough j.
Proof.
  induction j as [|b|n|s|items IH|members IH]; intros k; cbn [printK weight].
  - cbn [append String.length]. lia.
  - destruct b; cbn [append String.length]; lia.
  - destruct (numberToString_head n) as (c & r & E & _). rewrite E.
    cbn [append String.length]. rewrite length_append. lia.
  - pose proof (quotedK_length s k). lia.
  - apply all_Forall in IH. apply (seqK_length printK weight); [now left | exact IH].
  - apply (seqK_length (memberK printK) (fun kv => weight (snd kv))); [now right|].
    induction IH as [|kv Hkv l _ IHl]; [constructor|].
    constructor; [|exact IHl]. destruct Hkv as [key _ v Hv].
    intros k'. unfold memberK. cbn beta iota. cbn [snd].
    pose proof (quotedK_length key (":" ++ printK v k')) as H.
    cbn [append String.length] in H. cbn [append]. specialize (Hv k'). lia.
Qed.

(** The reference parser inverts the reference printer. *)
Lemma parseJson_print (j : Json) : parseJson (printK j EmptyString) = Some j.
Proof.
  unfold parseJson. rewrite printK_parses; [reflexivity | | reflexivity].
  pose proof (printK_length j EmptyString) as H. cbn [String.length] in H. lia.
Qed.

Lemma toMark_json (m : Mark) : toMark (jsonOfMark m) = m.
Proof.
  destruct m. reflexivity.
Qed.

Lemma toAttrs_json (a : Attrs) : toAttrs (jsonOfAttrs a) = a.
Proof.
  destruct a as [[lv|] [al|] [ck|] [s|] [dt|]]; reflexivity.
Qed.

Lemma attrs_member (a : Attrs) :
  match jsonOfAttrs a with
  | JObject _ => Some (toAttrs (jsonOfAttrs a))
  | _ => None
  end = Some a.
Proof.
  rewrite toAttrs_json. reflexivity.
Qed.

Lemma map_toMark_json (l : list Mark) : map toMark (map jsonOfMark l) = l.
Proof.
  induction l as [|m l IH]; [reflexivity|]. cbn [map]. now rewrite toMark_json, IH.
Qed.

Lemma toNode_json (n : TiptapNode) : toNode (jsonOfNode n) = n.
Proof.
  induction n as [ty c IH tx ms a].
  assert (Hc : match c with
               | Some l => map toNode (map jsonOfNode l) = l
               | None => True
               end).
  { destruct IH as [l IH|]; [|exact I].
    induction IH as [|x Hx l _ IHl]; [reflexivity|]. cbn [map]. now rewrite Hx, IHl. }
  destruct a as [a|], c as [l|], ms as [ms|], tx as [tx|];
    cbn -[toAttrs jsonOfAttrs toMark jsonOfMark];
    rewrite ?attrs_member, ?map_toMark_json, ?Hc; reflexivity.
Qed.

(** [JSON.parse] inverts [JSON.stringify] on every content tree. *)
Lemma JSON_parse_stringify (n : TiptapNode) :
  JSON_parse (JSON_stringify (ANode n)) = Some (ANode n).
Proof.
  unfold JSON_parse, JSON_stringify. rewrite parseJson_print.
  cbn [option_map]. destruct n as [ty c tx ms a] eqn:E.
  rewrite <- E. replace (ofJson (jsonOfNode n)) with (ANode (toNode (jsonOfNode n)))
    by (subst n; reflexivity).
  now rewrite toNode_json.
Qed.

End JsonFacts.

(** ** The stored form of page content *)

Section PageContent.

Import Firebase Examples.

Variable JSON_stringify : AnyValue -> string.
Variable JSON_parse : string -> option AnyValue.

(** The stored form in general: when [JSON.parse] inverts
    [JSON.stringify] on a content tree, the content that [getPage] returns
    for what [updatePage] stored is the tree that was saved. *)
Lemma stored_content_round_trip (T : TiptapNode) :
  JSON_parse (JSON_stringify (ANode T)) = Some (ANode T) ->
  getPageContent JSON_parse (updatePageContent JSON_stringify (ANode T)) = ANode T.
Proof.
  intros H. unfold updatePageContent, getPageContent.
  cbn [truthy isObject andb]. now rewrite H.
Qed.

End PageContent.

(** The stored form on values of type [any]: when [JSON.parse] inverts
    [JSON.stringify] on an object, what [updatePage] stores for it is the
    string, and [getPage] returns the object for that string. *)
Lemma any_stored_content_round_trip (JSON_stringify : Browser.Json -> string)
    (JSON_parse : string -> option Browser.Json) (members : list (string * Browser.Json)) :
  JSON_parse (JSON_stringify (Browser.JObject members)) = Some (Browser.JObject members) ->
  let T := Browser.JObject members in
  let stored := Any.updatePageContent JSON_stringify (Some T) in
  stored = Some (Browser.JString (JSON_stringify T))
  /\ Any.getPageContent JSON_parse stored = T.
Proof.
  intros H. cbv zeta. unfold Any.updatePageContent, Any.getPageContent, Any.str.
  cbn [Any.truthy Any.isObject andb]. rewrite H. now split.
Qed.

(** C7: a content tree is an object, with whatever kinds, attributes and
    further properties.  On save [updatePage] stores the string
    serialization of the object, and on load [getPage] decodes that string
    to an object equal to the original. *)
Theorem content_round_trip :
  forall members : list (string * Browser.Json),
    let T := Browser.JObject members in
    let stored := Any.updatePageContent Any.JSON_stringify (Some T) in
    stored = Some (Browser.JString (Any.JSON_stringify T))
    /\ Any.getPageContent Any.JSON_parse stored = T.
Proof.
  intros members. apply any_stored_content_round_trip.
  unfold Any.JSON_parse, Any.JSON_stringify. apply parseJson_print.
Qed.

(** C7 at a document that holds an image with the attributes of the
    specification and of the editor: the stored string, and the object that
    is loaded from it. *)
Example content_round_trip_example :
  let image :=
    Browser.JObject
      [("type", Browser.JString "image");
       ("attrs", Browser.JObject
                   [("src", Browser.JString "https://example.com/a.png");
                    ("altText", Browser.JString "a");
                    ("storagePath", Browser.JString "users/u/images/a.png");
                    ("alt", Browser.JNull); ("title", Browser.JNull);
                    ("data-storage-path", Browser.JString "users/u/images/a.png");
                    ("pending", Browser.JBool false)])] in
  let T := Browser.JObject [("type", Browser.JString "doc");
                            ("content", Browser.JArray [image])] in
  let stored := Any.updatePageContent Any.JSON_stringify (Some T) in
  stored
  = Some (Browser.JString
            ("{" ++ dq ++ "type" ++ dq ++ ":" ++ dq ++ "doc" ++ dq ++ ","
             ++ dq ++ "content" ++ dq ++ ":[{" ++ dq ++ "type" ++ dq ++ ":" ++ dq ++ "image"
             ++ dq ++ "," ++ dq ++ "attrs" ++ dq ++ ":{" ++ dq ++ "src" ++ dq ++ ":" ++ dq
             ++ "https://example.com/a.png" ++ dq ++ "," ++ dq ++ "altText" ++ dq ++ ":"
             ++ dq ++ "a" ++ dq ++ "," ++ dq ++ "storagePath" ++ dq ++ ":" ++ dq
             ++ "users/u/images/a.png" ++ dq ++ "," ++ dq ++ "alt" ++ dq ++ ":null,"
             ++ dq ++ "title" ++ dq ++ ":null," ++ dq ++ "data-storage-path" ++ dq ++ ":"
             ++ dq ++ "users/u/images/a.png" ++ dq ++ "," ++ dq ++ "pending" ++ dq
             ++ ":false}}]}"))
  /\ Any.getPageContent Any.JSON_parse stored = T.
Proof. vm_compute. split; reflexivity. Qed.

(** The same on the trees of the [TiptapNode] interface, with the reference
    functions that read an object through the interface. *)
Example typed_content_round_trip_example :
  let T := Examples.doc [Examples.helloParagraph; Examples.doneTask] in
  Browser.JSON_parse (Browser.JSON_stringify (ANode T)) = Some (ANode T)
  /\ Firebase.getPageContent Browser.JSON_parse
       (Firebase.updatePageContent Browser.JSON_stringify (ANode T)) = ANode T.
Proof. vm_compute. split; reflexivity. Qed.

(** ** The read-time estimate *)

Section ReadTime.

Import PageCard Examples.

Lemma length_substring_le (s : string) (n : nat) :
  String.length (String.substring 0 n s) <= n.
Proof.
  revert n. induction s as [|c s IH]; intros [|n]; simpl; try lia.
  specialize (IH n). lia.
Qed.

Lemma split_nonempty (sep : ascii) (s : string) : split sep s <> [].
Proof.
  destruct s as [|c s]; simpl; [discriminate|].
  destruct (Ascii.eqb c sep); [discriminate|].
  destruct (split sep s); discriminate.
Qed.

Lemma split_length_le (sep : ascii) (s : string) :
  List.length (split sep s) <= S (String.length s).
Proof.
  induction s as [|c s IH]; simpl; [lia|].
  destruct (Ascii.eqb c sep); simpl; [lia|].
  destruct (split sep s); simpl in *; lia.
Qed.

Lemma getPreviewText_length (content : option TiptapNode) :
  String.length (getPreviewText content) <= 153.
Proof.
  unfold getPreviewText.
  destruct content as [c|]; simpl; [|lia].
  destruct (Tiptap.content c) as [l|]; simpl; [|lia].
  rewrite length_append.
  pose proof (length_substring_le (extractText l) 150) as H. unfold slice0.
  destruct (Nat.ltb 150 (String.length (extractText l))); simpl; lia.
Qed.

Lemma words_bounds (content : option TiptapNode) :
  (1 <= words content <= 154)%Z.
Proof.
  unfold words.
  pose proof (split_length_le " "%char (getPreviewText content)) as Hle.
  pose proof (getPreviewText_length content) as Hlen.
  pose proof (split_nonempty " "%char (getPreviewText content)) as Hne.
  destruct (split " "%char (getPreviewText content)) as [|w ws]; [congruence|].
  simpl List.length in *. lia.
Qed.

Lemma ceilDiv_small (w : Z) : (1 <= w <= 200)%Z -> ceilDiv w 200 = 1%Z.
Proof.
  intros H. unfold ceilDiv.
  assert (E : (- w / 200 = -1)%Z).
  { symmetry. apply (Z.div_unique_pos (- w) 200 (-1) (200 - w)); lia. }
  rewrite E. reflexivity.
Qed.

(** C8, what the code does: the words are counted in the preview text, which
    is cut to 150 characters, so there are never more than 154 of them and
    the estimate is one minute for every content, whatever its length. *)
Theorem calculateReadTime_always_one_minute :
  forall content : option TiptapNode,
    minutes content = 1%Z /\ calculateReadTime content = "1 min read".
Proof.
  intros content.
  assert (E : minutes content = 1%Z).
  { unfold minutes. apply ceilDiv_small. pose proof (words_bounds content). lia. }
  split; [exact E|]. unfold calculateReadTime. rewrite E. reflexivity.
Qed.

(** What holds of the estimate: it is the ceiling of a two-hundredth of the
    number of words counted in the preview, it does not decrease when that
    number grows, and it is at least one. *)
Lemma ceilDiv_monotone (a b : Z) : (a <= b)%Z -> (ceilDiv a 200 <= ceilDiv b 200)%Z.
Proof.
  intros H. unfold ceilDiv.
  assert ((- b / 200 <= - a / 200)%Z) by (apply Z.div_le_mono; lia). lia.
Qed.

Lemma minutes_of_counted_words (content : option TiptapNode) :
  minutes content = ceilDiv (words content) 200 /\ (1 <= minutes content)%Z.
Proof.
  split; [reflexivity|]. unfold minutes.
  rewrite ceilDiv_small; [lia|]. pose proof (words_bounds content). lia.
Qed.

(** C8 at a document of 201 words: its text has 201 words, for which the
    estimate should be two minutes, and the card shows one. *)
Example calculateReadTime_201_words :
  List.length (split " "%char (extractText (children longDoc))) = 201
  /\ ceilDiv 201 200 = 2%Z
  /\ calculateReadTime (Some longDoc) = "1 min read".
Proof.
  split; [vm_compute; reflexivity|]. split; [reflexivity|].
  vm_compute. reflexivity.
Qed.

End ReadTime.

(** ** The reference extractor *)

Section JsSets.

Lemma setHas_In (s : list string) (x : string) : setHas s x = true <-> In x s.
Proof.
  unfold setHas. rewrite existsb_exists. split.
  - intros (y & Hy & E). apply String.eqb_eq in E. now subst.
  - intros H. exists x. split; [exact H | apply String.eqb_refl].
Qed.

Lemma setHas_not_In (s : list string) (x : string) : setHas s x = false <-> ~ In x s.
Proof.
  rewrite <- setHas_In. destruct (setHas s x); split; congruence.
Qed.

Lemma setAdd_In (s : list string) (x y : string) :
  In y (setAdd s x) <-> In y s \/ y = x.
Proof.
  unfold setAdd. destruct (setHas s x) eqn:E.
  - apply setHas_In in E. split; [tauto|]. intros [H| ->]; assumption.
  - rewrite in_app_iff. simpl. intuition congruence.
Qed.

Lemma setAdd_NoDup (s : list string) (x : string) : NoDup s -> NoDup (setAdd s x).
Proof.
  intros H. unfold setAdd. destruct (setHas s x) eqn:E; [exact H|].
  apply setHas_not_In in E.
  apply NoDup_app; [exact H | repeat constructor; intros [] |].
  intros y Hy [<-|[]]. exact (E Hy).
Qed.


Lemma fold_setAdd_NoDup (l s : list string) : NoDup s -> NoDup (fold_left setAdd l s).
Proof.
  revert s. induction l as [|x l IH]; intros s H; simpl; [exact H|].
  apply IH, setAdd_NoDup, H.
Qed.


Lemma setFromArray_NoDup (l : list string) : NoDup (setFromArray l).
Proof.
  apply fold_setAdd_NoDup. constructor.
Qed.

End JsSets.

Section Extractor.

Import Firebase Examples.

Variable URL_pathname : string -> option string.
Variable decodeURIComponent : string -> option string.

Local Abbreviation traverse := (Firebase.traverse URL_pathname decodeURIComponent).
Local Abbreviation ownPath := (Firebase.ownPath URL_pathname decodeURIComponent).
Local Abbreviation imagePathOf := (Firebase.imagePathOf URL_pathname decodeURIComponent).
Local Abbreviation extractImagePaths :=
  (Firebase.extractImagePaths URL_pathname decodeURIComponent).

(** Induction on trees, with the property known for every child. *)
Lemma tree_ind (P : TiptapNode -> Prop) :
  (forall node, Forall P (children node) -> P node) ->
  forall node, P node.
Proof.
  intros step. induction node as [ty c IH tx ms a].
  apply step. unfold children. simpl.
  destruct IH as [l IH|]; [apply all_Forall, IH | constructor].
Qed.


Lemma nodesOf_unfold (node : TiptapNode) :
  nodesOf node = node :: flat_map nodesOf (children node).
Proof.
  destruct node as [ty [l|] tx ms a]; reflexivity.
Qed.






End Extractor.


(** An image that is not pending and whose address is a data URI is left
    out. *)
Example inline_image_is_not_extracted :
  let T := Examples.doc [Examples.image "data:image/png;base64,AAAA" None] in
  isPending (Examples.image "data:image/png;base64,AAAA" None) = false
  /\ (forall U D : string -> option string, Firebase.extractImagePaths U D (Some T) = []).
Proof.
  split; [reflexivity|]. intros U D. reflexivity.
Qed.

(** ** The orphan sweep *)

Section SweepFacts.

Import UseEditor Examples.

Variable URL_pathname : string -> option string.
Variable decodeURIComponent : string -> option string.
Variable deleteObject : string -> bool.

Local Abbreviation pathOf := (storagePathOf URL_pathname decodeURIComponent).
Local Abbreviation submitted := (submittedPath URL_pathname decodeURIComponent).
Local Abbreviation extractPath :=
  (extractStoragePathFromUrl URL_pathname decodeURIComponent).
Local Abbreviation sweepOne := (cleanupOne URL_pathname decodeURIComponent deleteObject).
Local Abbreviation sweepAll := (cleanupAll URL_pathname decodeURIComponent deleteObject).
Local Abbreviation tick :=
  (trackImagesAndCleanup URL_pathname decodeURIComponent deleteObject).

Lemma steps_ret {A} (a : A) (w : World) : steps (ret a) w a [].
Proof.
  exists []. destruct w as [pi dr co]. cbn. now rewrite !app_nil_r.
Qed.

Lemma steps_consoleWrite (msg : string) (w : World) : steps (consoleWrite msg) w tt [].
Proof.
  exists [msg]. cbn. now rewrite app_nil_r.
Qed.

Lemma steps_bind {A B} (c : state World A) (f : A -> state World B)
    (w : World) (a : A) (b : B) (r1 r2 : list string) :
  steps c w a r1 ->
  (forall w', previousImages w' = previousImages w ->
              deleteRequests w' = (deleteRequests w ++ r1)%list ->
              steps (f a) w' b r2) ->
  steps (bind c f) w b (r1 ++ r2).
Proof.
  intros [m1 H1] H2.
  destruct (H2 (mkWorld (previousImages w) (deleteRequests w ++ r1) (console w ++ m1))
              eq_refl eq_refl) as [m2 E2]. cbn in E2.
  exists (m1 ++ m2)%list. cbn. rewrite H1. cbn. rewrite E2.
  now rewrite !app_assoc.
Qed.

Lemma steps_extractStoragePathFromUrl (url : string) (w : World) :
  steps (extractPath url) w (pathOf url) [].
Proof.
  unfold extractStoragePathFromUrl, storagePathOf.
  destruct (isFirebaseUrl url); [|apply steps_ret].
  destruct (URL_pathname url) as [pathname|].
  - destruct (matchObject pathname) as [g|]; [|apply steps_ret].
    destruct (decodeURIComponent g); [apply steps_ret|].
    apply (steps_bind _ _ w tt None [] []); [apply steps_consoleWrite|].
    intros; apply steps_ret.
  - apply (steps_bind _ _ w tt None [] []); [apply steps_consoleWrite|].
    intros; apply steps_ret.
Qed.

Lemma steps_deleteImage (p : string) (w : World) :
  steps (Firebase.deleteImage deleteObject p) w tt
        (if p =? EmptyString then [] else [p]).
Proof.
  unfold Firebase.deleteImage. destruct (p =? EmptyString); [apply steps_ret|].
  destruct (deleteObject p).
  - exists []. cbn. now rewrite app_nil_r.
  - exists ["Error deleting image:"]. reflexivity.
Qed.

Lemma steps_cleanupOne (url : string) (w : World) :
  steps (sweepOne url) w tt (submitted url).
Proof.
  unfold cleanupOne, submittedPath.
  destruct (includes url "blob:"); cbn [negb]; [apply steps_ret|].
  apply (steps_bind _ _ w (pathOf url) tt []);
    [apply steps_extractStoragePathFromUrl|].
  intros w' _ _. destruct (pathOf url) as [p|]; cbn [truthyStr orElse];
    [|apply steps_ret].
  destruct (p =? EmptyString) eqn:E; cbn [negb]; [apply steps_ret|].
  apply (steps_bind _ _ w' tt tt [] [p]); [apply steps_consoleWrite|].
  intros w'' _ _. pose proof (steps_deleteImage p w'') as H. now rewrite E in H.
Qed.

Lemma steps_cleanupAll (l : list string) (w : World) :
  steps (sweepAll l) w tt (flat_map submitted l).
Proof.
  revert w. induction l as [|url l IH]; intros w; [apply steps_ret|].
  cbn [cleanupAll flat_map].
  apply (steps_bind _ _ w tt tt); [apply steps_cleanupOne|].
  intros w' _ _. apply IH.
Qed.

Lemma tick_run (uid : option string) (content : TiptapNode) (w : World) :
  truthyStr uid = true ->
  let newRefs := extractImages content [] in
  let orphans := filter (fun url => negb (setHas newRefs url)) (previousImages w) in
  let w' := execState (tick uid content) w in
  deleteRequests w' = (deleteRequests w ++ flat_map submitted orphans)%list
  /\ previousImages w' = filter (fun url => negb (includes url "blob:")) newRefs.
Proof.
  intros Huid. cbv zeta.
  unfold trackImagesAndCleanup, execState. rewrite Huid. cbn [negb].
  destruct (steps_cleanupAll
              (filter (fun url => negb (setHas (extractImages content []) url))
                      (previousImages w)) w) as [msgs E].
  cbn. cbn in E. rewrite E. cbn. split; reflexivity.
Qed.

(** C2, as the code has it: when a user is signed in, one tick submits,
    for each address of the baseline that is no longer among the current
    ones, does not contain [blob:] and has a storage path, a delete request
    for that storage path, and no other request; after the tick the baseline
    is the set of current addresses without those containing [blob:].  Both
    are the same whether the deletes succeed or fail. *)
Theorem sweep_tick :
  forall (uid : option string) (content : TiptapNode) (w : World),
    truthyStr uid = true ->
    let newRefs := extractImages content [] in
    let orphans := filter (fun url => negb (setHas newRefs url)) (previousImages w) in
    let w' := execState (tick uid content) w in
    deleteRequests w' = (deleteRequests w ++ flat_map submitted orphans)%list
    /\ previousImages w' = filter (fun url => negb (includes url "blob:")) newRefs.
Proof.
  intros uid content w Huid. exact (tick_run uid content w Huid).
Qed.

End SweepFacts.

Section CurrentImages.

Import UseEditor.

Lemma extractImages_unfold (node : TiptapNode) (acc : list string) :
  extractImages node acc
  = fold_left (fun acc child => extractImages child acc) (children node)
      (match trackedSrc node with
       | Some s => setAdd acc s
       | None => acc
       end).
Proof.
  unfold trackedSrc.
  destruct node as [ty [l|] tx ms a]; cbn [extractImages children content type];
    destruct (_ && _); try destruct (isFirebaseUrl _); reflexivity.
Qed.

(** The current set holds the addresses of the images of the content that
    pass the storage test, each once. *)
Lemma extractImages_In (node : TiptapNode) :
  forall (acc : list string) (y : string),
    In y (extractImages node acc) <->
    In y acc \/ exists n, In n (nodesOf node) /\ trackedSrc n = Some y.
Proof.
  induction node as [node IH] using tree_ind. intros acc y.
  rewrite extractImages_unfold, nodesOf_unfold.
  set (acc0 := match trackedSrc node with Some s => setAdd acc s | None => acc end).
  assert (H0 : In y acc0 <-> In y acc \/ trackedSrc node = Some y).
  { subst acc0. destruct (trackedSrc node) as [s|].
    - rewrite setAdd_In. split; [intros [H| ->]; auto | intros [H|H]; auto].
      injection H as ->. now right.
    - split; [auto | intros [H|H]; [exact H | discriminate]]. }
  assert (H1 : forall l a,
    Forall (fun c => forall acc y, In y (extractImages c acc) <->
                     In y acc \/ exists n, In n (nodesOf c) /\ trackedSrc n = Some y) l ->
    (In y (fold_left (fun acc child => extractImages child acc) l a) <->
     In y a \/ exists n, In n (flat_map nodesOf l) /\ trackedSrc n = Some y)).
  { clear. induction l as [|c l IHl]; intros a Hl; cbn [fold_left flat_map].
    - split; [auto | intros [H|(n & [] & _)]; exact H].
    - inversion Hl as [|c' l' Hc Hl']; subst. rewrite (IHl _ Hl'), Hc. split.
      + intros [[H|(n & Hn & H)]|(n & Hn & H)]; auto.
        * right. exists n. rewrite in_app_iff. auto.
        * right. exists n. rewrite in_app_iff. auto.
      + intros [H|(n & Hn & H)]; auto. apply in_app_iff in Hn.
        destruct Hn as [Hn|Hn]; [left; right | right]; now exists n. }
  rewrite (H1 _ _ IH), H0. split.
  - intros [[H|H]|(n & Hn & H)]; auto.
    + right. exists node. split; [now left | exact H].
    + right. exists n. split; [now right | exact H].
  - intros [H|(n & [<-|Hn] & H)]; auto. right. now exists n.
Qed.

Lemma extractImages_NoDup (node : TiptapNode) :
  forall acc : list string, NoDup acc -> NoDup (extractImages node acc).
Proof.
  induction node as [node IH] using tree_ind. intros acc Hacc.
  rewrite extractImages_unfold.
  set (acc0 := match trackedSrc node with Some s => setAdd acc s | None => acc end).
  assert (H0 : NoDup acc0).
  { subst acc0. destruct (trackedSrc node); [now apply setAdd_NoDup | exact Hacc]. }
  clearbody acc0. clear Hacc. revert acc0 H0.
  induction IH as [|c l Hc _ IHl]; intros a Ha; cbn [fold_left]; [exact Ha|].
  apply IHl, Hc, Ha.
Qed.

End CurrentImages.

Section SweepReading.

Import UseEditor.

Variable URL_pathname : string -> option string.
Variable decodeURIComponent : string -> option string.

(** The requests of a tick, read as a set: the storage paths of the
    addresses that left the document. *)
Lemma submitted_In (newRefs baseline : list string) (p : string) :
  In p (flat_map (submittedPath URL_pathname decodeURIComponent)
          (filter (fun url => negb (setHas newRefs url)) baseline)) <->
  exists url,
    In url baseline /\ ~ In url newRefs /\ includes url "blob:" = false
    /\ storagePathOf URL_pathname decodeURIComponent url = Some p /\ p <> EmptyString.
Proof.
  rewrite in_flat_map. unfold submittedPath. split.
  - intros (url & Hu & Hp). apply filter_In in Hu. destruct Hu as (Hb & Hn).
    apply negb_true_iff, setHas_not_In in Hn. exists url.
    destruct (includes url "blob:"); [destruct Hp|].
    destruct (storagePathOf _ _ url) as [q|]; [|destruct Hp].
    destruct (String.eqb_spec q EmptyString) as [E|E]; [destruct Hp|].
    destruct Hp as [<-|[]]. auto.
  - intros (url & Hb & Hn & Hblob & Hp & Hne). exists url. split.
    + apply filter_In. split; [exact Hb|]. now apply negb_true_iff, setHas_not_In.
    + rewrite Hblob, Hp. destruct (String.eqb_spec p EmptyString); [contradiction|].
      now left.
Qed.

(** The outcome of the deletes changes neither the requests nor the
    baseline. *)
Lemma sweep_any_outcome (del1 del2 : string -> bool) (uid : option string)
    (content : TiptapNode) (w : World) :
  let w1 := execState (trackImagesAndCleanup URL_pathname decodeURIComponent del1 uid content) w in
  let w2 := execState (trackImagesAndCleanup URL_pathname decodeURIComponent del2 uid content) w in
  deleteRequests w1 = deleteRequests w2 /\ previousImages w1 = previousImages w2.
Proof.
  cbv zeta. destruct (truthyStr uid) eqn:Huid.
  - destruct (tick_run URL_pathname decodeURIComponent del1 uid content w Huid) as [A1 B1].
    destruct (tick_run URL_pathname decodeURIComponent del2 uid content w Huid) as [A2 B2].
    cbv zeta in *. split; congruence.
  - unfold trackImagesAndCleanup. rewrite Huid. split; reflexivity.
Qed.

End SweepReading.

Section SweepExamples.

Import UseEditor Examples.

(** The theorem at a baseline of three stored images, of which the first
    left the document while a fourth came in; every delete fails. *)
Lemma sweep_tick_witness :
  let A := storageUrl "a.png" in
  let B := storageUrl "b.png" in
  let C := storageUrl "c.png" in
  let D := storageUrl "d.png" in
  let w' := execState
              (trackImagesAndCleanup Browser.URL_pathname Browser.decodeURIComponent
                 (fun _ => false) (Some "u")
                 (doc [image B None; paragraph [textNode "x" []]; image C None; image D None]))
              (mkWorld [A; B; C] [] []) in
  truthyStr (Some "u") = true
  /\ deleteRequests w' = ["users/u/images/a.png"]
  /\ previousImages w' = [B; C; D].
Proof.
  split; [reflexivity|].
  exact (sweep_tick Browser.URL_pathname Browser.decodeURIComponent (fun _ => false)
           (Some "u")
           (doc [image (storageUrl "b.png") None; paragraph [textNode "x" []];
                 image (storageUrl "c.png") None; image (storageUrl "d.png") None])
           (mkWorld [storageUrl "a.png"; storageUrl "b.png"; storageUrl "c.png"] [] [])
           eq_refl).
Defined.

(** C2, as the specification states it, fails: the address of an image that
    left the document is in the baseline and not among the current ones, and
    no delete request is submitted for it. *)
Lemma orphan_without_delete_request :
  let w := mkWorld [foreignUrl] [] [] in
  let newRefs := extractImages (doc []) [] in
  let w' := execState
              (trackImagesAndCleanup Browser.URL_pathname Browser.decodeURIComponent
                 (fun _ => true) (Some "u") (doc [])) w in
  filter (fun url => negb (setHas newRefs url)) (previousImages w) = [foreignUrl]
  /\ deleteRequests w' = [].
Proof.
  split; reflexivity.
Qed.

(** Without a signed-in user the tick does nothing: the baseline stays. *)
Example sweep_signed_out :
  forall (del : string -> bool) (content : TiptapNode) (w : World),
    execState
      (trackImagesAndCleanup Browser.URL_pathname Browser.decodeURIComponent del None content) w
    = w.
Proof.
  intros del content [pi dr co]. reflexivity.
Qed.

(** An address that passes the storage test and contains [blob:] is among
    the current ones and is left out of the new baseline. *)
Example sweep_drops_blob_addresses :
  let temp := "blob:https://pages.firebaseapp.com/1f0c?token=2" in
  let w' := execState
              (trackImagesAndCleanup Browser.URL_pathname Browser.decodeURIComponent
                 (fun _ => true) (Some "u") (doc [image temp (Some "true")]))
              (mkWorld [] [] []) in
  extractImages (doc [image temp (Some "true")]) [] = [temp]
  /\ previousImages w' = [].
Proof.
  split; reflexivity.
Qed.

End SweepExamples.

(** * Further properties of the code *)

(** ** Strings *)

Section StringFacts.

Lemma prefix_iff (p s : string) :
  String.prefix p s = true <-> exists b, s = p ++ b.
Proof.
  revert p. induction s as [|c s IH]; intros [|d p]; simpl.
  - split; [now exists EmptyString | reflexivity].
  - split; [discriminate | intros (b & H); discriminate H].
  - split; [now exists (String c s) | reflexivity].
  - destruct (ascii_dec d c) as [->|Hne].
    + rewrite IH. split; intros (b & H); exists b; [now rewrite H | now injection H].
    + split; [discriminate | intros (b & H); injection H as H1 _; now symmetry in H1].
Qed.

Lemma includes_iff (s sub : string) :
  includes s sub = true <-> exists a b, s = a ++ sub ++ b.
Proof.
  induction s as [|c s IH]; cbn [includes].
  - destruct (String.prefix sub EmptyString) eqn:E.
    + apply prefix_iff in E. destruct E as (b & E). split; [|reflexivity].
      intros _. now exists EmptyString, b.
    + split; [discriminate|]. intros (a & b & H).
      destruct a as [|x a]; [|discriminate H].
      assert (String.prefix sub EmptyString = true) by (apply prefix_iff; now exists b).
      congruence.
  - destruct (String.prefix sub (String c s)) eqn:E.
    + apply prefix_iff in E. destruct E as (b & E). split; [|reflexivity].
      intros _. now exists EmptyString, b.
    + rewrite IH. split.
      * intros (a & b & ->). now exists (String c a), b.
      * intros (a & b & H). destruct a as [|x a].
        -- assert (String.prefix sub (String c s) = true) by (apply prefix_iff; now exists b).
           congruence.
        -- injection H as _ ->. now exists a, b.
Qed.

Lemma append_nil_r (a : string) : a ++ EmptyString = a.
Proof.
  induction a as [|x a IH]; simpl; [reflexivity | now rewrite IH].
Qed.

Lemma join_empty_cons (x : string) (l : list string) :
  join EmptyString (x :: l) = x ++ join EmptyString l.
Proof.
  destruct l; cbn; [now rewrite append_nil_r | reflexivity].
Qed.

Lemma join_empty_app (l1 l2 : list string) :
  join EmptyString (l1 ++ l2) = join EmptyString l1 ++ join EmptyString l2.
Proof.
  induction l1 as [|x l1 IH]; [reflexivity|].
  rewrite <- app_comm_cons, !join_empty_cons, IH. now rewrite append_assoc.
Qed.

Lemma numberToString_inj (n m : Z) : numberToString n = numberToString m -> n = m.
Proof.
  unfold numberToString. intros H.
  assert (E : NilZero.int_of_string (NilZero.string_of_int (Z.to_int n))
              = NilZero.int_of_string (NilZero.string_of_int (Z.to_int m)))
    by now rewrite H.
  destruct (to_int_valid n), (to_int_valid m).
  rewrite !NilZero.isi in E by assumption. injection E as E.
  rewrite <- (DecimalZ.of_to n), <- (DecimalZ.of_to m). now rewrite E.
Qed.

End StringFacts.

(** ** More of the HTML renderer *)

Section RendererMore.

Import PdfExport Examples.

(** X1: a document renders as the concatenation of the renderings of its
    children, with nothing around or between them, and as the empty string
    when it has no [content]; so the rendering of a document whose children
    are two lists in a row is the rendering of the first followed by the
    rendering of the second. *)
Theorem doc_rendering_concatenates :
  forall (t : option string) (ms : option (list Mark)) (a : option Attrs),
    (forall l : list TiptapNode,
        convertNodeToHtml (mkNode "doc" (Some l) t ms a)
        = join EmptyString (map convertNodeToHtml l))
    /\ convertNodeToHtml (mkNode "doc" None t ms a) = EmptyString
    /\ (forall l1 l2 : list TiptapNode,
           convertNodeToHtml (mkNode "doc" (Some (l1 ++ l2)%list) t ms a)
           = convertNodeToHtml (mkNode "doc" (Some l1) t ms a)
             ++ convertNodeToHtml (mkNode "doc" (Some l2) t ms a)).
Proof.
  intros t ms a.
  assert (H : forall l, convertNodeToHtml (mkNode "doc" (Some l) t ms a)
                        = join EmptyString (map convertNodeToHtml l)).
  { intros l. rewrite convertNodeToHtml_unfold.
    cbn [type content String.eqb Ascii.eqb Bool.eqb]. unfold switchOnType.
    cbn [type String.eqb Ascii.eqb Bool.eqb]. reflexivity. }
  split; [exact H|]. split; [reflexivity|].
  intros l1 l2. rewrite !H. now rewrite map_app, join_empty_app.
Qed.

Lemma blockTag_heading (n : Z) :
  arrayIncludes blockTags ("h" ++ numberToString n) = ((1 <=? n)%Z && (n <=? 6)%Z).
Proof.
  destruct ((1 <=? n)%Z && (n <=? 6)%Z) eqn:E.
  - apply andb_true_iff in E. destruct E as [E1 E2].
    apply Z.leb_le in E1. apply Z.leb_le in E2.
    assert (n = 1 \/ n = 2 \/ n = 3 \/ n = 4 \/ n = 5 \/ n = 6)%Z as H by lia.
    destruct H as [->|[->|[->|[->|[->| ->]]]]]; reflexivity.
  - unfold arrayIncludes, blockTags. cbn [existsb].
    assert (H : forall k : Z, (1 <= k <= 6)%Z ->
                ("h" ++ numberToString n =? "h" ++ numberToString k) = false).
    { intros k Hk. apply String.eqb_neq. intros Heq. cbn [append] in Heq.
      injection Heq as Heq. apply numberToString_inj in Heq. subst k.
      assert ((1 <=? n)%Z = true) by (apply Z.leb_le; lia).
      assert ((n <=? 6)%Z = true) by (apply Z.leb_le; lia).
      rewrite H, H0 in E. discriminate E. }
    pose proof (H 1%Z ltac:(lia)) as H1. pose proof (H 2%Z ltac:(lia)) as H2.
    pose proof (H 3%Z ltac:(lia)) as H3. pose proof (H 4%Z ltac:(lia)) as H4.
    pose proof (H 5%Z ltac:(lia)) as H5. pose proof (H 6%Z ltac:(lia)) as H6.
    change (numberToString 1) with "1" in H1. change (numberToString 2) with "2" in H2.
    change (numberToString 3) with "3" in H3. change (numberToString 4) with "4" in H4.
    change (numberToString 5) with "5" in H5. change (numberToString 6) with "6" in H6.
    cbn [append] in *. rewrite H1, H2, H3, H4, H5, H6.
    destruct (numberToString_head n) as (c & r & Hn & Hc). rewrite Hn.
    destruct c as [[] [] [] [] [] [] [] []]; try discriminate Hc; reflexivity.
Qed.

(** X2: a heading renders with the tag of its level, and with the tag h1
    when the level is absent or zero; the line feed that follows a block is
    written only for the levels 1 to 6. *)
Theorem heading_rendering :
  forall (c : option (list TiptapNode)) (t : option string) (ms : option (list Mark))
         (a : option Attrs),
    let node := mkNode "heading" c t ms a in
    let n := levelOrOne node in
    convertNodeToHtml node
    = "<h" ++ numberToString n ++ styleOf (attr textAlign node) ++ ">"
      ++ renderChildren c ++ "</h" ++ numberToString n ++ ">"
      ++ (if (1 <=? n)%Z && (n <=? 6)%Z then nl else EmptyString).
Proof.
  intros c t ms a. cbv zeta. rewrite convertNodeToHtml_unfold.
  cbn [type String.eqb Ascii.eqb Bool.eqb]. unfold switchOnType.
  cbn [type String.eqb Ascii.eqb Bool.eqb content].
  unfold wrapElement, taskCheckbox, alignAttr, styleOf, openTag.
  cbn [type String.eqb Ascii.eqb Bool.eqb].
  rewrite blockTag_heading.
  set (node := mkNode "heading" c t ms a).
  destruct (truthyStr (attr textAlign node));
    destruct ((1 <=? levelOrOne node)%Z && (levelOrOne node <=? 6)%Z);
    cbn -[append renderChildren orElse attr levelOrOne numberToString];
    rewrite ?append_assoc; cbn -[renderChildren orElse attr levelOrOne numberToString];
    rewrite ?append_assoc, ?append_nil_r; reflexivity.
Qed.

(** A mark that the renderer has no tag for changes nothing. *)
Lemma applyMark_other (text : string) (m : Mark) :
  arrayIncludes ["bold"; "italic"; "underline"; "strike"] (mark_type m) = false ->
  applyMark text m = text.
Proof.
  unfold arrayIncludes, applyMark. cbn [existsb]. rewrite !orb_false_iff.
  intros (H1 & H2 & H3 & H4 & _). now rewrite H1, H2, H3, H4.
Qed.

(** X3: marks other than bold, italic, underline and strike (the code mark,
    a link) leave the text as it is: a text node that carries only such
    marks renders as its bare text. *)
Theorem other_marks_are_dropped :
  forall (c : option (list TiptapNode)) (t : option string) (ms : list Mark)
         (a : option Attrs),
    forallb (fun m => negb (arrayIncludes ["bold"; "italic"; "underline"; "strike"]
                              (mark_type m))) ms = true ->
    convertNodeToHtml (mkNode "text" c t (Some ms) a) = orElse t EmptyString.
Proof.
  intros c t ms a H. rewrite convertNodeToHtml_unfold.
  cbn [type String.eqb Ascii.eqb Bool.eqb]. unfold renderText. cbn [marks text].
  generalize (orElse t EmptyString) as s. intros s.
  induction ms as [|m ms IH]; [reflexivity|].
  cbn [forallb] in H. apply andb_true_iff in H. destruct H as [Hm Hms].
  cbn [fold_left]. rewrite applyMark_other by now apply negb_true_iff.
  now apply IH.
Qed.

(** The theorem at a text in code style with a link. *)
Lemma other_marks_are_dropped_witness :
  forallb (fun m => negb (arrayIncludes ["bold"; "italic"; "underline"; "strike"]
                            (mark_type m))) [mkMark "code"; mkMark "link"] = true
  /\ convertNodeToHtml (textNode "x = 1" ["code"; "link"]) = "x = 1".
Proof.
  split; [reflexivity|].
  exact (other_marks_are_dropped None (Some "x = 1") [mkMark "code"; mkMark "link"] None
           eq_refl).
Defined.

End RendererMore.

(** ** Content in its stored form *)

Section StoredContent.

Import PdfExport Firebase PageCard.

(** X4: content given to [tiptapToHtml] as the JSON text of a tree renders
    as the tree itself does, and nothing is written to the console. *)
Theorem serialized_tree_renders_as_tree :
  forall (T : TiptapNode) (w : World),
    runState (tiptapToHtml Browser.JSON_parse (AString (Browser.JSON_stringify (ANode T)))) w
    = (convertNodeToHtml T, w).
Proof.
  intros T w. unfold tiptapToHtml. rewrite JSON_parse_stringify.
  cbn [truthy negb]. unfold convertAnyToHtml. cbn [truthy negb asNode].
  destruct (isDocOrHasContent (ANode T)); reflexivity.
Qed.

(** X5: what [getPage] returns as the content, for every stored field and
    whatever [JSON.parse] does.  A stored string that parses gives the
    parsed value, a stored string that is no JSON is returned as it is, and
    any other stored value is returned as it is; exactly when the value so
    obtained is falsy (absent, [null], [false], 0, the empty string), the
    empty document takes its place.  The content is therefore never
    falsy. *)
Theorem loaded_content_cases :
  forall (JSON_parse : string -> option Browser.Json) (stored : Any.Value),
    let emptyDocument :=
      Browser.JObject [("type", Browser.JString "doc"); ("content", Browser.JArray [])] in
    let content := Any.getPageContent JSON_parse stored in
    Any.truthy (Some content) = true
    /\ match stored with
       | Some (Browser.JString s) =>
           match JSON_parse s with
           | Some v => content = if Any.truthy (Some v) then v else emptyDocument
           | None => content = if s =? EmptyString then emptyDocument else Browser.JString s
           end
       | Some v => content = if Any.truthy (Some v) then v else emptyDocument
       | None => content = emptyDocument
       end.
Proof.
  intros JSON_parse stored. cbv zeta. fold Any.emptyDoc.
  assert (Hor : forall v,
             Any.truthy (Some (if Any.truthy (Some v) then v else Any.emptyDoc)) = true).
  { intros v. destruct (Any.truthy (Some v)) eqn:E; [exact E | reflexivity]. }
  unfold Any.getPageContent.
  destruct stored as [j|]; [|now split].
  destruct j as [|b|n|s|items|members]; try (split; [apply Hor | reflexivity]).
  destruct (JSON_parse s) as [v|]; [split; [apply Hor | reflexivity]|].
  split; [apply Hor|]. cbn [Any.truthy]. now destruct (s =? EmptyString).
Qed.

(** The four cases with the reference parser: a stored tree, text that is
    no JSON, the JSON text of [null], and no field. *)
Example loaded_content_examples :
  Any.getPageContent Any.JSON_parse
    (Some (Browser.JString (Any.JSON_stringify (Browser.JObject [("type", Browser.JString "doc")]))))
  = Browser.JObject [("type", Browser.JString "doc")]
  /\ Any.getPageContent Any.JSON_parse (Some (Browser.JString "plain text"))
     = Browser.JString "plain text"
  /\ Any.getPageContent Any.JSON_parse (Some (Browser.JString "null"))
     = Browser.JObject [("type", Browser.JString "doc"); ("content", Browser.JArray [])]
  /\ Any.getPageContent Any.JSON_parse None
     = Browser.JObject [("type", Browser.JString "doc"); ("content", Browser.JArray [])].
Proof. vm_compute. repeat split. Qed.

(** X6: [updatePage] does not encode twice: content that is already in
    stored form is written as it is. *)
Theorem stored_form_is_stable :
  forall (JSON_stringify : AnyValue -> string) (content : AnyValue),
    updatePageContent JSON_stringify (updatePageContent JSON_stringify content)
    = updatePageContent JSON_stringify content.
Proof.
  intros JSON_stringify content. unfold updatePageContent.
  destruct (truthy content && isObject content) eqn:E.
  - cbn [isObject]. now rewrite andb_false_r.
  - now rewrite E.
Qed.

Lemma substring_all (s : string) (n : nat) :
  String.length s <= n -> String.substring 0 n s = s.
Proof.
  revert n. induction s as [|c s IH]; intros [|n] H; simpl in *; try reflexivity; try lia.
  rewrite IH by lia. reflexivity.
Qed.

Lemma substring_length (s : string) (n : nat) :
  n <= String.length s -> String.length (String.substring 0 n s) = n.
Proof.
  revert n. induction s as [|c s IH]; intros [|n] H; simpl in *; try reflexivity; try lia.
  rewrite IH by lia. reflexivity.
Qed.

(** X7: the preview of a page whose text has at most 150 characters is the
    whole text; a longer text is cut to its first 150 characters followed by
    three dots, 153 characters in all. *)
Theorem preview_is_text_or_cut :
  forall (ty : string) (l : list TiptapNode) (tx : option string)
         (ms : option (list Mark)) (a : option Attrs),
    let txt := extractText l in
    let preview := getPreviewText (Some (mkNode ty (Some l) tx ms a)) in
    if Nat.leb (String.length txt) 150 then preview = txt
    else preview = slice0 150 txt ++ "..." /\ String.length preview = 153.
Proof.
  intros ty l tx ms a. cbv zeta. unfold getPreviewText. cbn [Tiptap.content].
  destruct (Nat.leb_spec (String.length (extractText l)) 150) as [H|H].
  - assert (E : Nat.ltb 150 (String.length (extractText l)) = false)
      by (apply Nat.ltb_ge; lia).
    rewrite E. unfold slice0. rewrite substring_all by lia. apply append_nil_r.
  - assert (E : Nat.ltb 150 (String.length (extractText l)) = true)
      by (apply Nat.ltb_lt; lia).
    rewrite E. split; [reflexivity|].
    rewrite length_append. unfold slice0. rewrite substring_length by lia. reflexivity.
Qed.

End StoredContent.

(** ** Uploads *)

Section Uploads.

Import Firebase Examples.

Lemma sanitized_char (c : ascii) :
  let d := if isSafeChar c then c else "_"%char in
  (isSafeChar d || Ascii.eqb d "_"%char) = true
  /\ (if isSafeChar d then d else "_"%char) = d.
Proof.
  destruct c as [[] [] [] [] [] [] [] []]; split; reflexivity.
Qed.

(** X8: the name under which a file is stored has as many characters as
    the name of the file, holds only letters, digits, dots, hyphens and
    underscores, and sanitizing it again changes nothing. *)
Theorem sanitizeFileName_safe :
  forall name : string,
    String.length (sanitizeFileName name) = String.length name
    /\ allChars (fun c => isSafeChar c || Ascii.eqb c "_"%char) (sanitizeFileName name) = true
    /\ sanitizeFileName (sanitizeFileName name) = sanitizeFileName name.
Proof.
  induction name as [|c r (IH1 & IH2 & IH3)]; [repeat split|].
  cbn [sanitizeFileName String.length allChars].
  destruct (sanitized_char c) as [H1 H2]. cbv zeta in H1, H2.
  rewrite IH1, IH2, IH3, H1, H2. repeat split.
Qed.

Lemma imagePathFor_shape (timestamp : Z) (userId fileName : string) :
  startsWith (imagePathFor timestamp userId fileName) "users/" = true
  /\ includes (imagePathFor timestamp userId fileName) "/images/" = true.
Proof.
  unfold imagePathFor, startsWith. split.
  - apply prefix_iff. eexists. reflexivity.
  - apply includes_iff.
    exists ("users/" ++ userId),
           (numberToString timestamp ++ "-" ++ sanitizeFileName fileName).
    now rewrite !append_assoc.
Qed.

(** X9: the storage path that [uploadImage] gives to a file is a reference
    that [extractImagePaths] keeps as it is, unless the path contains the
    host name of the storage service: a document whose image has this path
    as [src] references exactly this path. *)
Theorem uploaded_path_is_tracked :
  forall (URL_pathname decodeURIComponent : string -> option string)
         (timestamp : Z) (userId fileName : string) (temp : option string),
    let path := imagePathFor timestamp userId fileName in
    includes path "firebasestorage.googleapis.com" = false ->
    extractImagePaths URL_pathname decodeURIComponent (Some (doc [image path temp]))
    = [path].
Proof.
  intros U D timestamp userId fileName temp path H.
  destruct (imagePathFor_shape timestamp userId fileName) as [H1 H2].
  unfold extractImagePaths. cbn [Tiptap.content doc flat_map].
  unfold traverse, image. cbn [app]. unfold ownPath.
  cbn [type String.eqb Ascii.eqb Bool.eqb attr attrs src].
  unfold imagePathOf. fold path in H1, H2. rewrite H, H1, H2. reflexivity.
Qed.

(** The theorem at a photo of the user u. *)
Lemma uploaded_path_is_tracked_witness :
  let path := imagePathFor 1700000000000 "u" "my photo.png" in
  includes path "firebasestorage.googleapis.com" = false
  /\ path = "users/u/images/1700000000000-my_photo.png"
  /\ extractImagePaths Browser.URL_pathname Browser.decodeURIComponent
       (Some (doc [image path None])) = [path].
Proof.
  split; [reflexivity|]. split; [reflexivity|].
  exact (uploaded_path_is_tracked Browser.URL_pathname Browser.decodeURIComponent
           1700000000000 "u" "my photo.png" None eq_refl).
Defined.

(** A file whose name contains the host name of the storage service gets a
    path that is taken for an address of the service, and is not tracked. *)
Example host_name_in_file_name :
  let path := imagePathFor 1 "u" "firebasestorage.googleapis.com.png" in
  extractImagePaths Browser.URL_pathname Browser.decodeURIComponent
    (Some (doc [image path None])) = [].
Proof. vm_compute. reflexivity. Qed.

End Uploads.

(** ** Search *)

Section Search.

Import Firebase Examples.

Lemma lowerChar_idempotent (c : ascii) : lowerChar (lowerChar c) = lowerChar c.
Proof.
  destruct c as [[] [] [] [] [] [] [] []]; reflexivity.
Qed.

Lemma toLowerCase_idempotent (s : string) : toLowerCase (toLowerCase s) = toLowerCase s.
Proof.
  induction s as [|c s IH]; [reflexivity|].
  cbn [toLowerCase]. now rewrite lowerChar_idempotent, IH.
Qed.

Lemma includes_trans (s t u : string) :
  includes s t = true -> includes t u = true -> includes s u = true.
Proof.
  rewrite !includes_iff. intros (a & b & ->) (a' & b' & ->).
  exists (a ++ a'), (b' ++ b). now rewrite !append_assoc.
Qed.

Lemma includes_empty (s : string) : includes s EmptyString = true.
Proof.
  apply includes_iff. now exists EmptyString, s.
Qed.

Lemma filter_all {A} (p : A -> bool) (l : list A) :
  (forall x, In x l -> p x = true) -> filter p l = l.
Proof.
  induction l as [|x l IH]; intros H; [reflexivity|].
  cbn [filter]. rewrite (H x) by now left.
  rewrite IH; [reflexivity|]. intros y Hy. apply H. now right.
Qed.

Lemma filter_twice {A} (p q : A -> bool) (l : list A) :
  (forall x, q x = true -> p x = true) -> filter q (filter p l) = filter q l.
Proof.
  intros H. induction l as [|x l IH]; [reflexivity|]. cbn [filter].
  destruct (p x) eqn:Ep; cbn [filter].
  - now rewrite IH.
  - destruct (q x) eqn:Eq; [|exact IH]. apply H in Eq. congruence.
Qed.

(** X10: refining a search can be done on the previous results: when the
    lower-case form of the new term contains the lower-case form of the old
    one, searching the pages found for the old term gives the same pages as
    searching all pages.  Nothing is used about lower-casing itself. *)
Theorem search_refines :
  forall (pages : list Shared.Page) (old new : string),
    includes (toLowerCase new) (toLowerCase old) = true ->
    searchPages (searchPages pages old) new = searchPages pages new.
Proof.
  intros pages old new H. unfold searchPages. apply filter_twice.
  intros page Hp. exact (includes_trans _ _ _ Hp H).
Qed.

(** The theorem at three pages, for the term med refined to Medit. *)
Lemma search_refines_witness :
  let pages := [pageTitled "Meditation notes"; pageTitled "Remedies"; pageTitled "Sutta"] in
  includes (toLowerCase "Medit") (toLowerCase "med") = true
  /\ searchPages pages "med" = [pageTitled "Meditation notes"; pageTitled "Remedies"]
  /\ searchPages (searchPages pages "med") "Medit" = searchPages pages "Medit".
Proof.
  split; [reflexivity|]. split; [reflexivity|].
  exact (search_refines
           [pageTitled "Meditation notes"; pageTitled "Remedies"; pageTitled "Sutta"]
           "med" "Medit" eq_refl).
Defined.

(** X11: the search does not tell upper case from lower case: a term and
    its lower-case form find the same pages, and so do two lists of pages
    whose titles differ only in case. *)
Theorem search_ignores_case :
  forall (pages : list Shared.Page) (term : string),
    searchPages pages (toLowerCase term) = searchPages pages term
    /\ map Shared.title
         (searchPages
            (map (fun p => Shared.mkPage (Shared.id p) (toLowerCase (Shared.title p))
                             (Shared.content p) (Shared.createdAt p) (Shared.updatedAt p)
                             (Shared.userId p)) pages) term)
       = map toLowerCase (map Shared.title (searchPages pages term)).
Proof.
  intros pages term. unfold searchPages. split.
  - now rewrite toLowerCase_idempotent.
  - induction pages as [|p pages IH]; [reflexivity|].
    cbn [map filter Shared.title]. rewrite toLowerCase_idempotent.
    destruct (includes (toLowerCase (Shared.title p)) (toLowerCase term));
      cbn [map Shared.title]; now rewrite IH.
Qed.

(** X12: the dashboard filters the pages it is given by the search term
    once more; on the pages that [searchPages] found for this term the second
    filter keeps every page, and with an empty term both return all pages. *)
Theorem dashboard_filter_keeps_search_results :
  forall (pages : list Shared.Page) (term : string),
    Dashboard.filteredPages (searchPages pages term) term = searchPages pages term
    /\ searchPages pages EmptyString = pages
    /\ Dashboard.filteredPages pages EmptyString = pages.
Proof.
  intros pages term. split; [|split].
  - unfold Dashboard.filteredPages. destruct (negb (term =? EmptyString)); [|reflexivity].
    unfold searchPages. apply filter_all. intros page Hp.
    apply filter_In in Hp. exact (proj2 Hp).
  - unfold searchPages. apply filter_all. intros page _. apply includes_empty.
  - reflexivity.
Qed.

End Search.

(** ** More of the orphan sweep *)

Section SweepMore.

Import UseEditor Examples.

Variable URL_pathname : string -> option string.
Variable decodeURIComponent : string -> option string.
Variable deleteObject : string -> bool.

Local Abbreviation tick :=
  (trackImagesAndCleanup URL_pathname decodeURIComponent deleteObject).

Lemma loadedImages_unfold (node : TiptapNode) (acc : list string) :
  loadedImages node acc
  = fold_left (fun acc child => loadedImages child acc) (children node)
      (match loadedSrc node with
       | Some s => setAdd acc s
       | None => acc
       end).
Proof.
  unfold loadedSrc, trackedSrc, isPending.
  destruct node as [ty [l|] tx ms a]; cbn [loadedImages children content type];
    set (node := mkNode ty _ tx ms a);
    destruct (ty =? "image"), (truthyStr (attr src node)),
      (truthyStr (attr data_temp node)); cbn [andb negb]; try reflexivity;
    destruct (isFirebaseUrl _); reflexivity.
Qed.

Lemma loadedSrc_tracked (node : TiptapNode) (y : string) :
  loadedSrc node = Some y -> trackedSrc node = Some y.
Proof.
  unfold loadedSrc. destruct (isPending node); [discriminate | auto].
Qed.

(** The baseline taken on load is within the current set of the same
    content. *)
Lemma loadedImages_within (node : TiptapNode) :
  forall (acc acc' : list string),
    (forall y, In y acc -> In y acc') ->
    forall y, In y (loadedImages node acc) -> In y (extractImages node acc').
Proof.
  induction node as [node IH] using tree_ind. intros acc acc' Hacc y.
  rewrite loadedImages_unfold, extractImages_unfold.
  set (a0 := match loadedSrc node with Some s => setAdd acc s | None => acc end).
  set (a0' := match trackedSrc node with Some s => setAdd acc' s | None => acc' end).
  assert (H0 : forall z, In z a0 -> In z a0').
  { subst a0 a0'. intros z. destruct (loadedSrc node) as [s|] eqn:E.
    - rewrite (loadedSrc_tracked _ _ E), !setAdd_In. intros [H|H]; auto.
    - intros H. apply Hacc in H. destruct (trackedSrc node); [apply setAdd_In|]; auto. }
  clearbody a0 a0'. clear Hacc. revert a0 a0' H0.
  induction IH as [|c l Hc _ IHl]; intros a0 a0' H0; cbn [fold_left]; [apply H0|].
  apply IHl. intros z. apply Hc, H0.
Qed.

Lemma no_orphans (baseline current : list string) :
  (forall y, In y baseline -> In y current) ->
  filter (fun url => negb (setHas current url)) baseline = [].
Proof.
  intros H. induction baseline as [|x l IH]; [reflexivity|]. cbn [filter].
  assert (E : setHas current x = true) by (apply setHas_In, H; now left).
  rewrite E. cbn [negb]. apply IH. intros y Hy. apply H. now right.
Qed.

(** X13: a page that is loaded and saved with the content it was loaded
    with loses no image: with the baseline that [loadPage] takes from a
    content, the sweep for the same content submits no delete request. *)
Theorem unchanged_page_deletes_nothing :
  forall (uid : option string) (content : TiptapNode) (requests messages : list string),
    truthyStr uid = true ->
    deleteRequests
      (execState (tick uid content) (mkWorld (loadedImages content []) requests messages))
    = requests.
Proof.
  intros uid content requests messages Huid.
  destruct (tick_run URL_pathname decodeURIComponent deleteObject uid content
              (mkWorld (loadedImages content []) requests messages) Huid) as [H _].
  cbv zeta in H. rewrite H. cbn [previousImages deleteRequests].
  rewrite no_orphans; [apply app_nil_r|].
  apply loadedImages_within. intros y [].
Qed.

(** X14: a second sweep for the same content does nothing more: it submits
    no delete request and leaves the baseline as the first sweep set it. *)
Theorem second_sweep_is_idle :
  forall (uid : option string) (content : TiptapNode) (w : World),
    truthyStr uid = true ->
    let w1 := execState (tick uid content) w in
    let w2 := execState (tick uid content) w1 in
    deleteRequests w2 = deleteRequests w1 /\ previousImages w2 = previousImages w1.
Proof.
  intros uid content w Huid. cbv zeta.
  destruct (tick_run URL_pathname decodeURIComponent deleteObject uid content w Huid)
    as [_ B1].
  destruct (tick_run URL_pathname decodeURIComponent deleteObject uid content
              (execState (tick uid content) w) Huid) as [A2 B2].
  cbv zeta in *. split; [|congruence].
  rewrite A2, B1, no_orphans; [apply app_nil_r|].
  intros y Hy. apply filter_In in Hy. exact (proj1 Hy).
Qed.

End SweepMore.

(** The theorem X13 at a document with a stored image and a placeholder. *)
Lemma unchanged_page_deletes_nothing_witness :
  let content :=
    Examples.doc [Examples.image (Examples.storageUrl "a.png") None;
                  Examples.image "blob:https://pages.firebaseapp.com/1f0c?token=2"
                    (Some "true")] in
  truthyStr (Some "u") = true
  /\ UseEditor.loadedImages content [] = [Examples.storageUrl "a.png"]
  /\ deleteRequests
       (execState
          (UseEditor.trackImagesAndCleanup Browser.URL_pathname Browser.decodeURIComponent
             (fun _ => true) (Some "u") content)
          (mkWorld (UseEditor.loadedImages content []) [] []))
     = [].
Proof.
  split; [reflexivity|]. split; [reflexivity|].
  exact (unchanged_page_deletes_nothing Browser.URL_pathname Browser.decodeURIComponent
           (fun _ => true) (Some "u")
           (Examples.doc [Examples.image (Examples.storageUrl "a.png") None;
                          Examples.image "blob:https://pages.firebaseapp.com/1f0c?token=2"
                            (Some "true")])
           [] [] eq_refl).
Defined.

(** The theorem X14 at the document that lost the image a.png. *)
Lemma second_sweep_is_idle_witness :
  let content := Examples.doc [Examples.image (Examples.storageUrl "b.png") None] in
  let w := mkWorld [Examples.storageUrl "a.png"; Examples.storageUrl "b.png"] [] [] in
  let w1 := execState
              (UseEditor.trackImagesAndCleanup Browser.URL_pathname
                 Browser.decodeURIComponent (fun _ => true) (Some "u") content) w in
  let w2 := execState
              (UseEditor.trackImagesAndCleanup Browser.URL_pathname
                 Browser.decodeURIComponent (fun _ => true) (Some "u") content) w1 in
  truthyStr (Some "u") = true
  /\ deleteRequests w1 = ["users/u/images/a.png"]
  /\ deleteRequests w2 = deleteRequests w1 /\ previousImages w2 = previousImages w1.
Proof.
  split; [reflexivity|]. split; [reflexivity|].
  exact (second_sweep_is_idle Browser.URL_pathname Browser.decodeURIComponent
           (fun _ => true) (Some "u")
           (Examples.doc [Examples.image (Examples.storageUrl "b.png") None])
           (mkWorld [Examples.storageUrl "a.png"; Examples.storageUrl "b.png"] [] [])
           eq_refl).
Defined.

(** ** The cleanup of the page editor hook *)

Section PageCleanup.

Import Firebase UsePages Examples.

Variable URL_pathname : string -> option string.
Variable decodeURIComponent : string -> option string.
Variable deleteObject : string -> bool.

Local Abbreviation currentPaths := (extractImagePaths URL_pathname decodeURIComponent).
Local Abbreviation cleanup :=
  (deletePageImages URL_pathname decodeURIComponent deleteObject).

Lemma fold_setAdd_fresh (l acc : list string) :
  NoDup (acc ++ l) -> fold_left setAdd l acc = (acc ++ l)%list.
Proof.
  revert acc. induction l as [|x l IH]; intros acc H; cbn [fold_left].
  - now rewrite app_nil_r.
  - assert (E : setAdd acc x = (acc ++ [x])%list).
    { unfold setAdd. destruct (setHas acc x) eqn:Hx; [|reflexivity].
      apply setHas_In in Hx. apply NoDup_remove_2 in H.
      exfalso. apply H, in_or_app. now left. }
    rewrite E, IH; rewrite <- app_assoc; [reflexivity | exact H].
Qed.

Lemma setFromArray_fixed (l : list string) : NoDup l -> setFromArray l = l.
Proof.
  intros H. unfold setFromArray. now rewrite fold_setAdd_fresh.
Qed.

Lemma extractImagePaths_NoDup (content : option TiptapNode) : NoDup (currentPaths content).
Proof.
  unfold extractImagePaths. destruct content as [c|]; [|constructor].
  destruct (Tiptap.content c); [apply setFromArray_NoDup | constructor].
Qed.

Lemma steps_deleteAll (l : list string) (w : World) :
  steps (deleteAll deleteObject l) w tt (filter nonEmpty l).
Proof.
  revert w. induction l as [|p l IH]; intros w; [apply steps_ret|].
  cbn [deleteAll filter].
  replace (if nonEmpty p then p :: filter nonEmpty l else filter nonEmpty l)
    with ((if p =? EmptyString then [] else [p]) ++ filter nonEmpty l)%list
    by (unfold nonEmpty; destruct (p =? EmptyString); reflexivity).
  apply (steps_bind _ _ w tt tt); [apply steps_deleteImage|].
  intros w' _ _. apply IH.
Qed.

Lemma cleanup_run (uid pageId : option string) (used : list string)
    (content : option TiptapNode) (w : World) :
  truthyStr uid = true -> truthyStr pageId = true ->
  let current := currentPaths content in
  let unused := filter (fun path => negb (setHas current path)) used in
  steps (cleanup uid pageId used content) w current (filter nonEmpty unused).
Proof.
  intros Hu Hp. cbv zeta. unfold deletePageImages. rewrite Hu, Hp. cbn [negb orb].
  rewrite (setFromArray_fixed _ (extractImagePaths_NoDup content)).
  rewrite <- (app_nil_r (filter nonEmpty _)).
  apply (steps_bind _ _ w tt); [apply steps_deleteAll|].
  intros w' _ _. apply steps_ret.
Qed.

(** X15: with a user and a page, the cleanup of the page editor submits a
    delete request for exactly the non-empty paths that were in use and are
    not image paths of the content, in their order; the paths in use become
    the image paths of the content, and no path of the content is among the
    requests that the cleanup adds. *)
Theorem cleanup_deletes_unused_paths :
  forall (uid pageId : option string) (used : list string) (content : option TiptapNode)
         (w : World),
    truthyStr uid = true -> truthyStr pageId = true ->
    let current := currentPaths content in
    let unused := filter (fun path => negb (setHas current path)) used in
    let (used', w') := runState (cleanup uid pageId used content) w in
    used' = current
    /\ deleteRequests w' = (deleteRequests w ++ filter nonEmpty unused)%list
    /\ (forall path, In path current -> ~ In path (filter nonEmpty unused)).
Proof.
  intros uid pageId used content w Hu Hp. cbv zeta.
  destruct (cleanup_run uid pageId used content w Hu Hp) as [msgs E]. cbv zeta in E.
  rewrite E. cbn [deleteRequests]. split; [reflexivity|]. split; [reflexivity|].
  intros path Hin Hreq. apply filter_In in Hreq. destruct Hreq as [Hreq _].
  apply filter_In in Hreq. destruct Hreq as [_ Hreq].
  apply negb_true_iff, setHas_not_In in Hreq. exact (Hreq Hin).
Qed.

(** X16: a cleanup that follows a cleanup for the same content, with the
    paths in use that the first one left, submits no delete request. *)
Theorem second_cleanup_is_idle :
  forall (uid pageId : option string) (used : list string) (content : option TiptapNode)
         (w : World),
    truthyStr uid = true -> truthyStr pageId = true ->
    let (used1, w1) := runState (cleanup uid pageId used content) w in
    let (used2, w2) := runState (cleanup uid pageId used1 content) w1 in
    used2 = used1 /\ deleteRequests w2 = deleteRequests w1.
Proof.
  intros uid pageId used content w Hu Hp.
  destruct (cleanup_run uid pageId used content w Hu Hp) as [m1 E1]. cbv zeta in E1.
  rewrite E1.
  destruct (cleanup_run uid pageId (currentPaths content) content
              (mkWorld (previousImages w)
                 (deleteRequests w
                  ++ filter nonEmpty
                       (filter (fun path => negb (setHas (currentPaths content) path)) used))
                 (console w ++ m1)) Hu Hp) as [m2 E2].
  cbv zeta in E2. rewrite E2. cbn [deleteRequests]. split; [reflexivity|].
  rewrite (no_orphans (currentPaths content) (currentPaths content)) by auto.
  apply app_nil_r.
Qed.

End PageCleanup.

(** The theorem X15 at a page that lost the image a.png and kept b.png. *)
Lemma cleanup_deletes_unused_paths_witness :
  let content := Some (Examples.doc [Examples.image (Examples.storageUrl "b.png") None]) in
  let used := ["users/u/images/a.png"; "users/u/images/b.png"] in
  let run :=
    runState (UsePages.deletePageImages Browser.URL_pathname Browser.decodeURIComponent
                (fun _ => true) (Some "u") (Some "p1") used content)
             (mkWorld [] [] []) in
  truthyStr (Some "u") = true /\ truthyStr (Some "p1") = true
  /\ run = (["users/u/images/b.png"], mkWorld [] ["users/u/images/a.png"] [])
  /\ let current :=
       Firebase.extractImagePaths Browser.URL_pathname Browser.decodeURIComponent content in
     let unused := filter (fun path => negb (setHas current path)) used in
     let (used', w') := run in
     used' = current
     /\ deleteRequests w' = ([] ++ filter Firebase.nonEmpty unused)%list
     /\ (forall path, In path current -> ~ In path (filter Firebase.nonEmpty unused)).
Proof.
  split; [reflexivity|]. split; [reflexivity|]. split; [reflexivity|].
  exact (cleanup_deletes_unused_paths Browser.URL_pathname Browser.decodeURIComponent
           (fun _ => true) (Some "u") (Some "p1")
           ["users/u/images/a.png"; "users/u/images/b.png"]
           (Some (Examples.doc [Examples.image (Examples.storageUrl "b.png") None]))
           (mkWorld [] [] []) eq_refl eq_refl).
Defined.

(** The theorem X16 at the same page. *)
Lemma second_cleanup_is_idle_witness :
  let content := Some (Examples.doc [Examples.image (Examples.storageUrl "b.png") None]) in
  let used := ["users/u/images/a.png"; "users/u/images/b.png"] in
  truthyStr (Some "u") = true /\ truthyStr (Some "p1") = true
  /\ let (used1, w1) :=
       runState (UsePages.deletePageImages Browser.URL_pathname Browser.decodeURIComponent
                   (fun _ => true) (Some "u") (Some "p1") used content)
                (mkWorld [] [] []) in
     let (used2, w2) :=
       runState (UsePages.deletePageImages Browser.URL_pathname Browser.decodeURIComponent
                   (fun _ => true) (Some "u") (Some "p1") used1 content) w1 in
     used2 = used1 /\ deleteRequests w2 = deleteRequests w1.
Proof.
  split; [reflexivity|]. split; [reflexivity|].
  exact (second_cleanup_is_idle Browser.URL_pathname Browser.decodeURIComponent
           (fun _ => true) (Some "u") (Some "p1")
           ["users/u/images/a.png"; "users/u/images/b.png"]
           (Some (Examples.doc [Examples.image (Examples.storageUrl "b.png") None]))
           (mkWorld [] [] []) eq_refl eq_refl).
Defined.

(** ** The two readings of a download address *)

Section Matchers.

Import Firebase UseEditor.

Lemma span_app (p : ascii -> bool) (a rest : string) :
  allChars p a = true ->
  match rest with String c _ => p c = false | EmptyString => True end ->
  span p (a ++ rest) = (a, rest).
Proof.
  intros Ha Hr. induction a as [|c a IH]; cbn [append].
  - destruct rest as [|c r]; [reflexivity|]. cbn [span]. now rewrite Hr.
  - cbn [allChars] in Ha. apply andb_true_iff in Ha. destruct Ha as [Hc Ha].
    cbn [span]. now rewrite Hc, IH.
Qed.

Lemma span_all (p : ascii -> bool) (a : string) :
  allChars p a = true -> span p a = (a, EmptyString).
Proof.
  intros H. rewrite <- (append_nil_r a) at 1. now apply span_app.
Qed.

Lemma prefix_app (p b : string) : String.prefix p (p ++ b) = true.
Proof.
  apply prefix_iff. now exists b.
Qed.

Lemma matchBucketObject_path (bucket object : string) :
  validBucket bucket = true -> validObject object = true ->
  matchBucketObject ("/v0/b/" ++ bucket ++ "/o/" ++ object) = Some object.
Proof.
  unfold validBucket, validObject. rewrite !andb_true_iff, !negb_true_iff.
  intros ((Hb & _) & Hbs) (Ho & Hos).
  assert (Hq : allChars (fun c => negb (Ascii.eqb c "?"%char)) object = true).
  { clear Ho. induction object as [|c r IH]; [reflexivity|]. cbn [allChars] in *.
    apply andb_true_iff in Hos. destruct Hos as [Hc Hr].
    apply andb_true_iff in Hc. destruct Hc as [Hc _]. now rewrite Hc, IH. }
  assert (E : matchBucketObjectHere ("/v0/b/" ++ bucket ++ "/o/" ++ object) = Some object).
  { unfold matchBucketObjectHere.
    rewrite (prefix_app "/v0/b/").
    change (drop 6 ("/v0/b/" ++ bucket ++ "/o/" ++ object)) with (bucket ++ "/o/" ++ object).
    rewrite span_app; [|exact Hbs | reflexivity].
    unfold nonEmpty. rewrite Hb. cbn [negb andb].
    rewrite (prefix_app "/o/"). change (drop 3 ("/o/" ++ object)) with object.
    rewrite span_all by exact Hq. now rewrite Ho. }
  destruct bucket as [|c b]; [discriminate Hb|].
  cbn [append matchBucketObject] in *. now rewrite E.
Qed.

Lemma lazy_whole (s : string) :
  allChars (fun c => negb (Ascii.eqb c "?"%char) && negb (isLineTerminator c)) s = true ->
  lazyUntilQuestionOrEnd s = Some s.
Proof.
  induction s as [|c s IH]; [reflexivity|]. cbn [allChars lazyUntilQuestionOrEnd].
  rewrite !andb_true_iff, !negb_true_iff. intros ((Hq & Hl) & Hs).
  now rewrite Hq, Hl, IH.
Qed.

Lemma matchObjectHere_path (object : string) :
  validObject object = true -> matchObjectHere ("/o/" ++ object) = Some object.
Proof.
  unfold validObject. rewrite andb_true_iff, negb_true_iff. intros (Ho & Hos).
  destruct object as [|c r]; [discriminate Ho|].
  cbn [allChars] in Hos. rewrite !andb_true_iff, !negb_true_iff in Hos.
  destruct Hos as ((_ & Hl) & Hr).
  unfold matchObjectHere. rewrite (prefix_app "/o/").
  cbn [append drop]. now rewrite Hl, lazy_whole.
Qed.

Lemma matchObjectHere_no_slash (c : ascii) (s : string) :
  Ascii.eqb c "/"%char = false -> matchObjectHere (String c s) = None.
Proof.
  intros H. unfold matchObjectHere. cbn [String.prefix].
  destruct (ascii_dec "/"%char c) as [<-|_]; [discriminate H | reflexivity].
Qed.

Lemma matchObject_step_none (c : ascii) (s : string) :
  matchObjectHere (String c s) = None -> matchObject (String c s) = matchObject s.
Proof.
  intros H. cbn [matchObject]. now rewrite H.
Qed.

Lemma matchObject_skip (a rest : string) :
  allChars (fun c => negb (Ascii.eqb c "/"%char)) a = true ->
  matchObject (a ++ rest) = matchObject rest.
Proof.
  induction a as [|c a IH]; [reflexivity|]. cbn [allChars append].
  rewrite andb_true_iff, negb_true_iff. intros (Hc & Ha).
  cbn [matchObject]. rewrite matchObjectHere_no_slash by exact Hc. now apply IH.
Qed.

Lemma matchObject_path (bucket object : string) :
  validBucket bucket = true -> validObject object = true ->
  matchObject ("/v0/b/" ++ bucket ++ "/o/" ++ object) = Some object.
Proof.
  intros Hb Ho. pose proof (matchObjectHere_path object Ho) as Hhere.
  unfold validBucket in Hb. rewrite !andb_true_iff, !negb_true_iff in Hb.
  destruct Hb as ((Hne & Hno) & Hbs).
  assert (Hend : matchObject ("/o/" ++ object) = Some object).
  { cbn [append matchObject] in *. now rewrite Hhere. }
  assert (Hfirst : matchObjectHere ("/" ++ bucket ++ "/o/" ++ object) = None).
  { destruct bucket as [|c b]; [discriminate Hne|].
    cbn [allChars] in Hbs. apply andb_true_iff in Hbs. destruct Hbs as [Hc Hbs].
    unfold matchObjectHere. cbn [append String.prefix].
    destruct (ascii_dec "/"%char "/"%char) as [_|N]; [|now contradiction N].
    destruct (ascii_dec "o"%char c) as [<-|_]; [|reflexivity].
    destruct b as [|c2 b]; [discriminate Hno|].
    cbn [allChars] in Hbs. apply andb_true_iff in Hbs. destruct Hbs as [Hc2 _].
    apply negb_true_iff in Hc2. cbn [append String.prefix].
    destruct (ascii_dec "/"%char c2) as [<-|_]; [discriminate Hc2 | reflexivity]. }
  change ("/v0/b/" ++ bucket ++ "/o/" ++ object)
    with (String "/" (String "v" (String "0" (String "/" (String "b"
            ("/" ++ bucket ++ "/o/" ++ object)))))).
  do 5 (rewrite matchObject_step_none by reflexivity).
  change ("/" ++ bucket ++ "/o/" ++ object)
    with (String "/" (bucket ++ "/o/" ++ object)) in *.
  rewrite matchObject_step_none by exact Hfirst.
  now rewrite (matchObject_skip bucket ("/o/" ++ object)) by exact Hbs.
Qed.

End Matchers.

(** X17: the persistence layer and the editor hook read the same object
    path from a download address of the storage service: for a URL of the
    storage host whose path is /v0/b/, a bucket, /o/ and an object name, both
    give the decoded object name. *)
Theorem download_address_readings_agree :
  forall (URL_pathname decodeURIComponent : string -> option string)
         (url bucket object : string),
    includes url "firebasestorage.googleapis.com" = true ->
    URL_pathname url = Some ("/v0/b/" ++ bucket ++ "/o/" ++ object) ->
    validBucket bucket = true -> validObject object = true ->
    Firebase.imagePathOf URL_pathname decodeURIComponent url = decodeURIComponent object
    /\ storagePathOf URL_pathname decodeURIComponent url = decodeURIComponent object.
Proof.
  intros U D url bucket object Hhost Hpath Hb Ho.
  unfold Firebase.imagePathOf, Firebase.firebaseObjectPath, storagePathOf,
    UseEditor.isFirebaseUrl.
  rewrite Hhost, Hpath. cbn [orb].
  now rewrite matchBucketObject_path, matchObject_path.
Qed.

(** The theorem X17 at the download address of the image a.png. *)
Lemma download_address_readings_agree_witness :
  let url := Examples.storageUrl "a.png" in
  let object := "users%2Fu%2Fimages%2Fa.png" in
  includes url "firebasestorage.googleapis.com" = true
  /\ Browser.URL_pathname url = Some ("/v0/b/" ++ "bk" ++ "/o/" ++ object)
  /\ validBucket "bk" = true /\ validObject object = true
  /\ Browser.decodeURIComponent object = Some "users/u/images/a.png"
  /\ Firebase.imagePathOf Browser.URL_pathname Browser.decodeURIComponent url
     = Browser.decodeURIComponent object
  /\ storagePathOf Browser.URL_pathname Browser.decodeURIComponent url
     = Browser.decodeURIComponent object.
Proof.
  do 5 (split; [reflexivity|]).
  exact (download_address_readings_agree Browser.URL_pathname Browser.decodeURIComponent
           (Examples.storageUrl "a.png") "bk" "users%2Fu%2Fimages%2Fa.png"
           eq_refl eq_refl eq_refl eq_refl).
Defined.

(** The bucket must not be the single letter o: the editor hook then reads
    the object name from the first of the two /o/. *)
Example bucket_named_o :
  Firebase.matchBucketObject "/v0/b/o/o/a.png" = Some "a.png"
  /\ UseEditor.matchObject "/v0/b/o/o/a.png" = Some "o/a.png".
Proof.
  split; reflexivity.
Qed.

(** ** The text in the exported HTML *)

Section ShownTexts.

Import PdfExport Examples.

Lemma includes_refl (s : string) : includes s s = true.
Proof.
  apply includes_iff. exists EmptyString, EmptyString. now rewrite append_nil_r.
Qed.

Lemma includes_inside (a s b t : string) :
  includes s t = true -> includes (a ++ s ++ b) t = true.
Proof.
  intros H. apply (includes_trans _ s); [|exact H].
  apply includes_iff. now exists a, b.
Qed.

Lemma includes_left (s b t : string) :
  includes s t = true -> includes (s ++ b) t = true.
Proof.
  apply (includes_inside EmptyString s b t).
Qed.

Lemma includes_right (a s t : string) :
  includes s t = true -> includes (a ++ s) t = true.
Proof.
  intros H. rewrite <- (append_nil_r s). now apply includes_inside.
Qed.

Lemma applyMark_includes (s : string) (m : Mark) : includes (applyMark s m) s = true.
Proof.
  unfold applyMark.
  destruct (mark_type m =? "bold"); [now apply includes_inside, includes_refl|].
  destruct (mark_type m =? "italic"); [now apply includes_inside, includes_refl|].
  destruct (mark_type m =? "underline"); [now apply includes_inside, includes_refl|].
  destruct (mark_type m =? "strike"); [now apply includes_inside, includes_refl|].
  apply includes_refl.
Qed.

Lemma marks_include (ms : list Mark) (s t : string) :
  includes s t = true -> includes (fold_left applyMark ms s) t = true.
Proof.
  revert s. induction ms as [|m ms IH]; intros s H; [exact H|].
  cbn [fold_left]. apply IH. exact (includes_trans _ _ _ (applyMark_includes s m) H).
Qed.

Lemma renderChildren_includes (l : list TiptapNode) (t : string) :
  Forall (fun child => In t (shownTexts child) ->
                       includes (convertNodeToHtml child) t = true) l ->
  In t (flat_map shownTexts l) ->
  includes (join EmptyString (map convertNodeToHtml l)) t = true.
Proof.
  induction 1 as [|c l Hc _ IH]; cbn [flat_map map]; [intros []|].
  rewrite in_app_iff, join_empty_cons. intros [H|H].
  - now apply includes_left, Hc.
  - now apply includes_right, IH.
Qed.

Lemma wrapElement_includes (node : TiptapNode) (tag : string) (attrs : list string)
    (inner t : string) :
  includes inner t = true -> includes (wrapElement node tag attrs inner) t = true.
Proof.
  intros H. unfold wrapElement.
  set (pre := taskCheckbox node ++ openTag tag (attrs ++ alignAttr node)).
  destruct (arrayIncludes blockTags tag); rewrite ?append_assoc;
    now apply includes_inside.
Qed.

Lemma shownTexts_included (t : string) (node : TiptapNode) :
  In t (shownTexts node) -> includes (convertNodeToHtml node) t = true.
Proof.
  induction node as [node IH] using tree_ind.
  rewrite convertNodeToHtml_unfold.
  destruct node as [ty c tx ms a]. cbn [shownTexts type text content] in *.
  destruct (ty =? "text") eqn:Et.
  - intros [<-|[]]. unfold renderText. cbn [text marks].
    destruct ms as [ms|]; [apply marks_include|]; apply includes_refl.
  - unfold switchOnType. cbn [type].
    assert (Hc : In t (match c with Some l => flat_map shownTexts l | None => [] end) ->
                 includes (renderChildren c) t = true).
    { destruct c as [l|]; [|intros []]. apply renderChildren_includes. exact IH. }
    intros H.
    destruct (ty =? "horizontalRule"); [destruct H|].
    destruct (ty =? "hardBreak"); [destruct H|].
    cbn [orb] in H. specialize (Hc H).
    repeat match goal with
           | |- context [if ?b then _ else _] => destruct b
           end; try exact Hc; now apply wrapElement_includes.
Qed.

(** X18: the exported HTML holds every text that the renderer reaches as it
    is in the document: the text of each text node that is not below a text
    node, a horizontal rule or a hard break is a substring of the rendering,
    with no character escaped. *)
Theorem text_reaches_html_verbatim :
  forall (node : TiptapNode) (t : string),
    In t (shownTexts node) -> includes (convertNodeToHtml node) t = true.
Proof.
  intros node t. apply shownTexts_included.
Qed.

(** The theorem X18 at a paragraph whose text is markup. *)
Lemma text_reaches_html_verbatim_witness :
  let node := paragraph [textNode "<img src=x onerror=alert(1)>" ["bold"]] in
  In "<img src=x onerror=alert(1)>" (shownTexts node)
  /\ includes (convertNodeToHtml node) "<img src=x onerror=alert(1)>" = true.
Proof.
  split; [now left|].
  exact (text_reaches_html_verbatim
           (paragraph [textNode "<img src=x onerror=alert(1)>" ["bold"]])
           "<img src=x onerror=alert(1)>" (or_introl eq_refl)).
Defined.

End ShownTexts.

(** ** The cleanup of the earlier editor hook *)

Section DraftCleanup.

Import Firebase EditorDraft Examples.

Variable URL_pathname : string -> option string.
Variable decodeURIComponent : string -> option string.
Variable deleteObject : string -> bool.

Local Abbreviation pathsOf := (extractImagePaths URL_pathname decodeURIComponent).
Local Abbreviation requestOf := (draftRequest URL_pathname decodeURIComponent).
Local Abbreviation draftCleanup :=
  (deleteUnusedImages URL_pathname decodeURIComponent deleteObject).

Lemma steps_logged (msg p : string) (w : World) :
  steps (consoleWrite msg ;; Firebase.deleteImage deleteObject p) w tt
        (if p =? EmptyString then [] else [p]).
Proof.
  change (if p =? EmptyString then [] else [p])
    with ([] ++ (if p =? EmptyString then [] else [p]))%list.
  apply (steps_bind _ _ w tt tt); [apply steps_consoleWrite|].
  intros w' _ _. apply steps_deleteImage.
Qed.

Lemma steps_deleteOne (path : string) (w : World) :
  steps (deleteOne URL_pathname decodeURIComponent deleteObject path) w tt (requestOf path).
Proof.
  unfold deleteOne, draftRequest.
  destruct (startsWith path "http"); [|apply steps_logged].
  destruct (URL_pathname path) as [pathname|]; [|apply steps_consoleWrite].
  destruct (UseEditor.matchObject pathname) as [g|]; [|apply steps_logged].
  destruct (decodeURIComponent g) as [p|]; [apply steps_logged | apply steps_consoleWrite].
Qed.

Lemma steps_deleteEach (l : list string) (w : World) :
  steps (deleteEach URL_pathname decodeURIComponent deleteObject l) w tt
        (flat_map requestOf l).
Proof.
  revert w. induction l as [|p l IH]; intros w; [apply steps_ret|].
  cbn [deleteEach flat_map].
  apply (steps_bind _ _ w tt tt); [apply steps_deleteOne|].
  intros w' _ _. apply IH.
Qed.

Lemma draftCleanup_run (oldContent newContent : option TiptapNode) (w : World) :
  deleteRequests (execState (draftCleanup oldContent newContent) w)
  = (deleteRequests w
     ++ match oldContent with
        | Some _ =>
            flat_map requestOf (imagesToDelete (pathsOf oldContent) (pathsOf newContent))
        | None => []
        end)%list.
Proof.
  assert (H : steps (draftCleanup oldContent newContent) w tt
                (match oldContent with
                 | Some _ =>
                     flat_map requestOf
                       (imagesToDelete (pathsOf oldContent) (pathsOf newContent))
                 | None => []
                 end)).
  { unfold deleteUnusedImages. destruct oldContent as [c|]; [|apply steps_ret].
    set (l := imagesToDelete _ _).
    change (flat_map requestOf l) with ([] ++ [] ++ [] ++ flat_map requestOf l)%list.
    apply (steps_bind _ _ w tt tt); [apply steps_consoleWrite|]. intros w1 _ _.
    apply (steps_bind _ _ w1 tt tt); [apply steps_consoleWrite|]. intros w2 _ _.
    apply (steps_bind _ _ w2 tt tt); [apply steps_consoleWrite|]. intros w3 _ _.
    apply steps_deleteEach. }
  destruct H as [msgs E]. unfold execState. now rewrite E.
Qed.

Lemma imagesToDelete_none (oldPaths newPaths : list string) :
  (forall p, In p oldPaths -> In p newPaths) -> imagesToDelete oldPaths newPaths = [].
Proof.
  intros H. unfold imagesToDelete.
  induction oldPaths as [|p l IH]; [reflexivity|]. cbn [filter].
  assert (E : existsb (fun newPath => normalizedPath newPath =? normalizedPath p) newPaths
              = true).
  { apply existsb_exists. exists p. split; [apply H; now left | apply String.eqb_refl]. }
  rewrite E. cbn [negb]. apply IH. intros q Hq. apply H. now right.
Qed.

(** X19: the cleanup of the earlier hook submits no delete request when
    every image path of the old content is an image path of the new
    content. *)
Theorem draft_cleanup_keeps_shared_paths :
  forall (oldContent newContent : option TiptapNode) (w : World),
    (forall p, In p (pathsOf oldContent) -> In p (pathsOf newContent)) ->
    deleteRequests (execState (draftCleanup oldContent newContent) w) = deleteRequests w.
Proof.
  intros oldContent newContent w H. rewrite draftCleanup_run.
  destruct oldContent as [c|]; [|apply app_nil_r].
  rewrite imagesToDelete_none by exact H. apply app_nil_r.
Qed.



End DraftCleanup.

(** The theorem X19 at a page that keeps its image and gains one. *)
Lemma draft_cleanup_keeps_shared_paths_witness :
  let old := Some (Examples.doc [Examples.image (Examples.storageUrl "a.png") None]) in
  let new := Some (Examples.doc [Examples.image (Examples.storageUrl "b.png") None;
                                 Examples.image (Examples.storageUrl "a.png") None]) in
  (forall p,
      In p (Firebase.extractImagePaths Browser.URL_pathname Browser.decodeURIComponent old) ->
      In p (Firebase.extractImagePaths Browser.URL_pathname Browser.decodeURIComponent new))
  /\ deleteRequests
       (execState
          (EditorDraft.deleteUnusedImages Browser.URL_pathname Browser.decodeURIComponent
             (fun _ => true) old new) (mkWorld [] [] []))
     = [].
Proof.
  assert (H : forall p,
             In p (Firebase.extractImagePaths Browser.URL_pathname Browser.decodeURIComponent
                     (Some (Examples.doc
                              [Examples.image (Examples.storageUrl "a.png") None]))) ->
             In p (Firebase.extractImagePaths Browser.URL_pathname Browser.decodeURIComponent
                     (Some (Examples.doc
                              [Examples.image (Examples.storageUrl "b.png") None;
                               Examples.image (Examples.storageUrl "a.png") None])))).
  { intros p [<-|[]]. right. now left. }
  split; [exact H|].
  exact (draft_cleanup_keeps_shared_paths Browser.URL_pathname Browser.decodeURIComponent
           (fun _ => true) _ _ (mkWorld [] [] []) H).
Defined.


(** When the new content holds the same picture under another query, the
    normalised forms agree and nothing is submitted. *)
Example same_picture_other_query :
  let old := Some (Examples.doc [Examples.image "https://example.com/cat.png?v=1" None]) in
  let new := Some (Examples.doc [Examples.image "https://example.com/cat.png?v=2" None]) in
  EditorDraft.normalizedPath "https://example.com/cat.png?v=1"
  = EditorDraft.normalizedPath "https://example.com/cat.png?v=2"
  /\ deleteRequests
       (execState
          (EditorDraft.deleteUnusedImages Browser.URL_pathname Browser.decodeURIComponent
             (fun _ => true) old new) (mkWorld [] [] []))
     = [].
Proof. split; reflexivity. Qed.

(** ** The debounce *)

Section DebounceFacts.

Import Debounce.

Variable A : Type.

Lemma run_snoc (delay : nat) (events : list (Event A)) (e : Event A) (s : Loop A) :
  run delay (events ++ [e]) s = step delay (run delay events s) e.
Proof.
  unfold run. now rewrite fold_left_app.
Qed.

Lemma run_app (delay : nat) (l1 l2 : list (Event A)) (s : Loop A) :
  run delay (l1 ++ l2) s = run delay l2 (run delay l1 s).
Proof.
  unfold run. now rewrite fold_left_app.
Qed.

Lemma clockAfter_snoc (events : list (Event A)) (e : Event A) :
  clockAfter (events ++ [e])
  = match e with
    | Invoke args => (fst (clockAfter events), Some (fst (clockAfter events), args))
    | Elapse ms => (fst (clockAfter events) + ms, snd (clockAfter events))
    | Fire _ => clockAfter events
    end.
Proof.
  unfold clockAfter. now rewrite fold_left_app.
Qed.

(** At most one timer is pending: that of the latest call, which
    [timeoutId] names. *)
Lemma debounce_invariant (delay : nat) (events : list (Event A)) :
  let s := run delay events start in
  now s = fst (clockAfter events)
  /\ 1 <= nextId s
  /\ (pending s = []
      \/ exists id t0 args,
           pending s = [mkTimer id (t0 + delay) args]
           /\ timeoutId s = Some id /\ id <> 0
           /\ latestCall events = Some (t0, args)).
Proof.
  cbv zeta. induction events as [|e events IH] using rev_ind.
  - cbn. split; [reflexivity|]. split; [lia | now left].
  - rewrite run_snoc. unfold latestCall in *. rewrite clockAfter_snoc.
    destruct IH as (Hnow & Hid & Hp). set (s := run delay events start) in *.
    destruct e as [args|ms|id']; cbn [step fst snd].
    + assert (E : debounced delay args s
                  = mkLoop (now s) (S (nextId s))
                      [mkTimer (nextId s) (now s + delay) args] (Some (nextId s)) (calls s)).
      { unfold debounced. destruct Hp as [Hp|(id & t0 & a & Hp & Ht & Hne & _)].
        - destruct (timeoutId s) as [id|]; [destruct (Nat.eqb id 0)|];
            unfold setTimeout, clearTimeout; cbn; rewrite Hp; reflexivity.
        - rewrite Ht. apply Nat.eqb_neq in Hne. rewrite Hne.
          unfold setTimeout, clearTimeout. cbn. rewrite Hp. cbn.
          now rewrite Nat.eqb_refl. }
      rewrite E. cbn. split; [exact Hnow|]. split; [lia|]. right.
      exists (nextId s), (now s), args. rewrite <- Hnow.
      repeat split. lia.
    + cbn. split; [now rewrite Hnow|]. split; [exact Hid | exact Hp].
    + unfold fire. destruct Hp as [Hp|(id & t0 & a & Hp & Ht & Hne & Hl)].
      * rewrite Hp. cbn. split; [exact Hnow|]. split; [exact Hid|]. left. exact Hp.
      * rewrite Hp. cbn [find timer_id].
        destruct (Nat.eqb id id') eqn:Eid.
        -- destruct (Nat.leb (due (mkTimer id (t0 + delay) a)) (now s)).
           ++ cbn. rewrite Eid. cbn. split; [exact Hnow|]. split; [exact Hid | now left].
           ++ split; [exact Hnow|]. split; [exact Hid|]. right. now exists id, t0, a.
        -- split; [exact Hnow|]. split; [exact Hid|]. right. now exists id, t0, a.
Qed.

Lemma quiet_idle (delay : nat) (more : list (Event A)) (s : Loop A) :
  pending s = [] -> quiet more = true ->
  pending (run delay more s) = [] /\ calls (run delay more s) = calls s.
Proof.
  revert s. induction more as [|e more IH]; intros s Hp Hq; [now split|].
  cbn [quiet forallb] in Hq. apply andb_true_iff in Hq. destruct Hq as [He Hq].
  change (run delay (e :: more) s) with (run delay more (step delay s e)).
  destruct e as [args|ms|id]; [discriminate He| |].
  - destruct (IH (step delay s (Elapse ms)) Hp Hq) as [H1 H2]. now split.
  - assert (E : step delay s (Fire id) = s).
    { cbn [step]. unfold fire. now rewrite Hp. }
    rewrite E. now apply IH.
Qed.

Lemma fire_outcome (delay : nat) (events : list (Event A)) (id : nat) :
  let s := run delay events start in
  let s' := fire id s in
  s' = s
  \/ exists t0 args,
       latestCall events = Some (t0, args)
       /\ t0 + delay <= now s
       /\ calls s' = (calls s ++ [(now s, args)])%list
       /\ pending s' = [].
Proof.
  cbv zeta. destruct (debounce_invariant delay events) as (_ & _ & Hp).
  set (s := run delay events start) in *. unfold fire.
  destruct Hp as [Hp|(id0 & t0 & a & Hp & _ & _ & Hl)]; [rewrite Hp; now left|].
  rewrite Hp. cbn [find timer_id]. destruct (Nat.eqb id0 id) eqn:Eid; [|now left].
  cbn [due]. destruct (Nat.leb (t0 + delay) (now s)) eqn:Edue; [|now left].
  right. exists t0, a. apply Nat.leb_le in Edue. cbn. rewrite Eid. cbn.
  repeat split; assumption.
Qed.

(** X21: whenever the platform runs a timer of the debounced function, [fn]
    is called with the arguments of the latest call of the debounced
    function, not before [delay] has passed since that call, and it is not
    called again until the debounced function is called again. *)
Theorem debounce_runs_latest_call_once :
  forall (delay : nat) (events : list (Event A)) (id : nat),
    let s := run delay events start in
    let s' := fire id s in
    calls s' = calls s
    \/ exists t0 args,
         latestCall events = Some (t0, args)
         /\ t0 + delay <= now s
         /\ calls s' = (calls s ++ [(now s, args)])%list
         /\ forall more, quiet more = true -> calls (run delay more s') = calls s'.
Proof.
  intros delay events id. cbv zeta.
  destruct (fire_outcome delay events id) as [E|(t0 & a & Hl & Hd & Hc & Hp)];
    cbv zeta in *; [left; now rewrite E|].
  right. exists t0, a. repeat split; try assumption.
  intros more Hq. now apply quiet_idle.
Qed.

(** X22: a call of the debounced function replaces the call that is
    waiting: after a call with [args] and a wait of at least [delay] in
    which the debounced function is not called, the timer that [timeoutId]
    names calls [fn] once, with [args], and nothing that was waiting before
    is called. *)
Theorem debounce_latest_call_wins :
  forall (delay ms : nat) (events : list (Event A)) (args : A),
    delay <= ms ->
    let before := run delay events start in
    let s := run delay [Invoke args; Elapse ms] before in
    exists id,
      timeoutId s = Some id
      /\ calls s = calls before
      /\ calls (fire id s) = (calls before ++ [(now s, args)])%list
      /\ forall more, quiet more = true ->
                      calls (run delay more (fire id s)) = calls (fire id s).
Proof.
  intros delay ms events args Hms. cbv zeta.
  rewrite <- run_app.
  destruct (debounce_invariant delay (events ++ [Invoke args])) as (Hnow & _ & Hp).
  cbv zeta in *. rewrite run_snoc in *. unfold latestCall in Hp.
  rewrite clockAfter_snoc in Hp, Hnow. cbn [fst snd] in *.
  set (before := run delay events start) in *.
  change (run delay (events ++ [Invoke args; Elapse ms]) start)
    with (run delay (events ++ [Invoke args] ++ [Elapse ms]) start).
  rewrite app_assoc, run_snoc, run_snoc. fold before.
  assert (Hcalls : calls (step delay before (Invoke args)) = calls before).
  { cbn [step]. unfold debounced.
    destruct (timeoutId before) as [i|]; [destruct (Nat.eqb i 0)|]; reflexivity. }
  set (s1 := step delay before (Invoke args)) in *.
  assert (Hpend : pending s1 <> []).
  { subst s1. cbn [step]. unfold debounced.
    destruct (timeoutId before) as [i|]; [destruct (Nat.eqb i 0)|]; cbn;
      intros H; apply app_eq_nil in H; destruct H as [_ H]; discriminate H. }
  destruct Hp as [Hp|(id & t0 & a & Hp & Ht & _ & Hl)]; [contradiction|].
  injection Hl as <- <-.
  exists id. cbn [step timeoutId calls now].
  split; [exact Ht|]. split; [exact Hcalls|].
  assert (Hfire : fire id (mkLoop (now s1 + ms) (nextId s1) (pending s1) (timeoutId s1)
                             (calls s1))
                  = mkLoop (now s1 + ms) (nextId s1) [] (timeoutId s1)
                      (calls s1 ++ [(now s1 + ms, args)])).
  { unfold fire. cbn [pending now nextId timeoutId calls]. rewrite Hp.
    cbn [find timer_id]. rewrite Nat.eqb_refl. cbn [due].
    assert (E : Nat.leb (fst (clockAfter events) + delay) (now s1 + ms) = true)
      by (apply Nat.leb_le; lia).
    rewrite E. cbn. now rewrite Nat.eqb_refl. }
  rewrite Hfire. cbn [calls]. split; [now rewrite Hcalls|].
  intros more Hq. now apply quiet_idle.
Qed.

End DebounceFacts.

(** The theorem X22 at two calls 300 ms apart, with a delay of 1000 ms: the
    first call is dropped. *)
Lemma debounce_latest_call_wins_witness :
  let before := Debounce.run 1000 [Debounce.Invoke "first"; Debounce.Elapse 300]
                  Debounce.start in
  let s := Debounce.run 1000 [Debounce.Invoke "second"; Debounce.Elapse 1000] before in
  1000 <= 1000
  /\ Debounce.calls (Debounce.fire 1 s) = []
  /\ Debounce.calls (Debounce.fire 2 s) = [(1300, "second")]
  /\ exists id,
       Debounce.timeoutId s = Some id
       /\ Debounce.calls s = Debounce.calls before
       /\ Debounce.calls (Debounce.fire id s)
          = (Debounce.calls before ++ [(Debounce.now s, "second")])%list
       /\ forall more, quiet more = true ->
                       Debounce.calls (Debounce.run 1000 more (Debounce.fire id s))
                       = Debounce.calls (Debounce.fire id s).
Proof.
  split; [lia|]. split; [reflexivity|]. split; [reflexivity|].
  exact (debounce_latest_call_wins string 1000 1000
           [Debounce.Invoke "first"; Debounce.Elapse 300] "second" (le_n 1000)).
Defined.

(** ** The renderer on the trees of the interface *)

Section TypedRenderer.

Import Browser.

#[local] Existing Instance Any.Monad_Result.

Lemma node_members (ty : string) (c : option (list TiptapNode)) (tx : option string)
    (ms : option (list Mark)) (a : option Attrs) :
  let members := Any.membersOf (jsonOfNode (mkNode ty c tx ms a)) in
  Any.lookup "type" members = Some (JString ty)
  /\ Any.lookup "text" members = option_map JString tx
  /\ Any.lookup "marks" members = option_map (fun l => JArray (map jsonOfMark l)) ms
  /\ Any.lookup "attrs" members = option_map jsonOfAttrs a
  /\ Any.lookup "content" members = option_map (fun l => JArray (map jsonOfNode l)) c.
Proof.
  destruct c, tx, ms, a; cbn; repeat split; reflexivity.
Qed.

Lemma attrs_members (a : option Attrs) :
  Any.optProp (option_map jsonOfAttrs a) "level"
  = option_map JNumber (match a with Some a' => level a' | None => None end)
  /\ Any.optProp (option_map jsonOfAttrs a) "textAlign"
     = option_map JString (match a with Some a' => textAlign a' | None => None end)
  /\ Any.optProp (option_map jsonOfAttrs a) "checked"
     = option_map JBool (match a with Some a' => checked a' | None => None end).
Proof.
  destruct a as [[[lv|] [al|] [ck|] [sr|] [dt|]]|]; cbn; repeat split; reflexivity.
Qed.

Lemma any_applyMark (s : string) (m : Mark) :
  Any.applyMark (Any.str s) (jsonOfMark m) = Any.Returned (Any.str (PdfExport.applyMark s m)).
Proof.
  destruct m as [t]. unfold Any.applyMark, PdfExport.applyMark, jsonOfMark.
  cbn [Any.prop Any.membersOf Any.lookup mark_type].
  change ("type" =? "type") with true. cbn [bind Any.Monad_Result Any.isStr].
  destruct (t =? "bold"); [reflexivity|].
  destruct (t =? "italic"); [reflexivity|].
  destruct (t =? "underline"); [reflexivity|].
  destruct (t =? "strike"); reflexivity.
Qed.

Lemma any_marks (l : list Mark) (s : string) :
  fold_left (fun acc mark => t <- acc ;; Any.applyMark t mark) (map jsonOfMark l)
            (Any.Returned (Any.str s))
  = Any.Returned (Any.str (fold_left PdfExport.applyMark l s)).
Proof.
  revert s. induction l as [|m l IH]; intros s; [reflexivity|].
  cbn [map fold_left]. cbn [bind Any.Monad_Result]. rewrite any_applyMark. apply IH.
Qed.

Lemma any_renderText (node : TiptapNode) :
  Any.renderText (Any.membersOf (jsonOfNode node))
  = Any.Returned (Any.str (PdfExport.renderText node)).
Proof.
  destruct node as [ty c tx ms a].
  destruct (node_members ty c tx ms a) as (_ & Htx & Hms & _ & _). cbv zeta in *.
  unfold Any.renderText, PdfExport.renderText. rewrite Htx, Hms. cbn [text marks].
  assert (Ht : Any.orValue (option_map JString tx) (Any.str EmptyString)
               = Any.str (orElse tx EmptyString)).
  { destruct tx as [s|]; [|reflexivity]. unfold Any.orValue, orElse. cbn.
    destruct (s =? EmptyString); reflexivity. }
  rewrite Ht. destruct ms as [l|]; [|reflexivity].
  cbn [option_map Any.truthy]. apply any_marks.
Qed.

Lemma any_checkedWord (node : TiptapNode) :
  Any.checkedWord (Any.membersOf (jsonOfNode node)) = PdfExport.checkedWord node.
Proof.
  destruct node as [ty c tx ms a].
  destruct (node_members ty c tx ms a) as (_ & _ & _ & Ha & _). cbv zeta in *.
  unfold Any.checkedWord, PdfExport.checkedWord, attr. rewrite Ha. cbn [attrs].
  destruct (attrs_members a) as (_ & _ & Hc). rewrite Hc.
  destruct a as [a|]; [|reflexivity]. destruct (checked a) as [[]|]; reflexivity.
Qed.

Lemma any_switchOnType (node : TiptapNode) :
  Any.switchOnType (Any.membersOf (jsonOfNode node))
  = Any.Returned (PdfExport.switchOnType node).
Proof.
  unfold Any.switchOnType, PdfExport.switchOnType. rewrite any_checkedWord.
  destruct node as [ty c tx ms a].
  destruct (node_members ty c tx ms a) as (Hty & _ & _ & Ha & _). cbv zeta in *.
  rewrite Hty, Ha. cbn [Any.isStr type].
  destruct (attrs_members a) as (Hl & _ & _). rewrite Hl.
  assert (Hlevel : Any.valueToStr
                     (Any.orValue
                        (option_map JNumber
                           (match a with Some a' => level a' | None => None end))
                        (Some (JNumber 1)))
                   = Any.Returned
                       (numberToString (PdfExport.levelOrOne (mkNode ty c tx ms a)))).
  { unfold PdfExport.levelOrOne, attr. cbn [attrs].
    destruct a as [a|]; [|reflexivity]. destruct (level a) as [n|]; [|reflexivity].
    unfold Any.orValue. cbn. destruct (Z.eqb n 0); reflexivity. }
  rewrite Hlevel. cbn [bind Any.Monad_Result ret].
  repeat match goal with
         | |- context [if ?b then _ else _] => destruct b
         end; reflexivity.
Qed.

Lemma fold_append (l : list string) (h : string) :
  fold_left (fun (acc : Any.Result string) (r : Any.Result Any.Value) =>
               h' <- acc ;; v <- r ;; s <- Any.valueToStr v ;; ret (h' ++ s))
            (map (fun s => Any.Returned (Any.str s)) l) (Any.Returned h)
  = Any.Returned (h ++ join EmptyString l).
Proof.
  revert h. induction l as [|x l IH]; intros h.
  - cbn. now rewrite append_nil_r.
  - cbn [map fold_left]. cbn [bind Any.Monad_Result ret Any.valueToStr Any.str Any.toStr].
    rewrite IH, join_empty_cons. now rewrite append_assoc.
Qed.

Lemma any_wrapElement (node : TiptapNode) (tag : string) (attrs0 : list string) :
  Any.wrapElement (Any.membersOf (jsonOfNode node)) tag attrs0
    (option_map (map (fun T => Any.Returned (Any.str (PdfExport.convertNodeToHtml T))))
                (content node))
  = Any.Returned
      (Any.str (PdfExport.wrapElement node tag attrs0 (renderChildren (content node)))).
Proof.
  unfold Any.wrapElement, PdfExport.wrapElement. rewrite any_checkedWord.
  destruct node as [ty c tx ms a].
  destruct (node_members ty c tx ms a) as (Hty & _ & _ & Ha & _). cbv zeta in *.
  rewrite Hty, Ha. cbn [Any.isStr type content].
  destruct (attrs_members a) as (_ & Hal & _). rewrite Hal.
  unfold PdfExport.alignAttr, PdfExport.taskCheckbox, attr. cbn [attrs type].
  set (al := match a with Some a' => textAlign a' | None => None end).
  assert (Hattrs :
    (if Any.truthy (option_map JString al)
     then a0 <- Any.valueToStr (option_map JString al) ;;
          ret (attrs0 ++ [("style=" ++ dq ++ "text-align: " ++ a0 ++ dq)%string])%list
     else ret attrs0)
    = Any.Returned
        (attrs0 ++ (if truthyStr al
                    then [("style=" ++ dq ++ "text-align: " ++ orElse al EmptyString ++ dq)%string]
                    else []))%list).
  { destruct al as [s|]; cbn; [|now rewrite app_nil_r].
    destruct (s =? EmptyString); cbn; [now rewrite app_nil_r | reflexivity]. }
  rewrite Hattrs. cbn [bind Any.Monad_Result ret].
  set (attrs1 := (attrs0 ++ _)%list).
  set (pre := (if ty =? "taskItem" then _ else EmptyString) ++ PdfExport.openTag tag attrs1).
  assert (Hch :
    match option_map (map (fun T => Any.Returned (Any.str (PdfExport.convertNodeToHtml T)))) c with
    | Some results =>
        fold_left (fun acc r => h <- acc ;; v <- r ;; s <- Any.valueToStr v ;; ret (h ++ s))
                  results (Any.Returned pre)
    | None => ret pre
    end = Any.Returned (pre ++ renderChildren c)).
  { destruct c as [l|]; cbn [option_map renderChildren].
    - rewrite <- (map_map PdfExport.convertNodeToHtml (fun s => Any.Returned (Any.str s))).
      apply fold_append.
    - cbn. now rewrite append_nil_r. }
  cbn [bind Any.Monad_Result ret] in Hch. rewrite Hch.
  destruct (arrayIncludes PdfExport.blockTags tag); reflexivity.
Qed.

Lemma any_joinValues (l : list string) :
  Any.joinValues (map Any.str l) = Any.Returned (Any.str (join EmptyString l)).
Proof.
  unfold Any.joinValues.
  match goal with
  | |- context [Any.sequence ?x] => assert (E : Any.sequence x = Any.Returned l)
  end.
  { induction l as [|x l IH]; [reflexivity|]. cbn [map Any.sequence Any.str Any.toStr].
    now rewrite IH. }
  cbn [bind Any.Monad_Result]. now rewrite E.
Qed.

Lemma any_sequence_returned {A} (l : list A) :
  Any.sequence (map Any.Returned l) = Any.Returned l.
Proof.
  induction l as [|x l IH]; [reflexivity|]. cbn [map Any.sequence]. now rewrite IH.
Qed.

Lemma any_rendered (ty : string) (c : option (list TiptapNode)) (tx : option string)
    (ms : option (list Mark)) (a : option Attrs) (f : Json -> Any.Result Any.Value) :
  match jsonOfNode (mkNode ty c tx ms a) with
  | JObject members =>
      fold_left (fun acc (kv : string * Json) =>
                   let (k, v) := kv in
                   if k =? "content" then
                     match v with
                     | JArray l => Some (map f l)
                     | _ => None
                     end
                   else acc) members None
  | _ => None
  end = option_map (fun l => map f (map jsonOfNode l)) c.
Proof.
  destruct c, tx, ms, a; reflexivity.
Qed.

Lemma any_convertNodeToHtml_unfold (node : Json) :
  Any.convertNodeToHtml node
  = Any.convertWith node
      (match node with
       | JObject members =>
           fold_left (fun acc (kv : string * Json) =>
                        let (k, v) := kv in
                        if k =? "content" then
                          match v with
                          | JArray l => Some (map Any.convertNodeToHtml l)
                          | _ => None
                          end
                        else acc) members None
       | _ => None
       end).
Proof.
  destruct node; reflexivity.
Qed.

Lemma typed_convertNodeToHtml (T : TiptapNode) :
  Any.convertNodeToHtml (jsonOfNode T)
  = Any.Returned (Any.str (PdfExport.convertNodeToHtml T)).
Proof.
  induction T as [node IH] using tree_ind.
  rewrite any_convertNodeToHtml_unfold, convertNodeToHtml_unfold.
  destruct node as [ty c tx ms a] eqn:En.
  rewrite any_rendered. rewrite <- En in *.
  assert (Hr : option_map (fun l => map Any.convertNodeToHtml (map jsonOfNode l)) c
               = option_map
                   (map (fun T => Any.Returned (Any.str (PdfExport.convertNodeToHtml T))))
                   (content node)).
  { subst node. cbn [content children] in *. destruct c as [l|]; [|reflexivity].
    cbn [option_map]. f_equal. unfold children in IH. cbn [content] in IH.
    induction IH as [|x l Hx _ IHl]; [reflexivity|]. cbn [map]. now rewrite Hx, IHl. }
  rewrite Hr. unfold Any.convertWith.
  assert (Htruthy : Any.truthy (Some (jsonOfNode node)) = true) by (subst node; reflexivity).
  rewrite Htruthy. cbn [negb].
  assert (Hty : Any.lookup "type" (Any.membersOf (jsonOfNode node)) = Some (JString (type node))).
  { subst node. exact (proj1 (node_members ty c tx ms a)). }
  rewrite Hty. cbn [Any.isStr].
  destruct (type node =? "text"); [apply any_renderText|].
  rewrite any_switchOnType. cbn [bind Any.Monad_Result].
  destruct (PdfExport.switchOnType node) as [html| |tag attrs0]; [reflexivity | |].
  - unfold renderChildren. destruct (content node) as [l|]; [|reflexivity].
    cbn [option_map].
    rewrite <- (map_map (fun T => Any.str (PdfExport.convertNodeToHtml T)) Any.Returned).
    rewrite any_sequence_returned. cbn [bind Any.Monad_Result].
    rewrite <- (map_map PdfExport.convertNodeToHtml Any.str). apply any_joinValues.
  - apply any_wrapElement.
Qed.

(** X23: on the trees of the [TiptapNode] interface the code read on
    values of type [any] and the code read on the interface agree.  The
    renderer throws nothing and returns the string of the typed renderer,
    and the entry point returns this string for the tree and for its JSON
    text, with the console untouched: neither handler is entered. *)
Theorem typed_renderer_agrees :
  forall (T : TiptapNode) (w : World),
    Any.convertNodeToHtml (jsonOfNode T)
    = Any.Returned (Any.str (PdfExport.convertNodeToHtml T))
    /\ (forall JSON_parse : string -> option Json,
           runState (Any.tiptapToHtml JSON_parse (Some (jsonOfNode T))) w
           = (Any.Returned (Any.str (PdfExport.convertNodeToHtml T)), w))
    /\ runState
         (Any.tiptapToHtml Any.JSON_parse
            (Some (JString (Any.JSON_stringify (jsonOfNode T))))) w
       = (Any.Returned (Any.str (PdfExport.convertNodeToHtml T)), w).
Proof.
  intros T w. split; [apply typed_convertNodeToHtml|].
  pose proof (typed_convertNodeToHtml T) as H.
  assert (Hobj : exists members, jsonOfNode T = JObject members)
    by (destruct T; eexists; reflexivity).
  destruct Hobj as (members & Hm). rewrite Hm in *.
  assert (E : Any.convertParsed (JObject members)
              = Any.Returned (Any.str (PdfExport.convertNodeToHtml T))).
  { unfold Any.convertParsed. cbn [Any.truthy negb Any.prop Any.membersOf].
    cbn [bind Any.Monad_Result]. destruct (_ || _); exact H. }
  split.
  - intros JSON_parse. unfold Any.tiptapToHtml. rewrite E. destruct w. reflexivity.
  - unfold Any.tiptapToHtml, Any.JSON_parse, Any.JSON_stringify.
    rewrite parseJson_print, E. destruct w. reflexivity.
Qed.

(** The agreement at the paragraph that says hello. *)
Example typed_renderer_agrees_example :
  Any.convertNodeToHtml (jsonOfNode Examples.helloParagraph)
  = Any.Returned (Any.str ("<p><em><strong>hello</strong></em></p>" ++ nl)).
Proof. reflexivity. Qed.

End TypedRenderer.
